(** * Break Reminder: session timer, activity monitor and settings store

    A shallow embedding of [complete_integrated_app.py] (the integrated
    application) and of [standalone-break-reminder.py] (the standalone
    variant), with the properties of the timer state machine, of the
    activity monitor and of the JSON settings file proved about it.

    Conventions.
    - Python exceptions are values of [exn]; a call that may raise returns a
      [res]; methods that mutate [self] and may raise live in the monad
      [M S], which keeps the mutations done before the exception.
    - A [tk.StringVar] is a [string], a [tk.BooleanVar] a [bool].
    - Readings of [time.time()] are integers in a fixed unit.
    - The timer thread, the monitor thread and the listeners are interleaved
      at the grain of one loop pass and one callback.
    - The attribute dictionary of an object and a parsed JSON object are
      [gmap string pyval]. *)

From Stdlib Require Import ZArith Ascii String List Bool Lia DecimalString DecimalZ.
From stdpp Require Import base option strings gmap.

Local Open Scope string_scope.
Local Open Scope Z_scope.

(** ** Exceptions and results *)

(** The exception classes the modelled code can meet.  [JSONDecodeError]
    and [UnicodeDecodeError] are subclasses of [ValueError] and are
    represented by it. *)
Inductive exn : Type :=
| ValueError
| AttributeError
| OSError
| TypeError.

Inductive res (A : Type) : Type :=
| Ok (a : A)
| Raise (e : exn).
Arguments Ok {A} a.
Arguments Raise {A} e.

(** [except (ValueError, AttributeError)]: does the handler catch [e]? *)
Definition value_or_attribute_error (e : exn) : bool :=
  match e with
  | ValueError | AttributeError => true
  | _ => false
  end.

Definition is_value_error (e : exn) : bool :=
  match e with
  | ValueError => true
  | _ => false
  end.

(** ** The state-and-exception monad *)

Module Py.

Definition M (S A : Type) : Type := S -> res A * S.

Definition ret {S A} (a : A) : M S A := fun s => (Ok a, s).

Definition bind {S A B} (m : M S A) (k : A -> M S B) : M S B :=
  fun s =>
    match m s with
    | (Ok a, s') => k a s'
    | (Raise e, s') => (Raise e, s')
    end.

Definition raise {S A} (e : exn) : M S A := fun s => (Raise e, s).

Definition get {S} : M S S := fun s => (Ok s, s).

Definition modify {S} (f : S -> S) : M S unit := fun s => (Ok tt, f s).

(** Lift a pure computation that may raise. *)
Definition lift {S A} (r : res A) : M S A := fun s => (r, s).

(** [try: body  except <classes>: handler].  The handler runs in the state
    the body left behind. *)
Definition try_except {S A} (body : M S A) (catches : exn -> bool)
    (handler : M S A) : M S A :=
  fun s =>
    match body s with
    | (Ok a, s') => (Ok a, s')
    | (Raise e, s') => if catches e then handler s' else (Raise e, s')
    end.

(** A bare [except:] catches everything. *)
Definition any_exception (e : exn) : bool := true.

(** [for x in l: body x] *)
Fixpoint for_each {S A} (l : list A) (body : A -> M S unit) : M S unit :=
  match l with
  | [] => ret tt
  | x :: l' => bind (body x) (fun _ => for_each l' body)
  end.

End Py.

Notation "x <- m ;; k" := (Py.bind m (fun x => k))
  (at level 100, m at next level, right associativity).
Notation "m ;;; k" := (Py.bind m (fun _ => k))
  (at level 100, right associativity).

(** ** [int(text)] on the text of an entry field *)

Module PyInt.

(** ASCII characters for which [str.isspace] holds. *)
Definition is_space (c : ascii) : bool :=
  let n := nat_of_ascii c in
  ((n =? 32) || ((9 <=? n) && (n <=? 13)) || ((28 <=? n) && (n <=? 31)))%nat.

Definition is_digit (c : ascii) : bool :=
  let n := nat_of_ascii c in ((48 <=? n) && (n <=? 57))%nat.

Definition digit_val (c : ascii) : Z := Z.of_nat (nat_of_ascii c) - 48.

Fixpoint lstrip (s : list ascii) : list ascii :=
  match s with
  | c :: s' => if is_space c then lstrip s' else s
  | [] => []
  end.

Definition strip (s : list ascii) : list ascii :=
  rev (lstrip (rev (lstrip s))).

Inductive prev : Type := AtStart | AfterDigit | AfterUnderscore.

(** Decimal digits, single underscores allowed between two digits. *)
Fixpoint digits (acc : Z) (p : prev) (s : list ascii) : option Z :=
  match s with
  | [] => match p with AfterDigit => Some acc | _ => None end
  | c :: s' =>
      if is_digit c then digits (10 * acc + digit_val c) AfterDigit s'
      else if Ascii.eqb c "_"%char then
        match p with
        | AfterDigit => digits acc AfterUnderscore s'
        | _ => None
        end
      else None
  end.

Definition signed (s : list ascii) : option Z :=
  match s with
  | c :: s' =>
      if Ascii.eqb c "-"%char then Z.opp <$> digits 0 AtStart s'
      else if Ascii.eqb c "+"%char then digits 0 AtStart s'
      else digits 0 AtStart s
  | [] => None
  end.

(** [int(s)] for a [str] of ASCII characters: surrounding white space is
    dropped, one sign is accepted, the digits are read in base ten;
    anything else raises [ValueError].  The cap that recent interpreters
    put on the number of digits (4300 by default) is not modelled. *)
Definition int (s : string) : res Z :=
  match signed (strip (list_ascii_of_string s)) with
  | Some z => Ok z
  | None => Raise ValueError
  end.

(** [int(var.get()) if var.get() else fallback]: the empty text is falsy
    and selects the fallback without calling [int]. *)
Definition int_if_nonempty (text : string) (fallback : Z) : res Z :=
  match text with
  | EmptyString => Ok fallback
  | _ => int text
  end.

End PyInt.

(** ** Python values held by attributes and by the JSON file *)

(** What [json.load] can return, which is also what [setattr] can store.
    A JSON real number is kept as its literal text. *)
#[warnings="-register-all"]
Inductive pyval : Type :=
| PNone
| PBool (b : bool)
| PInt (z : Z)
| PFloat (literal : string)
| PStr (s : string)
| PList (l : list pyval)
| PDict (d : gmap string pyval).

(** ** The settings file on disk *)

(** What the bytes of an existing file are to [json.load]: either they do not
    decode (bad encoding, not JSON) or they are a JSON document.  [json.dump]
    followed by [json.load] gives back a dictionary of [int] and [bool]
    values unchanged, so the disk holds the document itself. *)
Inductive file_content : Type :=
| Undecodable
| Document (v : pyval).

(** [config_file] is [None] when [os.path.exists] is false.  [readable] and
    [writable] say whether [open(..., 'r')] and [open(..., 'w')] succeed. *)
Record disk : Type := {
  config_file : option file_content;
  readable : bool;
  writable : bool
}.

Module SettingsStore.

(** [default_config] of [load_config], in the order of the dictionary. *)
Definition default_config : list (string * pyval) :=
  [ ("work_minutes", PInt 25);
    ("break_minutes", PInt 5);
    ("long_break_minutes", PInt 15);
    ("sessions_until_long_break", PInt 4);
    ("sound_enabled", PBool true);
    ("minimize_to_tray", PBool true);
    ("auto_start_break", PBool true);
    ("auto_start_work", PBool false);
    ("auto_start_on_launch", PBool true);
    ("auto_restart_on_skip", PBool true);
    ("activity_detection_enabled", PBool true);
    ("inactivity_timeout", PInt 60);
    ("pause_during_breaks", PBool false) ].

(** [self]: the attribute dictionary of the application object. *)
Definition setattr (key : string) (value : pyval) : Py.M (gmap string pyval) unit :=
  Py.modify (fun self => <[key := value]> self).

Definition getattr (key : string) : Py.M (gmap string pyval) pyval :=
  fun self =>
    match self !! key with
    | Some v => (Ok v, self)
    | None => (Raise AttributeError, self)
    end.

(** [config.get(key, value)]; only a dictionary has a [get] method. *)
Definition config_get (config : pyval) (key : string) (value : pyval) : res pyval :=
  match config with
  | PDict d => Ok (default value (d !! key))
  | _ => Raise AttributeError
  end.

(** [with open(self.config_file, 'r') as f: config = json.load(f)] *)
Definition open_and_json_load (d : disk) : res pyval :=
  if readable d then
    match config_file d with
    | Some (Document v) => Ok v
    | Some Undecodable => Raise ValueError
    | None => Raise OSError
    end
  else Raise OSError.

Definition set_defaults : Py.M (gmap string pyval) unit :=
  Py.for_each default_config (fun kv => setattr kv.1 kv.2).

(** [load_config] *)
Definition load_config (d : disk) : Py.M (gmap string pyval) unit :=
  (match config_file d with
   | Some _ =>
       Py.try_except
         (config <- Py.lift (open_and_json_load d) ;;
          Py.for_each default_config (fun kv =>
            v <- Py.lift (config_get config kv.1 kv.2) ;;
            setattr kv.1 v))
         Py.any_exception
         set_defaults
   | None => set_defaults
   end) ;;;
  setattr "session_count" (PInt 0).

(** The names [save_config] writes, in the order of its dictionary. *)
Definition saved_keys : list string :=
  [ "work_minutes"; "break_minutes"; "long_break_minutes";
    "sessions_until_long_break"; "sound_enabled"; "minimize_to_tray";
    "auto_start_break"; "auto_start_work"; "auto_start_on_launch";
    "auto_restart_on_skip"; "activity_detection_enabled";
    "inactivity_timeout"; "pause_during_breaks" ].

(** The dictionary literal of [save_config]: one attribute read per key. *)
Fixpoint build_config (keys : list string) (config : gmap string pyval)
    : Py.M (gmap string pyval) (gmap string pyval) :=
  match keys with
  | [] => Py.ret config
  | key :: keys' =>
      v <- getattr key ;;
      build_config keys' (<[key := v]> config)
  end.

(** [save_config]: returns the disk after the call.  When the file cannot be
    opened for writing the disk is left as it was. *)
Definition save_config (d : disk) : Py.M (gmap string pyval) disk :=
  config <- build_config saved_keys ∅ ;;
  if writable d then
    Py.ret {| config_file := Some (Document (PDict config));
              readable := readable d;
              writable := writable d |}
  else Py.raise OSError.

End SettingsStore.

(** ** The settings as the timer reads them *)

(** The thirteen configuration attributes of the application object, with
    the types the timer code relies on ([self.work_minutes * 60],
    [self.session_count >= self.sessions_until_long_break], ...). *)
Record Settings : Type := {
  work_minutes : Z;
  break_minutes : Z;
  long_break_minutes : Z;
  sessions_until_long_break : Z;
  sound_enabled : bool;
  minimize_to_tray : bool;
  auto_start_break : bool;
  auto_start_work : bool;
  auto_start_on_launch : bool;
  auto_restart_on_skip : bool;
  activity_detection_enabled : bool;
  inactivity_timeout : Z;
  pause_during_breaks : bool
}.

(** Attribute assignment, one function per attribute: [self.f = v]. *)
Definition set_work_minutes (v : Z) (r : Settings) : Settings :=
  {| work_minutes := v; break_minutes := break_minutes r;
     long_break_minutes := long_break_minutes r;
     sessions_until_long_break := sessions_until_long_break r;
     sound_enabled := sound_enabled r; minimize_to_tray := minimize_to_tray r;
     auto_start_break := auto_start_break r;
     auto_start_work := auto_start_work r;
     auto_start_on_launch := auto_start_on_launch r;
     auto_restart_on_skip := auto_restart_on_skip r;
     activity_detection_enabled := activity_detection_enabled r;
     inactivity_timeout := inactivity_timeout r;
     pause_during_breaks := pause_during_breaks r |}.

Definition set_break_minutes (v : Z) (r : Settings) : Settings :=
  {| work_minutes := work_minutes r; break_minutes := v;
     long_break_minutes := long_break_minutes r;
     sessions_until_long_break := sessions_until_long_break r;
     sound_enabled := sound_enabled r; minimize_to_tray := minimize_to_tray r;
     auto_start_break := auto_start_break r;
     auto_start_work := auto_start_work r;
     auto_start_on_launch := auto_start_on_launch r;
     auto_restart_on_skip := auto_restart_on_skip r;
     activity_detection_enabled := activity_detection_enabled r;
     inactivity_timeout := inactivity_timeout r;
     pause_during_breaks := pause_during_breaks r |}.

Definition set_long_break_minutes (v : Z) (r : Settings) : Settings :=
  {| work_minutes := work_minutes r; break_minutes := break_minutes r;
     long_break_minutes := v;
     sessions_until_long_break := sessions_until_long_break r;
     sound_enabled := sound_enabled r; minimize_to_tray := minimize_to_tray r;
     auto_start_break := auto_start_break r;
     auto_start_work := auto_start_work r;
     auto_start_on_launch := auto_start_on_launch r;
     auto_restart_on_skip := auto_restart_on_skip r;
     activity_detection_enabled := activity_detection_enabled r;
     inactivity_timeout := inactivity_timeout r;
     pause_during_breaks := pause_during_breaks r |}.

Definition set_sessions_until_long_break (v : Z) (r : Settings) : Settings :=
  {| work_minutes := work_minutes r; break_minutes := break_minutes r;
     long_break_minutes := long_break_minutes r;
     sessions_until_long_break := v; sound_enabled := sound_enabled r;
     minimize_to_tray := minimize_to_tray r;
     auto_start_break := auto_start_break r;
     auto_start_work := auto_start_work r;
     auto_start_on_launch := auto_start_on_launch r;
     auto_restart_on_skip := auto_restart_on_skip r;
     activity_detection_enabled := activity_detection_enabled r;
     inactivity_timeout := inactivity_timeout r;
     pause_during_breaks := pause_during_breaks r |}.

Definition set_sound_enabled (v : bool) (r : Settings) : Settings :=
  {| work_minutes := work_minutes r; break_minutes := break_minutes r;
     long_break_minutes := long_break_minutes r;
     sessions_until_long_break := sessions_until_long_break r;
     sound_enabled := v; minimize_to_tray := minimize_to_tray r;
     auto_start_break := auto_start_break r;
     auto_start_work := auto_start_work r;
     auto_start_on_launch := auto_start_on_launch r;
     auto_restart_on_skip := auto_restart_on_skip r;
     activity_detection_enabled := activity_detection_enabled r;
     inactivity_timeout := inactivity_timeout r;
     pause_during_breaks := pause_during_breaks r |}.

Definition set_minimize_to_tray (v : bool) (r : Settings) : Settings :=
  {| work_minutes := work_minutes r; break_minutes := break_minutes r;
     long_break_minutes := long_break_minutes r;
     sessions_until_long_break := sessions_until_long_break r;
     sound_enabled := sound_enabled r; minimize_to_tray := v;
     auto_start_break := auto_start_break r;
     auto_start_work := auto_start_work r;
     auto_start_on_launch := auto_start_on_launch r;
     auto_restart_on_skip := auto_restart_on_skip r;
     activity_detection_enabled := activity_detection_enabled r;
     inactivity_timeout := inactivity_timeout r;
     pause_during_breaks := pause_during_breaks r |}.

Definition set_auto_start_break (v : bool) (r : Settings) : Settings :=
  {| work_minutes := work_minutes r; break_minutes := break_minutes r;
     long_break_minutes := long_break_minutes r;
     sessions_until_long_break := sessions_until_long_break r;
     sound_enabled := sound_enabled r; minimize_to_tray := minimize_to_tray r;
     auto_start_break := v; auto_start_work := auto_start_work r;
     auto_start_on_launch := auto_start_on_launch r;
     auto_restart_on_skip := auto_restart_on_skip r;
     activity_detection_enabled := activity_detection_enabled r;
     inactivity_timeout := inactivity_timeout r;
     pause_during_breaks := pause_during_breaks r |}.

Definition set_auto_start_work (v : bool) (r : Settings) : Settings :=
  {| work_minutes := work_minutes r; break_minutes := break_minutes r;
     long_break_minutes := long_break_minutes r;
     sessions_until_long_break := sessions_until_long_break r;
     sound_enabled := sound_enabled r; minimize_to_tray := minimize_to_tray r;
     auto_start_break := auto_start_break r; auto_start_work := v;
     auto_start_on_launch := auto_start_on_launch r;
     auto_restart_on_skip := auto_restart_on_skip r;
     activity_detection_enabled := activity_detection_enabled r;
     inactivity_timeout := inactivity_timeout r;
     pause_during_breaks := pause_during_breaks r |}.

Definition set_auto_start_on_launch (v : bool) (r : Settings) : Settings :=
  {| work_minutes := work_minutes r; break_minutes := break_minutes r;
     long_break_minutes := long_break_minutes r;
     sessions_until_long_break := sessions_until_long_break r;
     sound_enabled := sound_enabled r; minimize_to_tray := minimize_to_tray r;
     auto_start_break := auto_start_break r;
     auto_start_work := auto_start_work r; auto_start_on_launch := v;
     auto_restart_on_skip := auto_restart_on_skip r;
     activity_detection_enabled := activity_detection_enabled r;
     inactivity_timeout := inactivity_timeout r;
     pause_during_breaks := pause_during_breaks r |}.

Definition set_auto_restart_on_skip (v : bool) (r : Settings) : Settings :=
  {| work_minutes := work_minutes r; break_minutes := break_minutes r;
     long_break_minutes := long_break_minutes r;
     sessions_until_long_break := sessions_until_long_break r;
     sound_enabled := sound_enabled r; minimize_to_tray := minimize_to_tray r;
     auto_start_break := auto_start_break r;
     auto_start_work := auto_start_work r;
     auto_start_on_launch := auto_start_on_launch r;
     auto_restart_on_skip := v;
     activity_detection_enabled := activity_detection_enabled r;
     inactivity_timeout := inactivity_timeout r;
     pause_during_breaks := pause_during_breaks r |}.

Definition set_activity_detection_enabled (v : bool) (r : Settings) : Settings :=
  {| work_minutes := work_minutes r; break_minutes := break_minutes r;
     long_break_minutes := long_break_minutes r;
     sessions_until_long_break := sessions_until_long_break r;
     sound_enabled := sound_enabled r; minimize_to_tray := minimize_to_tray r;
     auto_start_break := auto_start_break r;
     auto_start_work := auto_start_work r;
     auto_start_on_launch := auto_start_on_launch r;
     auto_restart_on_skip := auto_restart_on_skip r;
     activity_detection_enabled := v;
     inactivity_timeout := inactivity_timeout r;
     pause_during_breaks := pause_during_breaks r |}.

Definition set_inactivity_timeout (v : Z) (r : Settings) : Settings :=
  {| work_minutes := work_minutes r; break_minutes := break_minutes r;
     long_break_minutes := long_break_minutes r;
     sessions_until_long_break := sessions_until_long_break r;
     sound_enabled := sound_enabled r; minimize_to_tray := minimize_to_tray r;
     auto_start_break := auto_start_break r;
     auto_start_work := auto_start_work r;
     auto_start_on_launch := auto_start_on_launch r;
     auto_restart_on_skip := auto_restart_on_skip r;
     activity_detection_enabled := activity_detection_enabled r;
     inactivity_timeout := v; pause_during_breaks := pause_during_breaks r |}.

Definition set_pause_during_breaks (v : bool) (r : Settings) : Settings :=
  {| work_minutes := work_minutes r; break_minutes := break_minutes r;
     long_break_minutes := long_break_minutes r;
     sessions_until_long_break := sessions_until_long_break r;
     sound_enabled := sound_enabled r; minimize_to_tray := minimize_to_tray r;
     auto_start_break := auto_start_break r;
     auto_start_work := auto_start_work r;
     auto_start_on_launch := auto_start_on_launch r;
     auto_restart_on_skip := auto_restart_on_skip r;
     activity_detection_enabled := activity_detection_enabled r;
     inactivity_timeout := inactivity_timeout r; pause_during_breaks := v |}.

(** The attribute dictionary that holds a [Settings] record. *)
Definition attrs_of_settings (s : Settings) : gmap string pyval :=
  <["work_minutes" := PInt (work_minutes s)]>
  (<["break_minutes" := PInt (break_minutes s)]>
  (<["long_break_minutes" := PInt (long_break_minutes s)]>
  (<["sessions_until_long_break" := PInt (sessions_until_long_break s)]>
  (<["sound_enabled" := PBool (sound_enabled s)]>
  (<["minimize_to_tray" := PBool (minimize_to_tray s)]>
  (<["auto_start_break" := PBool (auto_start_break s)]>
  (<["auto_start_work" := PBool (auto_start_work s)]>
  (<["auto_start_on_launch" := PBool (auto_start_on_launch s)]>
  (<["auto_restart_on_skip" := PBool (auto_restart_on_skip s)]>
  (<["activity_detection_enabled" := PBool (activity_detection_enabled s)]>
  (<["inactivity_timeout" := PInt (inactivity_timeout s)]>
  (<["pause_during_breaks" := PBool (pause_during_breaks s)]> ∅)))))))))))).

Definition int_attr (self : gmap string pyval) (key : string) : option Z :=
  match self !! key with
  | Some (PInt z) => Some z
  | _ => None
  end.

Definition bool_attr (self : gmap string pyval) (key : string) : option bool :=
  match self !! key with
  | Some (PBool b) => Some b
  | _ => None
  end.

(** The settings an attribute dictionary holds, when every configuration
    attribute is present with an [int] or a [bool] as expected. *)
Definition settings_of_attrs (self : gmap string pyval) : option Settings :=
  wm ← int_attr self "work_minutes";
  bm ← int_attr self "break_minutes";
  lbm ← int_attr self "long_break_minutes";
  sulb ← int_attr self "sessions_until_long_break";
  se ← bool_attr self "sound_enabled";
  mtt ← bool_attr self "minimize_to_tray";
  asb ← bool_attr self "auto_start_break";
  asw ← bool_attr self "auto_start_work";
  asol ← bool_attr self "auto_start_on_launch";
  aros ← bool_attr self "auto_restart_on_skip";
  ade ← bool_attr self "activity_detection_enabled";
  it ← int_attr self "inactivity_timeout";
  pdb ← bool_attr self "pause_during_breaks";
  Some {| work_minutes := wm; break_minutes := bm; long_break_minutes := lbm;
          sessions_until_long_break := sulb; sound_enabled := se;
          minimize_to_tray := mtt; auto_start_break := asb;
          auto_start_work := asw; auto_start_on_launch := asol;
          auto_restart_on_skip := aros; activity_detection_enabled := ade;
          inactivity_timeout := it; pause_during_breaks := pdb |}.

(** The ranges the [Spinbox] widgets of [setup_ui] declare. *)
Definition within_declared_ranges (s : Settings) : bool :=
  ((1 <=? work_minutes s) && (work_minutes s <=? 60) &&
  (1 <=? break_minutes s) && (break_minutes s <=? 30) &&
  (5 <=? long_break_minutes s) && (long_break_minutes s <=? 60) &&
  (2 <=? sessions_until_long_break s) && (sessions_until_long_break s <=? 10) &&
  (30 <=? inactivity_timeout s) && (inactivity_timeout s <=? 300))%Z.

(** ** The activity monitor *)

Module ActivityMonitor.

(** The status strings passed to the callback. *)
Inductive signal : Type :=
| paused
| resumed.

(** Times are readings of [time.time()], in any fixed unit.  [callback]
    says whether a callback was given to the constructor. *)
Record t : Type := {
  callback : bool;
  timeout : Z;
  last_activity : Z;
  is_active : bool;
  running : bool
}.

(** [__init__] *)
Definition init (has_callback : bool) (timeout_seconds now : Z) : t :=
  {| callback := has_callback;
     timeout := timeout_seconds;
     last_activity := now;
     is_active := true;
     running := false |}.

(** [on_activity]: returns the monitor and the status given to the
    callback, if the callback is called. *)
Definition on_activity (now : Z) (m : t) : t * option signal :=
  let current_time := now in
  let was_inactive := negb (is_active m) in
  let m' := {| callback := callback m;
               timeout := timeout m;
               last_activity := current_time;
               is_active := true;
               running := running m |} in
  (m', if was_inactive && callback m then Some resumed else None).

(** One pass through the body of the [while self.running] loop of
    [monitor_activity], up to the [time.sleep(1)]. *)
Definition monitor_activity_check (now : Z) (m : t) : t * option signal :=
  let current_time := now in
  let time_since_activity := current_time - last_activity m in
  if is_active m && (timeout m <? time_since_activity)%Z then
    ({| callback := callback m;
        timeout := timeout m;
        last_activity := last_activity m;
        is_active := false;
        running := running m |},
     if callback m then Some paused else None)
  else (m, None).

(** [start_monitoring]: [available] is [ACTIVITY_DETECTION_AVAILABLE]. *)
Definition start_monitoring (available : bool) (now : Z) (m : t) : t * bool :=
  if negb available then (m, false)
  else ({| callback := callback m;
           timeout := timeout m;
           last_activity := now;
           is_active := true;
           running := true |}, true).

(** [stop_monitoring] *)
Definition stop_monitoring (m : t) : t :=
  {| callback := callback m;
     timeout := timeout m;
     last_activity := last_activity m;
     is_active := is_active m;
     running := false |}.

(** [self.activity_monitor.timeout = ...] in [save_settings] *)
Definition set_timeout (v : Z) (m : t) : t :=
  {| callback := callback m;
     timeout := v;
     last_activity := last_activity m;
     is_active := is_active m;
     running := running m |}.

End ActivityMonitor.

(** ** The integrated application: state *)

(** The variables behind the entry fields and check boxes of [setup_ui]. *)
Record UiVars : Type := {
  work_var : string;
  break_var : string;
  long_break_var : string;
  sessions_var : string;
  timeout_var : string;
  sound_var : bool;
  auto_break_var : bool;
  auto_work_var : bool;
  auto_launch_var : bool;
  auto_skip_var : bool;
  activity_var : bool;
  pause_breaks_var : bool;
  autostart_var : bool;
  tray_var : bool
}.

(** The user typing into an entry field: [var.set(text)]. *)
Definition set_work_var (v : string) (r : UiVars) : UiVars :=
  {| work_var := v; break_var := break_var r;
     long_break_var := long_break_var r; sessions_var := sessions_var r;
     timeout_var := timeout_var r; sound_var := sound_var r;
     auto_break_var := auto_break_var r; auto_work_var := auto_work_var r;
     auto_launch_var := auto_launch_var r; auto_skip_var := auto_skip_var r;
     activity_var := activity_var r; pause_breaks_var := pause_breaks_var r;
     autostart_var := autostart_var r; tray_var := tray_var r |}.

Definition set_break_var (v : string) (r : UiVars) : UiVars :=
  {| work_var := work_var r; break_var := v;
     long_break_var := long_break_var r; sessions_var := sessions_var r;
     timeout_var := timeout_var r; sound_var := sound_var r;
     auto_break_var := auto_break_var r; auto_work_var := auto_work_var r;
     auto_launch_var := auto_launch_var r; auto_skip_var := auto_skip_var r;
     activity_var := activity_var r; pause_breaks_var := pause_breaks_var r;
     autostart_var := autostart_var r; tray_var := tray_var r |}.

Definition set_long_break_var (v : string) (r : UiVars) : UiVars :=
  {| work_var := work_var r; break_var := break_var r; long_break_var := v;
     sessions_var := sessions_var r; timeout_var := timeout_var r;
     sound_var := sound_var r; auto_break_var := auto_break_var r;
     auto_work_var := auto_work_var r; auto_launch_var := auto_launch_var r;
     auto_skip_var := auto_skip_var r; activity_var := activity_var r;
     pause_breaks_var := pause_breaks_var r; autostart_var := autostart_var r;
     tray_var := tray_var r |}.

Definition set_sessions_var (v : string) (r : UiVars) : UiVars :=
  {| work_var := work_var r; break_var := break_var r;
     long_break_var := long_break_var r; sessions_var := v;
     timeout_var := timeout_var r; sound_var := sound_var r;
     auto_break_var := auto_break_var r; auto_work_var := auto_work_var r;
     auto_launch_var := auto_launch_var r; auto_skip_var := auto_skip_var r;
     activity_var := activity_var r; pause_breaks_var := pause_breaks_var r;
     autostart_var := autostart_var r; tray_var := tray_var r |}.

Definition set_timeout_var (v : string) (r : UiVars) : UiVars :=
  {| work_var := work_var r; break_var := break_var r;
     long_break_var := long_break_var r; sessions_var := sessions_var r;
     timeout_var := v; sound_var := sound_var r;
     auto_break_var := auto_break_var r; auto_work_var := auto_work_var r;
     auto_launch_var := auto_launch_var r; auto_skip_var := auto_skip_var r;
     activity_var := activity_var r; pause_breaks_var := pause_breaks_var r;
     autostart_var := autostart_var r; tray_var := tray_var r |}.

Definition set_auto_skip_var (v : bool) (r : UiVars) : UiVars :=
  {| work_var := work_var r; break_var := break_var r;
     long_break_var := long_break_var r; sessions_var := sessions_var r;
     timeout_var := timeout_var r; sound_var := sound_var r;
     auto_break_var := auto_break_var r; auto_work_var := auto_work_var r;
     auto_launch_var := auto_launch_var r; auto_skip_var := v;
     activity_var := activity_var r; pause_breaks_var := pause_breaks_var r;
     autostart_var := autostart_var r; tray_var := tray_var r |}.

Inductive break_type : Type :=
| short
| long.

(** The pop-up of [show_break_window]: what it was opened with. *)
Record BreakWindow : Type := {
  shown_minutes : Z;
  shown_type : break_type
}.

(** The attributes of [BreakReminderApp] that the timer, the monitor
    callback and the settings code read or write, the disk behind
    [self.config_file], and the two module-level availability flags.
    Labels, notifications and sounds are written and never read back; they
    are left out. *)
Record App : Type := {
  settings : Settings;
  is_running : bool;
  is_break : bool;
  is_paused : bool;
  pause_reason : string;
  time_left : Z;
  session_count : Z;
  break_window : option BreakWindow;
  activity_monitor : ActivityMonitor.t;
  vars : UiVars;
  storage : disk;
  TRAY_AVAILABLE : bool;
  ACTIVITY_DETECTION_AVAILABLE : bool
}.

Definition set_settings (v : Settings) (r : App) : App :=
  {| settings := v; is_running := is_running r; is_break := is_break r;
     is_paused := is_paused r; pause_reason := pause_reason r;
     time_left := time_left r; session_count := session_count r;
     break_window := break_window r; activity_monitor := activity_monitor r;
     vars := vars r; storage := storage r; TRAY_AVAILABLE := TRAY_AVAILABLE r;
     ACTIVITY_DETECTION_AVAILABLE := ACTIVITY_DETECTION_AVAILABLE r |}.

Definition set_is_running (v : bool) (r : App) : App :=
  {| settings := settings r; is_running := v; is_break := is_break r;
     is_paused := is_paused r; pause_reason := pause_reason r;
     time_left := time_left r; session_count := session_count r;
     break_window := break_window r; activity_monitor := activity_monitor r;
     vars := vars r; storage := storage r; TRAY_AVAILABLE := TRAY_AVAILABLE r;
     ACTIVITY_DETECTION_AVAILABLE := ACTIVITY_DETECTION_AVAILABLE r |}.

Definition set_is_break (v : bool) (r : App) : App :=
  {| settings := settings r; is_running := is_running r; is_break := v;
     is_paused := is_paused r; pause_reason := pause_reason r;
     time_left := time_left r; session_count := session_count r;
     break_window := break_window r; activity_monitor := activity_monitor r;
     vars := vars r; storage := storage r; TRAY_AVAILABLE := TRAY_AVAILABLE r;
     ACTIVITY_DETECTION_AVAILABLE := ACTIVITY_DETECTION_AVAILABLE r |}.

Definition set_is_paused (v : bool) (r : App) : App :=
  {| settings := settings r; is_running := is_running r;
     is_break := is_break r; is_paused := v; pause_reason := pause_reason r;
     time_left := time_left r; session_count := session_count r;
     break_window := break_window r; activity_monitor := activity_monitor r;
     vars := vars r; storage := storage r; TRAY_AVAILABLE := TRAY_AVAILABLE r;
     ACTIVITY_DETECTION_AVAILABLE := ACTIVITY_DETECTION_AVAILABLE r |}.

Definition set_pause_reason (v : string) (r : App) : App :=
  {| settings := settings r; is_running := is_running r;
     is_break := is_break r; is_paused := is_paused r; pause_reason := v;
     time_left := time_left r; session_count := session_count r;
     break_window := break_window r; activity_monitor := activity_monitor r;
     vars := vars r; storage := storage r; TRAY_AVAILABLE := TRAY_AVAILABLE r;
     ACTIVITY_DETECTION_AVAILABLE := ACTIVITY_DETECTION_AVAILABLE r |}.

Definition set_time_left (v : Z) (r : App) : App :=
  {| settings := settings r; is_running := is_running r;
     is_break := is_break r; is_paused := is_paused r;
     pause_reason := pause_reason r; time_left := v;
     session_count := session_count r; break_window := break_window r;
     activity_monitor := activity_monitor r; vars := vars r;
     storage := storage r; TRAY_AVAILABLE := TRAY_AVAILABLE r;
     ACTIVITY_DETECTION_AVAILABLE := ACTIVITY_DETECTION_AVAILABLE r |}.

Definition set_session_count (v : Z) (r : App) : App :=
  {| settings := settings r; is_running := is_running r;
     is_break := is_break r; is_paused := is_paused r;
     pause_reason := pause_reason r; time_left := time_left r;
     session_count := v; break_window := break_window r;
     activity_monitor := activity_monitor r; vars := vars r;
     storage := storage r; TRAY_AVAILABLE := TRAY_AVAILABLE r;
     ACTIVITY_DETECTION_AVAILABLE := ACTIVITY_DETECTION_AVAILABLE r |}.

Definition set_break_window (v : option BreakWindow) (r : App) : App :=
  {| settings := settings r; is_running := is_running r;
     is_break := is_break r; is_paused := is_paused r;
     pause_reason := pause_reason r; time_left := time_left r;
     session_count := session_count r; break_window := v;
     activity_monitor := activity_monitor r; vars := vars r;
     storage := storage r; TRAY_AVAILABLE := TRAY_AVAILABLE r;
     ACTIVITY_DETECTION_AVAILABLE := ACTIVITY_DETECTION_AVAILABLE r |}.

Definition set_activity_monitor (v : ActivityMonitor.t) (r : App) : App :=
  {| settings := settings r; is_running := is_running r;
     is_break := is_break r; is_paused := is_paused r;
     pause_reason := pause_reason r; time_left := time_left r;
     session_count := session_count r; break_window := break_window r;
     activity_monitor := v; vars := vars r; storage := storage r;
     TRAY_AVAILABLE := TRAY_AVAILABLE r;
     ACTIVITY_DETECTION_AVAILABLE := ACTIVITY_DETECTION_AVAILABLE r |}.

Definition set_vars (v : UiVars) (r : App) : App :=
  {| settings := settings r; is_running := is_running r;
     is_break := is_break r; is_paused := is_paused r;
     pause_reason := pause_reason r; time_left := time_left r;
     session_count := session_count r; break_window := break_window r;
     activity_monitor := activity_monitor r; vars := v; storage := storage r;
     TRAY_AVAILABLE := TRAY_AVAILABLE r;
     ACTIVITY_DETECTION_AVAILABLE := ACTIVITY_DETECTION_AVAILABLE r |}.

Definition set_storage (v : disk) (r : App) : App :=
  {| settings := settings r; is_running := is_running r;
     is_break := is_break r; is_paused := is_paused r;
     pause_reason := pause_reason r; time_left := time_left r;
     session_count := session_count r; break_window := break_window r;
     activity_monitor := activity_monitor r; vars := vars r; storage := v;
     TRAY_AVAILABLE := TRAY_AVAILABLE r;
     ACTIVITY_DETECTION_AVAILABLE := ACTIVITY_DETECTION_AVAILABLE r |}.

Inductive Phase : Type :=
| Working
| ShortBreak
| LongBreak.

(** The phase of the specification.  The code keeps [is_break] only; which
    kind of break it is, is what the break window was opened with. *)
Definition phase (app : App) : Phase :=
  if is_break app then
    match break_window app with
    | Some w => match shown_type w with long => LongBreak | short => ShortBreak end
    | None => ShortBreak
    end
  else Working.

(** The duration, in seconds, that the current settings give the phase. *)
Definition phase_seconds (app : App) : Z :=
  match phase app with
  | Working => work_minutes (settings app) * 60
  | ShortBreak => break_minutes (settings app) * 60
  | LongBreak => long_break_minutes (settings app) * 60
  end.

(** ** The integrated application: operations *)

(** [on_activity_change]: the callback given to the activity monitor. *)
Definition on_activity_change (status : ActivityMonitor.signal) (app : App) : App :=
  match status with
  | ActivityMonitor.paused =>
      set_pause_reason "Away from computer" (set_is_paused true app)
  | ActivityMonitor.resumed =>
      if is_paused app then set_pause_reason "" (set_is_paused false app)
      else app
  end.

(** What reaches the monitor from its other threads: an input event seen by
    a listener, or one pass of the inactivity loop, at a clock reading. *)
Inductive monitor_event : Type :=
| InputEvent (now : Z)
| InactivityCheck (now : Z).

(** One monitor event on the application: the monitor handles it and calls
    the callback with the status it emits.  The listeners and the loop only
    exist while the monitor is running. *)
Definition deliver (ev : monitor_event) (app : App) : App :=
  let m := activity_monitor app in
  if ActivityMonitor.running m then
    let r := match ev with
             | InputEvent now => ActivityMonitor.on_activity now m
             | InactivityCheck now => ActivityMonitor.monitor_activity_check now m
             end in
    let app' := set_activity_monitor r.1 app in
    match r.2 with
    | Some status => on_activity_change status app'
    | None => app'
    end
  else app.

(** [time.sleep(1)] in the timer thread: the monitor events that happen
    meanwhile. *)
Definition sleep (during : list monitor_event) (app : App) : App :=
  fold_left (fun a ev => deliver ev a) during app.

(** [start_timer] (the thread it starts is the loop [run_timer] below) *)
Definition start_timer (app : App) : App := set_is_running true app.

(** [stop_timer] *)
Definition stop_timer (app : App) : App := set_is_running false app.

(** [toggle_timer] *)
Definition toggle_timer (app : App) : App :=
  if is_running app then stop_timer app else start_timer app.

(** [close_break_window] *)
Definition close_break_window (app : App) : App :=
  match break_window app with
  | Some _ => set_break_window None app
  | None => app
  end.

(** [show_break_window] *)
Definition show_break_window (minutes : Z) (kind : break_type) (app : App) : App :=
  set_break_window (Some {| shown_minutes := minutes; shown_type := kind |}) app.

(** The block
    [try: self.work_minutes = int(self.work_var.get()) if self.work_var.get() else self.work_minutes]
    [except (ValueError, AttributeError): pass]
    of [reset_timer], [on_timer_complete] and [skip_break]. *)
Definition reread_work_minutes : Py.M App unit :=
  Py.try_except
    (app <- Py.get ;;
     v <- Py.lift (PyInt.int_if_nonempty (work_var (vars app))
                     (work_minutes (settings app))) ;;
     Py.modify (fun app => set_settings (set_work_minutes v (settings app)) app))
    value_or_attribute_error
    (Py.ret tt).

(** [reset_timer] *)
Definition reset_timer : Py.M App unit :=
  Py.modify (set_is_running false) ;;;
  Py.modify (set_is_break false) ;;;
  Py.modify (set_is_paused false) ;;;
  Py.modify (set_session_count 0) ;;;
  reread_work_minutes ;;;
  Py.modify (fun app => set_time_left (work_minutes (settings app) * 60) app) ;;;
  Py.modify (fun app =>
    match break_window app with
    | Some _ => set_break_window None app
    | None => app
    end).

(** [should_pause] as computed at the top of the loop body of [run_timer]. *)
Definition should_pause (app : App) : bool :=
  activity_detection_enabled (settings app) &&
  ACTIVITY_DETECTION_AVAILABLE app &&
  negb (ActivityMonitor.is_active (activity_monitor app)) &&
  (negb (is_break app) || pause_during_breaks (settings app)).

(** One pass through the body of the [while] loop of [run_timer]; [during]
    is what the monitor does while the timer thread sleeps. *)
Definition run_timer_iteration (during : list monitor_event) (app : App) : App :=
  let should_pause := should_pause app in
  if negb should_pause || negb (is_paused app) then
    let app1 :=
      if is_paused app && negb should_pause
      then set_pause_reason "" (set_is_paused false app)
      else app in
    let app2 := sleep during app1 in
    if negb (is_paused app2)
    then set_time_left (time_left app2 - 1) app2
    else app2
  else
    let app1 :=
      if negb (is_paused app)
      then set_pause_reason "Away from computer" (set_is_paused true app)
      else app in
    sleep during app1.

Inductive loop_exit : Type :=
| TimerComplete   (* [self.root.after(0, self.on_timer_complete)] *)
| Stopped         (* left the loop without completing *)
| StillRunning.   (* the schedule ended inside the loop *)

(** [run_timer]: the loop, one element of [schedule] per pass. *)
Fixpoint run_timer (schedule : list (list monitor_event)) (app : App)
    : App * loop_exit :=
  if is_running app && (0 <? time_left app)%Z then
    match schedule with
    | [] => (app, StillRunning)
    | during :: schedule' =>
        run_timer schedule' (run_timer_iteration during app)
    end
  else
    (app, if is_running app && (time_left app =? 0)%Z
          then TimerComplete else Stopped).

(** [try: break_minutes = int(var.get()) if var.get() else fallback]
    [except (ValueError, AttributeError): break_minutes = fallback] *)
Definition break_minutes_from (text : string) (fallback : Z) : Py.M App Z :=
  Py.try_except
    (Py.lift (PyInt.int_if_nonempty text fallback))
    value_or_attribute_error
    (Py.ret fallback).

(** [on_timer_complete] *)
Definition on_timer_complete : Py.M App unit :=
  app <- Py.get ;;
  if is_break app then
    Py.modify close_break_window ;;;
    Py.modify (set_is_break false) ;;;
    reread_work_minutes ;;;
    Py.modify (fun app => set_time_left (work_minutes (settings app) * 60) app) ;;;
    app <- Py.get ;;
    if auto_work_var (vars app)
    then Py.modify start_timer
    else Py.modify (set_is_running false)
  else
    Py.modify (fun app => set_session_count (session_count app + 1) app) ;;;
    app <- Py.get ;;
    choice <-
      (if (sessions_until_long_break (settings app) <=? session_count app)%Z then
         break_minutes <-
           break_minutes_from (long_break_var (vars app))
             (long_break_minutes (settings app)) ;;
         Py.modify (set_session_count 0) ;;;
         Py.ret (break_minutes, long)
       else
         break_minutes <-
           break_minutes_from (break_var (vars app))
             (break_minutes (settings app)) ;;
         Py.ret (break_minutes, short)) ;;
    Py.modify (set_is_break true) ;;;
    Py.modify (set_time_left (choice.1 * 60)) ;;;
    Py.modify (show_break_window choice.1 choice.2) ;;;
    app <- Py.get ;;
    if auto_break_var (vars app)
    then Py.modify start_timer
    else Py.modify (set_is_running false).

(** [skip_break] *)
Definition skip_break : Py.M App unit :=
  Py.modify close_break_window ;;;
  Py.modify (set_is_running false) ;;;
  Py.modify (set_is_break false) ;;;
  Py.modify (set_is_paused false) ;;;
  reread_work_minutes ;;;
  Py.modify (fun app => set_time_left (work_minutes (settings app) * 60) app) ;;;
  app <- Py.get ;;
  if auto_skip_var (vars app)
  then Py.modify start_timer
  else Py.ret tt.

(** [save_config] of the application: the attributes are those of
    [settings], the file is [storage]. *)
Definition save_config : Py.M App unit :=
  fun app =>
    match SettingsStore.save_config (storage app) (attrs_of_settings (settings app)) with
    | (Ok d, _) => (Ok tt, set_storage d app)
    | (Raise e, _) => (Raise e, app)
    end.

(** [self.f = v] for a configuration attribute. *)
Definition assign_setting (f : App -> Settings -> Settings) : Py.M App unit :=
  Py.modify (fun app => set_settings (f app (settings app)) app).

(** Which message box [save_settings] ends with. *)
Inductive save_dialog : Type :=
| SettingsSaved     (* showinfo: Your settings have been saved! *)
| InvalidNumbers.   (* showerror: Please enter valid numbers ... *)

(** [save_settings]; [now] is the clock reading [start_monitoring] takes. *)
Definition save_settings (now : Z) : Py.M App save_dialog :=
  Py.try_except
    (ui <- (app <- Py.get ;; Py.ret (vars app)) ;;
     v <- Py.lift (PyInt.int_if_nonempty (work_var ui) 25) ;;
     assign_setting (fun _ => set_work_minutes v) ;;;
     v <- Py.lift (PyInt.int_if_nonempty (break_var ui) 5) ;;
     assign_setting (fun _ => set_break_minutes v) ;;;
     v <- Py.lift (PyInt.int_if_nonempty (long_break_var ui) 15) ;;
     assign_setting (fun _ => set_long_break_minutes v) ;;;
     v <- Py.lift (PyInt.int_if_nonempty (sessions_var ui) 4) ;;
     assign_setting (fun _ => set_sessions_until_long_break v) ;;;
     v <- Py.lift (PyInt.int_if_nonempty (timeout_var ui) 60) ;;
     assign_setting (fun _ => set_inactivity_timeout v) ;;;
     assign_setting (fun _ => set_sound_enabled (sound_var ui)) ;;;
     assign_setting (fun _ => set_auto_start_break (auto_break_var ui)) ;;;
     assign_setting (fun _ => set_auto_start_work (auto_work_var ui)) ;;;
     assign_setting (fun _ => set_auto_start_on_launch (auto_launch_var ui)) ;;;
     assign_setting (fun _ => set_auto_restart_on_skip (auto_skip_var ui)) ;;;
     assign_setting (fun _ => set_activity_detection_enabled (activity_var ui)) ;;;
     assign_setting (fun _ => set_pause_during_breaks (pause_breaks_var ui)) ;;;
     assign_setting (fun app s =>
       if TRAY_AVAILABLE app then set_minimize_to_tray (tray_var ui) s else s) ;;;
     Py.modify (fun app =>
       set_activity_monitor
         (ActivityMonitor.set_timeout (inactivity_timeout (settings app))
            (activity_monitor app)) app) ;;;
     Py.modify (fun app =>
       let m := activity_monitor app in
       if activity_detection_enabled (settings app) && ACTIVITY_DETECTION_AVAILABLE app then
         if negb (ActivityMonitor.running m)
         then set_activity_monitor
                (ActivityMonitor.start_monitoring (ACTIVITY_DETECTION_AVAILABLE app) now m).1 app
         else app
       else
         if ActivityMonitor.running m
         then set_activity_monitor (ActivityMonitor.stop_monitoring m) app
         else app) ;;;
     save_config ;;;
     Py.ret SettingsSaved)
    is_value_error
    (Py.ret InvalidNumbers).

(** [str(n)] for an [int]. *)
Definition str (z : Z) : string := NilZero.string_of_int (Z.to_int z).

(** [__init__], once [load_config] has set the configuration attributes to
    [s].  [tray] and [activity] are the availability flags,
    [start_minimized] the result of [handle_startup_args],
    [startup_enabled] that of [is_startup_enabled]. *)
Definition init (s : Settings) (d : disk) (tray activity : bool)
    (start_minimized startup_enabled : bool) (now : Z) : App :=
  let app :=
    {| settings := s;
       is_running := false;
       is_break := false;
       is_paused := false;
       pause_reason := "";
       time_left := work_minutes s * 60;
       session_count := 0;
       break_window := None;
       activity_monitor := ActivityMonitor.init true (inactivity_timeout s) now;
       vars := {| work_var := str (work_minutes s);
                  break_var := str (break_minutes s);
                  long_break_var := str (long_break_minutes s);
                  sessions_var := str (sessions_until_long_break s);
                  timeout_var := str (inactivity_timeout s);
                  sound_var := sound_enabled s;
                  auto_break_var := auto_start_break s;
                  auto_work_var := auto_start_work s;
                  auto_launch_var := auto_start_on_launch s;
                  auto_skip_var := auto_restart_on_skip s;
                  activity_var := activity_detection_enabled s;
                  pause_breaks_var := pause_during_breaks s;
                  autostart_var := startup_enabled;
                  tray_var := minimize_to_tray s |};
       storage := d;
       TRAY_AVAILABLE := tray;
       ACTIVITY_DETECTION_AVAILABLE := activity |} in
  let app :=
    if activity_detection_enabled s && activity
    then set_activity_monitor
           (ActivityMonitor.start_monitoring activity now (activity_monitor app)).1 app
    else app in
  if auto_start_on_launch s && negb start_minimized
  then start_timer app
  else app.

(** The application as launched from a disk: [load_config] on a fresh
    object, then [__init__] when the attributes it set are an [int] or a
    [bool] as the timer expects. *)
Definition launch (d : disk) (tray activity : bool)
    (start_minimized startup_enabled : bool) (now : Z) : option App :=
  s ← settings_of_attrs (SettingsStore.load_config d ∅).2;
  Some (init s d tray activity start_minimized startup_enabled now).

(** What drives the timer: the buttons, typing into the work field, one
    pass of the timer loop, the completion callback, the monitor. *)
Inductive command : Type :=
| Start
| Stop
| Toggle
| Reset
| SkipBreak
| TypeWorkMinutes (text : string)
| Tick (during : list monitor_event)
| TimeExpired
| Monitor (ev : monitor_event).

(** The state after a command.  The loop body and the completion callback
    only run under the guards [run_timer] puts on them. *)
Definition step (c : command) (app : App) : App :=
  match c with
  | Start => start_timer app
  | Stop => stop_timer app
  | Toggle => toggle_timer app
  | Reset => (reset_timer app).2
  | SkipBreak => (skip_break app).2
  | TypeWorkMinutes text => set_vars (set_work_var text (vars app)) app
  | Tick during =>
      if is_running app && (0 <? time_left app)%Z
      then run_timer_iteration during app
      else app
  | TimeExpired =>
      if is_running app && (time_left app =? 0)%Z
      then (on_timer_complete app).2
      else app
  | Monitor ev => deliver ev app
  end.

Definition steps (cs : list command) (app : App) : App :=
  fold_left (fun a c => step c a) cs app.

(** ** The standalone variant *)

Module Standalone.

(** The attributes of the standalone [BreakReminderApp] that
    [on_timer_complete] and [skip_break] read or write.  This variant has no
    [is_paused] and no [auto_skip_var]. *)
Record App : Type := {
  work_minutes : Z;
  break_minutes : Z;
  long_break_minutes : Z;
  sessions_until_long_break : Z;
  is_running : bool;
  is_break : bool;
  time_left : Z;
  session_count : Z;
  break_window : option BreakWindow;
  work_var : string;
  break_var : string;
  long_break_var : string;
  auto_break_var : bool;
  auto_work_var : bool
}.

Definition set_work_minutes (v : Z) (r : App) : App :=
  {| work_minutes := v; break_minutes := break_minutes r;
     long_break_minutes := long_break_minutes r;
     sessions_until_long_break := sessions_until_long_break r;
     is_running := is_running r; is_break := is_break r;
     time_left := time_left r; session_count := session_count r;
     break_window := break_window r; work_var := work_var r;
     break_var := break_var r; long_break_var := long_break_var r;
     auto_break_var := auto_break_var r; auto_work_var := auto_work_var r |}.

Definition set_is_running (v : bool) (r : App) : App :=
  {| work_minutes := work_minutes r; break_minutes := break_minutes r;
     long_break_minutes := long_break_minutes r;
     sessions_until_long_break := sessions_until_long_break r;
     is_running := v; is_break := is_break r; time_left := time_left r;
     session_count := session_count r; break_window := break_window r;
     work_var := work_var r; break_var := break_var r;
     long_break_var := long_break_var r; auto_break_var := auto_break_var r;
     auto_work_var := auto_work_var r |}.

Definition set_is_break (v : bool) (r : App) : App :=
  {| work_minutes := work_minutes r; break_minutes := break_minutes r;
     long_break_minutes := long_break_minutes r;
     sessions_until_long_break := sessions_until_long_break r;
     is_running := is_running r; is_break := v; time_left := time_left r;
     session_count := session_count r; break_window := break_window r;
     work_var := work_var r; break_var := break_var r;
     long_break_var := long_break_var r; auto_break_var := auto_break_var r;
     auto_work_var := auto_work_var r |}.

Definition set_time_left (v : Z) (r : App) : App :=
  {| work_minutes := work_minutes r; break_minutes := break_minutes r;
     long_break_minutes := long_break_minutes r;
     sessions_until_long_break := sessions_until_long_break r;
     is_running := is_running r; is_break := is_break r; time_left := v;
     session_count := session_count r; break_window := break_window r;
     work_var := work_var r; break_var := break_var r;
     long_break_var := long_break_var r; auto_break_var := auto_break_var r;
     auto_work_var := auto_work_var r |}.

Definition set_session_count (v : Z) (r : App) : App :=
  {| work_minutes := work_minutes r; break_minutes := break_minutes r;
     long_break_minutes := long_break_minutes r;
     sessions_until_long_break := sessions_until_long_break r;
     is_running := is_running r; is_break := is_break r;
     time_left := time_left r; session_count := v;
     break_window := break_window r; work_var := work_var r;
     break_var := break_var r; long_break_var := long_break_var r;
     auto_break_var := auto_break_var r; auto_work_var := auto_work_var r |}.

Definition set_break_window (v : option BreakWindow) (r : App) : App :=
  {| work_minutes := work_minutes r; break_minutes := break_minutes r;
     long_break_minutes := long_break_minutes r;
     sessions_until_long_break := sessions_until_long_break r;
     is_running := is_running r; is_break := is_break r;
     time_left := time_left r; session_count := session_count r;
     break_window := v; work_var := work_var r; break_var := break_var r;
     long_break_var := long_break_var r; auto_break_var := auto_break_var r;
     auto_work_var := auto_work_var r |}.

Definition phase (app : App) : Phase :=
  if is_break app then
    match break_window app with
    | Some w => match shown_type w with long => LongBreak | short => ShortBreak end
    | None => ShortBreak
    end
  else Working.

(** [start_timer] *)
Definition start_timer (app : App) : App := set_is_running true app.

(** [close_break_window] *)
Definition close_break_window (app : App) : App :=
  match break_window app with
  | Some _ => set_break_window None app
  | None => app
  end.

(** [show_break_window] *)
Definition show_break_window (minutes : Z) (kind : break_type) (app : App) : App :=
  set_break_window (Some {| shown_minutes := minutes; shown_type := kind |}) app.

(** The [try ... except (ValueError, AttributeError): pass] block that
    reads [work_var] into [work_minutes]. *)
Definition reread_work_minutes : Py.M App unit :=
  Py.try_except
    (app <- Py.get ;;
     v <- Py.lift (PyInt.int_if_nonempty (work_var app) (work_minutes app)) ;;
     Py.modify (set_work_minutes v))
    value_or_attribute_error
    (Py.ret tt).

Definition break_minutes_from (text : string) (fallback : Z) : Py.M App Z :=
  Py.try_except
    (Py.lift (PyInt.int_if_nonempty text fallback))
    value_or_attribute_error
    (Py.ret fallback).

(** [on_timer_complete] *)
Definition on_timer_complete : Py.M App unit :=
  app <- Py.get ;;
  if is_break app then
    Py.modify close_break_window ;;;
    Py.modify (set_is_break false) ;;;
    reread_work_minutes ;;;
    Py.modify (fun app => set_time_left (work_minutes app * 60) app) ;;;
    app <- Py.get ;;
    if auto_work_var app
    then Py.modify start_timer
    else Py.modify (set_is_running false)
  else
    Py.modify (fun app => set_session_count (session_count app + 1) app) ;;;
    app <- Py.get ;;
    choice <-
      (if (sessions_until_long_break app <=? session_count app)%Z then
         break_minutes <-
           break_minutes_from (long_break_var app) (long_break_minutes app) ;;
         Py.modify (set_session_count 0) ;;;
         Py.ret (break_minutes, long)
       else
         break_minutes <-
           break_minutes_from (break_var app) (break_minutes app) ;;
         Py.ret (break_minutes, short)) ;;
    Py.modify (set_is_break true) ;;;
    Py.modify (set_time_left (choice.1 * 60)) ;;;
    Py.modify (show_break_window choice.1 choice.2) ;;;
    app <- Py.get ;;
    if auto_break_var app
    then Py.modify start_timer
    else Py.modify (set_is_running false).

(** [skip_break] *)
Definition skip_break : Py.M App unit :=
  Py.modify close_break_window ;;;
  Py.modify (set_is_break false) ;;;
  reread_work_minutes ;;;
  Py.modify (fun app => set_time_left (work_minutes app * 60) app) ;;;
  Py.modify start_timer.

End Standalone.

(** ** Definitions used to state the properties *)

(** The number of work minutes the work entry field gives: its value when
    it reads as an integer, the current [work_minutes] when it is empty or
    does not. *)
Definition entered_work_minutes (app : App) : Z :=
  match PyInt.int_if_nonempty (work_var (vars app)) (work_minutes (settings app)) with
  | Ok v => v
  | Raise _ => work_minutes (settings app)
  end.

(** The same for the standalone variant. *)
Definition standalone_entered_work_minutes (app : Standalone.App) : Z :=
  match PyInt.int_if_nonempty (Standalone.work_var app) (Standalone.work_minutes app) with
  | Ok v => v
  | Raise _ => Standalone.work_minutes app
  end.

(** The documented defaults: [default_config] of [load_config]. *)
Definition default_settings : Settings :=
  {| work_minutes := 25;
     break_minutes := 5;
     long_break_minutes := 15;
     sessions_until_long_break := 4;
     sound_enabled := true;
     minimize_to_tray := true;
     auto_start_break := true;
     auto_start_work := false;
     auto_start_on_launch := true;
     auto_restart_on_skip := true;
     activity_detection_enabled := true;
     inactivity_timeout := 60;
     pause_during_breaks := false |}.

(** A disk without a settings file. *)
Definition no_file : disk :=
  {| config_file := None; readable := true; writable := true |}.

(** The application right after a launch with the default settings, all
    optional packages installed, at clock reading 0: the timer is running
    and the monitor is listening. *)
Definition fresh_app : App :=
  init default_settings no_file true true false false 0.

(** [fresh_app] in a short break that has 200 seconds left. *)
Definition in_short_break : App :=
  set_time_left 200
    (show_break_window 5 short (set_is_break true (set_session_count 1 fresh_app))).

(** The standalone application during work, 100 seconds into a session. *)
Definition standalone_working : Standalone.App :=
  {| Standalone.work_minutes := 25;
     Standalone.break_minutes := 5;
     Standalone.long_break_minutes := 15;
     Standalone.sessions_until_long_break := 4;
     Standalone.is_running := true;
     Standalone.is_break := false;
     Standalone.time_left := 1400;
     Standalone.session_count := 0;
     Standalone.break_window := None;
     Standalone.work_var := "25";
     Standalone.break_var := "5";
     Standalone.long_break_var := "15";
     Standalone.auto_break_var := true;
     Standalone.auto_work_var := false |}.

(** What an entry field gives for a duration: its value when it reads as an
    integer, [fallback] when it is empty or does not. *)
Definition entered_minutes (text : string) (fallback : Z) : Z :=
  match PyInt.int_if_nonempty text fallback with
  | Ok v => v
  | Raise _ => fallback
  end.

(** A work session that runs to its end followed by the break that runs to
    its end: two calls of [on_timer_complete]. *)
Definition work_and_break (app : App) : App :=
  (on_timer_complete (on_timer_complete app).2).2.

Definition standalone_work_and_break (app : Standalone.App) : Standalone.App :=
  (Standalone.on_timer_complete (Standalone.on_timer_complete app).2).2.

(** The state in which [on_timer_complete] leaves a finished work session. *)
Definition after_work (app : App) : App :=
  let count := session_count app + 1 in
  let long_due := (sessions_until_long_break (settings app) <=? count)%Z in
  let minutes :=
    if long_due
    then entered_minutes (long_break_var (vars app)) (long_break_minutes (settings app))
    else entered_minutes (break_var (vars app)) (break_minutes (settings app)) in
  set_is_running (auto_break_var (vars app))
    (show_break_window minutes (if long_due then long else short)
       (set_time_left (minutes * 60)
          (set_is_break true
             (set_session_count (if long_due then 0 else count) app)))).

(** The state in which [on_timer_complete] leaves a finished break. *)
Definition after_break (app : App) : App :=
  set_is_running (auto_work_var (vars app))
    (set_time_left (entered_work_minutes app * 60)
       (set_settings (set_work_minutes (entered_work_minutes app) (settings app))
          (set_is_break false (set_break_window None app)))).

Definition standalone_after_work (app : Standalone.App) : Standalone.App :=
  let count := Standalone.session_count app + 1 in
  let long_due := (Standalone.sessions_until_long_break app <=? count)%Z in
  let minutes :=
    if long_due
    then entered_minutes (Standalone.long_break_var app) (Standalone.long_break_minutes app)
    else entered_minutes (Standalone.break_var app) (Standalone.break_minutes app) in
  Standalone.set_is_running (Standalone.auto_break_var app)
    (Standalone.show_break_window minutes (if long_due then long else short)
       (Standalone.set_time_left (minutes * 60)
          (Standalone.set_is_break true
             (Standalone.set_session_count (if long_due then 0 else count) app)))).

Definition standalone_after_break (app : Standalone.App) : Standalone.App :=
  Standalone.set_is_running (Standalone.auto_work_var app)
    (Standalone.set_time_left (standalone_entered_work_minutes app * 60)
       (Standalone.set_work_minutes (standalone_entered_work_minutes app)
          (Standalone.set_is_break false (Standalone.set_break_window None app)))).

(** Settings with one-minute work sessions and breaks and work restarting by
    itself after a break; every value is inside the range its field
    declares. *)
Definition one_minute_settings : Settings :=
  set_auto_start_work true
    (set_break_minutes 1 (set_work_minutes 1 default_settings)).

(** Nobody touches the computer after the launch at clock reading 0: the
    work session runs out, the break starts by itself, the monitor notices
    the inactivity at second 61, the break runs out and work restarts by
    itself. *)
Definition nobody_there : list command :=
  repeat (Tick []) 60 ++ [TimeExpired; Monitor (InactivityCheck 61)] ++
  repeat (Tick []) 60 ++ [TimeExpired].

Definition away_at_work : App :=
  steps nobody_there (init one_minute_settings no_file true true false false 0).

(** What the settings file gives for a key: the value recorded under the
    key when the file can be read and is a JSON object that has the key,
    the documented default otherwise. *)
Definition persisted_or_default (d : disk) (key : string) (documented : pyval) : pyval :=
  match config_file d with
  | Some (Document (PDict config)) =>
      if readable d then default documented (config !! key) else documented
  | _ => documented
  end.

(** A read error: there is no file, it cannot be opened, or its content does
    not decode. *)
Definition read_error (d : disk) : Prop :=
  config_file d = None \/ readable d = false \/ config_file d = Some Undecodable.

(** A run of [setattr] calls, one per item of a dictionary: a fold of
    insertions into the attribute dictionary. *)
Definition assign_all (value_for : string -> pyval -> pyval)
    (items : list (string * pyval)) (self : gmap string pyval)
    : gmap string pyval :=
  foldl (fun m kv => <[kv.1 := value_for kv.1 kv.2]> m) self items.

(** Proof steps shared by the lemmas on the monadic code. *)
Ltac py_unfold :=
  unfold Py.bind, Py.modify, Py.get, Py.ret, Py.lift, Py.try_except, Py.raise.

Ltac in_list :=
  apply list_elem_of_In; cbn; repeat (first [left; reflexivity | right]).

(** The five numeric entry fields, in the order [save_settings] reads
    them. *)
Inductive numeric_field : Type :=
| FWork
| FBreak
| FLongBreak
| FSessions
| FTimeout.

Definition field_rank (f : numeric_field) : nat :=
  match f with
  | FWork => 0
  | FBreak => 1
  | FLongBreak => 2
  | FSessions => 3
  | FTimeout => 4
  end.

Definition field_text (f : numeric_field) (ui : UiVars) : string :=
  match f with
  | FWork => work_var ui
  | FBreak => break_var ui
  | FLongBreak => long_break_var ui
  | FSessions => sessions_var ui
  | FTimeout => timeout_var ui
  end.

Definition field_value (f : numeric_field) (s : Settings) : Z :=
  match f with
  | FWork => work_minutes s
  | FBreak => break_minutes s
  | FLongBreak => long_break_minutes s
  | FSessions => sessions_until_long_break s
  | FTimeout => inactivity_timeout s
  end.

(** The constant [save_settings] uses for an empty field. *)
Definition field_if_empty (f : numeric_field) : Z :=
  match f with
  | FWork => 25
  | FBreak => 5
  | FLongBreak => 15
  | FSessions => 4
  | FTimeout => 60
  end.

(** Non-numeric input: a text that is not empty and that [int] rejects. *)
Definition non_numeric (text : string) : bool :=
  match PyInt.int_if_nonempty text 0 with
  | Ok _ => false
  | Raise _ => true
  end.

(** The boolean options of the settings. *)
Definition flags (s : Settings) : list bool :=
  [ sound_enabled s; minimize_to_tray s; auto_start_break s; auto_start_work s;
    auto_start_on_launch s; auto_restart_on_skip s;
    activity_detection_enabled s; pause_during_breaks s ].

(** The timer state proper. *)
Definition timer_state (app : App)
    : bool * bool * bool * string * Z * Z * option BreakWindow :=
  (is_running app, is_break app, is_paused app, pause_reason app,
   time_left app, session_count app, break_window app).

(** The user has typed 30 into the work field and letters into the break
    field of a freshly launched application. *)
Definition typo_app : App :=
  set_vars (set_break_var "abc" (set_work_var "30" (vars fresh_app))) fresh_app.

(** The user has typed 10 into the work field of a freshly launched
    application, whose first work session of 25 minutes has just begun. *)
Definition shorter_work_app : App :=
  step (TypeWorkMinutes "10") fresh_app.

(** [time_left] is at most the duration the current settings give the
    current phase. *)
Definition within_phase_duration (app : App) : Prop :=
  time_left app <= phase_seconds app.

(** The two break entry fields give what the settings hold: they show the
    saved numbers, or are empty or unreadable, in which case the code falls
    back on the settings. *)
Definition break_fields_agree (app : App) : Prop :=
  entered_minutes (break_var (vars app)) (break_minutes (settings app)) =
    break_minutes (settings app) /\
  entered_minutes (long_break_var (vars app)) (long_break_minutes (settings app)) =
    long_break_minutes (settings app).

(** During a break the break window is there. *)
Definition window_open_in_break (app : App) : Prop :=
  is_break app = true -> is_Some (break_window app).

Definition timer_invariant (app : App) : Prop :=
  break_fields_agree app /\ window_open_in_break app /\ within_phase_duration app.

(** The state in which [reset_timer] leaves the application. *)
Definition after_reset (app : App) : App :=
  set_break_window None
    (set_time_left (entered_work_minutes app * 60)
       (set_settings (set_work_minutes (entered_work_minutes app) (settings app))
          (set_session_count 0
             (set_is_paused false (set_is_break false (set_is_running false app)))))).

(** The state in which [skip_break] leaves the application. *)
Definition after_skip (app : App) : App :=
  set_is_running (auto_skip_var (vars app))
    (set_time_left (entered_work_minutes app * 60)
       (set_settings (set_work_minutes (entered_work_minutes app) (settings app))
          (set_is_paused false
             (set_is_break false (set_break_window None app))))).

(** [app'] has the settings, the phase and the entry fields of [app]. *)
Definition same_phase_data (app app' : App) : Prop :=
  settings app' = settings app /\
  is_break app' = is_break app /\
  break_window app' = break_window app /\
  vars app' = vars app.

(** Evaluate the test and the value of a literal digit in [PyInt.digits]. *)
Ltac eval_digit :=
  change (PyInt.is_digit _) with true; cbv iota;
  match goal with
  | |- context [PyInt.digit_val ?c] =>
      let v := eval vm_compute in (PyInt.digit_val c) in
      change (PyInt.digit_val c) with v
  end.

(** A computation that leaves the timer state as it finds it, whether it
    returns or raises. *)
Definition keeps_timer_state {A : Type} (m : Py.M App A) : Prop :=
  forall app, timer_state (m app).2 = timer_state app.


(** ** Definitions for the further properties *)

(** The monitor on its own: one event. *)
Definition monitor_handle (ev : monitor_event) (m : ActivityMonitor.t)
    : ActivityMonitor.t * option ActivityMonitor.signal :=
  match ev with
  | InputEvent now => ActivityMonitor.on_activity now m
  | InactivityCheck now => ActivityMonitor.monitor_activity_check now m
  end.

(** The monitor over a run of events: its final state and the statuses it
    hands to the callback, in order. *)
Fixpoint monitor_run (events : list monitor_event) (m : ActivityMonitor.t)
    : ActivityMonitor.t * list ActivityMonitor.signal :=
  match events with
  | [] => (m, [])
  | ev :: events' =>
      let r := monitor_handle ev m in
      let r' := monitor_run events' r.1 in
      (r'.1, match r.2 with Some status => status :: r'.2 | None => r'.2 end)
  end.

Definition signal_eqb (a b : ActivityMonitor.signal) : bool :=
  match a, b with
  | ActivityMonitor.paused, ActivityMonitor.paused => true
  | ActivityMonitor.resumed, ActivityMonitor.resumed => true
  | _, _ => false
  end.

Definition other_signal (a : ActivityMonitor.signal) : ActivityMonitor.signal :=
  match a with
  | ActivityMonitor.paused => ActivityMonitor.resumed
  | ActivityMonitor.resumed => ActivityMonitor.paused
  end.

(** The statuses alternate, beginning with [next]. *)
Fixpoint alternating (next : ActivityMonitor.signal)
    (l : list ActivityMonitor.signal) : bool :=
  match l with
  | [] => true
  | status :: l' => signal_eqb status next && alternating (other_signal status) l'
  end.

(** The status the monitor can emit next. *)
Definition next_signal (m : ActivityMonitor.t) : ActivityMonitor.signal :=
  if ActivityMonitor.is_active m then ActivityMonitor.paused else ActivityMonitor.resumed.

(** What the check boxes of the window give for the boolean options; the
    tray box only exists, and only counts, when the tray is available. *)
Definition flags_of_form (app : App) : list bool :=
  let ui := vars app in
  [ sound_var ui;
    if TRAY_AVAILABLE app then tray_var ui else minimize_to_tray (settings app);
    auto_break_var ui; auto_work_var ui; auto_launch_var ui; auto_skip_var ui;
    activity_var ui; pause_breaks_var ui ].

(** The state [save_settings] has reached when it calls [save_config]: the
    settings are those of the form, the monitor has their timeout and runs
    exactly when detection is enabled and available, the rest is as
    before. *)
Definition form_applied (app app1 : App) : Prop :=
  (forall f, PyInt.int_if_nonempty (field_text f (vars app)) (field_if_empty f) =
             Ok (field_value f (settings app1))) /\
  flags (settings app1) = flags_of_form app /\
  ActivityMonitor.timeout (activity_monitor app1) = inactivity_timeout (settings app1) /\
  ActivityMonitor.running (activity_monitor app1) =
    activity_detection_enabled (settings app1) && ACTIVITY_DETECTION_AVAILABLE app /\
  timer_state app1 = timer_state app /\
  vars app1 = vars app /\
  TRAY_AVAILABLE app1 = TRAY_AVAILABLE app /\
  ACTIVITY_DETECTION_AVAILABLE app1 = ACTIVITY_DETECTION_AVAILABLE app.

(** Case analysis on the four booleans [save_settings] branches on. *)
Ltac form_cases app :=
  let T := fresh "T" in
  let V := fresh "V" in
  let A := fresh "A" in
  let R := fresh "R" in
  destruct (TRAY_AVAILABLE app) eqn:T;
  destruct (activity_var (vars app)) eqn:V;
  destruct (ACTIVITY_DETECTION_AVAILABLE app) eqn:A;
  destruct (ActivityMonitor.running (activity_monitor app)) eqn:R;
  cbn; rewrite ?T, ?V, ?A, ?R; cbn; rewrite ?T, ?V, ?A, ?R.


(** [session_count] is never negative and, unless it is zero, stays below
    [sessions_until_long_break]. *)
Definition session_count_in_range (app : App) : Prop :=
  0 <= session_count app /\
  (session_count app = 0 \/
   session_count app < sessions_until_long_break (settings app)).

(** Two settings records that differ in [work_minutes] at most. *)
Definition same_but_work_minutes (a b : Settings) : Prop :=
  set_work_minutes 0 a = set_work_minutes 0 b.

(** The entry fields and check boxes, the work field apart. *)
Definition same_but_work_var (a b : UiVars) : Prop :=
  set_work_var "" a = set_work_var "" b.


(** ** The display *)

(** [f"{n:02d}"]: at least two characters, padded with a zero on the left;
    the sign of a negative number counts as a character. *)
Definition format_02d (n : Z) : string :=
  if (0 <=? n) && (n <? 10) then String "0" (str n) else str n.

(** [time_str] of [update_display] and of the break window, before the
    pause mark: [//] and [%] round towards minus infinity, as [Z.div] and
    [Z.modulo] do for a positive divisor. *)
Definition time_str (time_left : Z) : string :=
  let minutes := time_left / 60 in
  let seconds := time_left mod 60 in
  format_02d minutes ++ ":" ++ format_02d seconds.

(** The text [update_display] puts on the timer label. *)
Definition timer_label (app : App) : string :=
  if is_paused app then time_str (time_left app) ++ " ⏸️"
  else time_str (time_left app).


(** ** Start with Windows *)

Module WindowsAutoStart.

(** The [Run] key of the current user: its values, and whether [OpenKey]
    succeeds on it for reading ([KEY_READ]) and for writing
    ([KEY_SET_VALUE]). *)
Record registry : Type := {
  run_values : gmap string string;
  key_readable : bool;
  key_writable : bool
}.

(** The messages the methods return beside their boolean. *)
Inductive message : Type :=
| enabled_successfully
| failed_to_enable
| disabled_successfully
| was_not_enabled
| failed_to_disable.

(** [f'"{exe_path}" --minimized'] *)
Definition startup_command (exe_path : string) : string :=
  String (ascii_of_nat 34) exe_path ++ String (ascii_of_nat 34) " --minimized".

(** [is_startup_enabled]: any exception means "not enabled". *)
Definition is_startup_enabled (app_name : string) (r : registry) : bool :=
  if key_readable r then
    match run_values r !! app_name with
    | Some _ => true
    | None => false
    end
  else false.

(** [enable_startup]; [exe_path] is the result of [get_executable_path]. *)
Definition enable_startup (app_name exe_path : string) (r : registry)
    : (bool * message) * registry :=
  if key_writable r then
    ((true, enabled_successfully),
     {| run_values := <[app_name := startup_command exe_path]> (run_values r);
        key_readable := key_readable r;
        key_writable := key_writable r |})
  else ((false, failed_to_enable), r).

(** [disable_startup]: a missing value is not an error. *)
Definition disable_startup (app_name : string) (r : registry)
    : (bool * message) * registry :=
  if key_writable r then
    match run_values r !! app_name with
    | Some _ =>
        ((true, disabled_successfully),
         {| run_values := delete app_name (run_values r);
            key_readable := key_readable r;
            key_writable := key_writable r |})
    | None => ((true, was_not_enabled), r)
    end
  else ((false, failed_to_disable), r).

End WindowsAutoStart.

(** Which box [toggle_autostart] shows. *)
Inductive autostart_dialog : Type :=
| AutostartInfo (m : WindowsAutoStart.message)
| AutostartError (m : WindowsAutoStart.message).

(** [toggle_autostart]: the command of the "Start with Windows" box, run
    after the click has changed [autostart_var].  Returns the box variable,
    the registry and the dialog. *)
Definition toggle_autostart (app_name exe_path : string)
    (autostart_var : bool) (r : WindowsAutoStart.registry)
    : bool * WindowsAutoStart.registry * autostart_dialog :=
  if autostart_var then
    let result := WindowsAutoStart.enable_startup app_name exe_path r in
    if negb result.1.1
    then (false, result.2, AutostartError result.1.2)
    else (autostart_var, result.2, AutostartInfo result.1.2)
  else
    let result := WindowsAutoStart.disable_startup app_name r in
    if negb result.1.1
    then (true, result.2, AutostartError result.1.2)
    else (autostart_var, result.2, AutostartInfo result.1.2).

(** [handle_startup_args]: [len(sys.argv) > 1 and "--minimized" in sys.argv] *)
Definition handle_startup_args (argv : list string) : bool :=
  (1 <? length argv)%nat && bool_decide ("--minimized" ∈ argv).


(** ** The timer loop of the standalone variant *)

(** [ctypes] gives a foreign function the result type [c_int] unless told
    otherwise: the [DWORD] that [GetTickCount] returns reaches Python as a
    signed 32-bit integer. *)
Definition as_c_int (n : Z) : Z := (n + 2 ^ 31) mod 2 ^ 32 - 2 ^ 31.

(** What [get_idle_time] reads from the system, both in milliseconds since
    the system started and both a [DWORD]: the tick count now and the tick
    count of the last input ([lii.dwTime], a [c_uint] field). *)
Record idle_reading : Type := {
  tick_count : Z;
  last_input : Z
}.

(** [millis] of [get_idle_time]. *)
Definition idle_millis (r : idle_reading) : Z :=
  as_c_int (tick_count r) - last_input r.

(** [self.get_idle_time() > self.idle_threshold], the idle time being
    [millis / 1000.0]: for a threshold in seconds that is an [int] of
    ordinary size the test is [millis > 1000 * idle_threshold]. *)
Definition idle_beyond (idle_threshold : Z) (r : idle_reading) : bool :=
  1000 * idle_threshold <? idle_millis r.

(** One pass through the loop body of the standalone [run_timer].
    [pause_on_idle] and [idle_threshold] are attributes of the object that
    the record [Standalone.App] does not hold; they do not change in the
    loop and are arguments here. *)
Definition standalone_run_timer_iteration (pause_on_idle : bool)
    (idle_threshold : Z) (r : idle_reading) (app : Standalone.App)
    : Standalone.App :=
  if pause_on_idle && idle_beyond idle_threshold r
  then app
  else Standalone.set_time_left (Standalone.time_left app - 1) app.

(** The standalone [run_timer]: one idle reading per pass. *)
Fixpoint standalone_run_timer (pause_on_idle : bool) (idle_threshold : Z)
    (readings : list idle_reading) (app : Standalone.App)
    : Standalone.App * loop_exit :=
  if Standalone.is_running app && (0 <? Standalone.time_left app) then
    match readings with
    | [] => (app, StillRunning)
    | r :: readings' =>
        standalone_run_timer pause_on_idle idle_threshold readings'
          (standalone_run_timer_iteration pause_on_idle idle_threshold r app)
    end
  else
    (app, if Standalone.is_running app && (Standalone.time_left app =? 0)
          then TimerComplete else Stopped).


(** ** The settings file of the standalone variant *)

Module StandaloneStore.

(** [default_config] of the standalone [load_config]. *)
Definition default_config : list (string * pyval) :=
  [ ("work_minutes", PInt 25);
    ("break_minutes", PInt 5);
    ("long_break_minutes", PInt 15);
    ("sessions_until_long_break", PInt 4);
    ("sound_enabled", PBool true);
    ("minimize_to_tray", PBool true);
    ("auto_start_break", PBool true);
    ("auto_start_work", PBool false);
    ("auto_start_on_launch", PBool true);
    ("pause_on_idle", PBool true);
    ("idle_threshold", PInt 300);
    ("custom_sound_path", PStr "") ].

Definition set_defaults : Py.M (gmap string pyval) unit :=
  Py.for_each default_config (fun kv => SettingsStore.setattr kv.1 kv.2).

(** [load_config] of the standalone variant: the same code over its own
    defaults, on the same file name. *)
Definition load_config (d : disk) : Py.M (gmap string pyval) unit :=
  (match config_file d with
   | Some _ =>
       Py.try_except
         (config <- Py.lift (SettingsStore.open_and_json_load d) ;;
          Py.for_each default_config (fun kv =>
            v <- Py.lift (SettingsStore.config_get config kv.1 kv.2) ;;
            SettingsStore.setattr kv.1 v))
         Py.any_exception
         set_defaults
   | None => set_defaults
   end) ;;;
  SettingsStore.setattr "session_count" (PInt 0).

(** The names the standalone [save_config] writes. *)
Definition saved_keys : list string :=
  [ "work_minutes"; "break_minutes"; "long_break_minutes";
    "sessions_until_long_break"; "sound_enabled"; "minimize_to_tray";
    "auto_start_break"; "auto_start_work"; "auto_start_on_launch";
    "pause_on_idle"; "idle_threshold"; "custom_sound_path" ].

(** [save_config] of the standalone variant. *)
Definition save_config (d : disk) : Py.M (gmap string pyval) disk :=
  config <- SettingsStore.build_config saved_keys ∅ ;;
  if writable d then
    Py.ret {| config_file := Some (Document (PDict config));
              readable := readable d;
              writable := writable d |}
  else Py.raise OSError.

End StandaloneStore.

(** The settings file going round both programs, which use the same file
    name: the integrated application saves, the standalone one loads and
    saves, the integrated one loads.  [first] and [second] are the objects
    of the standalone and of the second integrated run before their
    [load_config]. *)
Definition through_standalone (s : Settings) (first second : gmap string pyval)
    : res unit * gmap string pyval :=
  let written :=
    {| config_file := Some (Document (PDict (attrs_of_settings s)));
       readable := true; writable := true |} in
  let standalone := (StandaloneStore.load_config written first).2 in
  match StandaloneStore.save_config written standalone with
  | (Ok rewritten, _) => SettingsStore.load_config rewritten second
  | (Raise e, _) => (Raise e, second)
  end.

(** The four options only the integrated application knows, back at their
    defaults. *)
Definition integrated_options_reset (s : Settings) : Settings :=
  set_pause_during_breaks false
    (set_inactivity_timeout 60
       (set_activity_detection_enabled true
          (set_auto_restart_on_skip true s))).

(** * Properties *)

(** ** [int] *)

Example int_25 : PyInt.int "25" = Ok 25.
Proof. reflexivity. Qed.

Example int_padded_signed : PyInt.int "  -1_000 " = Ok (-1000).
Proof. reflexivity. Qed.

Example int_letters : PyInt.int "abc" = Raise ValueError.
Proof. reflexivity. Qed.

Example int_decimal_point : PyInt.int "2.5" = Raise ValueError.
Proof. reflexivity. Qed.

Example int_only_spaces : PyInt.int "  " = Raise ValueError.
Proof. reflexivity. Qed.

Example int_if_nonempty_empty : PyInt.int_if_nonempty "" 25 = Ok 25.
Proof. reflexivity. Qed.

Lemma int_raises_value_error (s : string) (e : exn) :
  PyInt.int s = Raise e -> e = ValueError.
Proof.
  unfold PyInt.int. destruct (PyInt.signed _); congruence.
Qed.

Lemma int_if_nonempty_raises_value_error (s : string) (fallback : Z) (e : exn) :
  PyInt.int_if_nonempty s fallback = Raise e -> e = ValueError.
Proof.
  destruct s as [|c s]; simpl; [congruence|]. apply int_raises_value_error.
Qed.

(** [int] reads back what [str] prints. *)
Lemma digits_after (d : Decimal.uint) (acc : positive) :
  PyInt.digits (Zpos acc) PyInt.AfterDigit
    (list_ascii_of_string (NilEmpty.string_of_uint d)) =
  Some (Zpos (Pos.of_uint_acc d acc)).
Proof.
  revert acc. induction d; intros acc;
    cbn [NilEmpty.string_of_uint list_ascii_of_string PyInt.digits Pos.of_uint_acc];
    [reflexivity|..];
    (eval_digit;
     match goal with
     | |- PyInt.digits ?a _ _ = Some (Zpos (Pos.of_uint_acc _ ?b)) =>
         replace a with (Zpos b) by lia
     end; apply IHd).
Qed.

Lemma digits_from_zero (d : Decimal.uint) :
  PyInt.digits 0 PyInt.AfterDigit
    (list_ascii_of_string (NilEmpty.string_of_uint d)) =
  Some (Z.of_uint d).
Proof.
  unfold Z.of_uint. induction d;
    cbn [NilEmpty.string_of_uint list_ascii_of_string PyInt.digits Pos.of_uint];
    [reflexivity|exact IHd|..];
    (eval_digit; apply digits_after).
Qed.

Lemma lstrip_no_space (l : list ascii) :
  match l with c :: _ => PyInt.is_space c = false | [] => True end ->
  PyInt.lstrip l = l.
Proof. destruct l as [|c l]; cbn; [reflexivity|]. now intros ->. Qed.

Lemma strip_no_space (l : list ascii) :
  Forall (fun c => PyInt.is_space c = false) l -> PyInt.strip l = l.
Proof.
  intros H. unfold PyInt.strip.
  rewrite (lstrip_no_space l) by (destruct H; auto).
  rewrite lstrip_no_space, rev_involutive; [reflexivity|].
  apply Forall_rev in H. destruct H; auto.
Qed.

Lemma uint_chars_no_space (d : Decimal.uint) :
  Forall (fun c => PyInt.is_space c = false)
    (list_ascii_of_string (NilEmpty.string_of_uint d)).
Proof. induction d; cbn; constructor; auto. Qed.

Lemma nilzero_chars_no_space (d : Decimal.uint) :
  Forall (fun c => PyInt.is_space c = false)
    (list_ascii_of_string (NilZero.string_of_uint d)).
Proof.
  unfold NilZero.string_of_uint. destruct d; try apply uint_chars_no_space.
  repeat constructor.
Qed.

Lemma digits_at_start (d : Decimal.uint) :
  PyInt.digits 0 PyInt.AtStart (list_ascii_of_string (NilZero.string_of_uint d)) =
  Some (Z.of_uint d).
Proof.
  unfold NilZero.string_of_uint.
  destruct d eqn:D; [reflexivity|..]; rewrite <- D, <- digits_from_zero;
    rewrite D; reflexivity.
Qed.

Lemma signed_unsigned (d : Decimal.uint) :
  PyInt.signed (list_ascii_of_string (NilZero.string_of_uint d)) =
  PyInt.digits 0 PyInt.AtStart (list_ascii_of_string (NilZero.string_of_uint d)).
Proof. destruct d; reflexivity. Qed.

Lemma int_str (z : Z) : PyInt.int (str z) = Ok z.
Proof.
  unfold PyInt.int, str.
  rewrite <- (DecimalZ.of_to z) at 2.
  destruct (Z.to_int z) as [d|d]; cbn [NilZero.string_of_int Z.of_int].
  - rewrite strip_no_space by apply nilzero_chars_no_space.
    now rewrite signed_unsigned, digits_at_start.
  - cbn [list_ascii_of_string].
    rewrite strip_no_space by (constructor; [reflexivity|apply nilzero_chars_no_space]).
    cbn [PyInt.signed]. change (Ascii.eqb "-" "-") with true. cbv iota.
    now rewrite digits_at_start.
Qed.

(** An entry field that shows a number gives that number. *)
Lemma entered_minutes_str (z fallback : Z) : entered_minutes (str z) fallback = z.
Proof.
  unfold entered_minutes, PyInt.int_if_nonempty.
  pose proof (int_str z) as E. destruct (str z); [discriminate E|].
  now rewrite E.
Qed.

(** ** The work entry field *)

Lemma set_settings_same (app : App) : set_settings (settings app) app = app.
Proof. destruct app; reflexivity. Qed.

Lemma set_work_minutes_same (s : Settings) : set_work_minutes (work_minutes s) s = s.
Proof. destruct s; reflexivity. Qed.

(** The block never raises and leaves [work_minutes] at what the entry field
    gives; nothing else changes. *)
Lemma reread_work_minutes_ok (app : App) :
  reread_work_minutes app =
  (Ok tt, set_settings (set_work_minutes (entered_work_minutes app) (settings app)) app).
Proof.
  unfold reread_work_minutes, entered_work_minutes. py_unfold.
  destruct (PyInt.int_if_nonempty _ _) as [v|e] eqn:E; [reflexivity|].
  apply int_if_nonempty_raises_value_error in E. subst e. simpl.
  now rewrite set_work_minutes_same, set_settings_same.
Qed.

(** ** [reset_timer] *)

(** C3. From any state, [reset_timer] returns normally in a state with
    [is_running], [is_paused] and [is_break] false (the phase is Working),
    [session_count] zero, [work_minutes] read again from the work entry
    field, [time_left] equal to that [work_minutes] times sixty, and no break
    window. *)
Theorem reset_timer_spec (app : App) :
  exists app',
    reset_timer app = (Ok tt, app') /\
    is_running app' = false /\
    is_paused app' = false /\
    is_break app' = false /\
    phase app' = Working /\
    session_count app' = 0 /\
    work_minutes (settings app') = entered_work_minutes app /\
    time_left app' = work_minutes (settings app') * 60 /\
    break_window app' = None.
Proof.
  unfold reset_timer.
  unfold Py.bind at 1 2 3 4. unfold Py.modify at 1 2 3 4.
  unfold Py.bind at 1. rewrite reread_work_minutes_ok.
  py_unfold. cbn.
  destruct (break_window app) eqn:W; eexists; (split; [reflexivity|]); cbn;
    repeat split; auto.
Qed.

(** ** [skip_break] *)

(** What [skip_break] does from any state. *)
Lemma skip_break_ok (app : App) :
  exists app',
    skip_break app = (Ok tt, app') /\
    is_break app' = false /\
    is_paused app' = false /\
    is_running app' = auto_skip_var (vars app) /\
    work_minutes (settings app') = entered_work_minutes app /\
    time_left app' = work_minutes (settings app') * 60 /\
    break_window app' = None /\
    session_count app' = session_count app.
Proof.
  unfold skip_break.
  unfold Py.bind at 1 2 3 4. unfold Py.modify at 1 2 3 4.
  unfold Py.bind at 1. rewrite reread_work_minutes_ok.
  py_unfold. cbn.
  assert (W : break_window (close_break_window app) = None).
  { unfold close_break_window. destruct (break_window app) eqn:E; auto. }
  assert (V : vars (close_break_window app) = vars app).
  { unfold close_break_window. destruct (break_window app); auto. }
  assert (S : session_count (close_break_window app) = session_count app).
  { unfold close_break_window. destruct (break_window app); auto. }
  assert (X : settings (close_break_window app) = settings app).
  { unfold close_break_window. destruct (break_window app); auto. }
  assert (Ew : entered_work_minutes
                 (set_is_paused false
                    (set_is_break false
                       (set_is_running false (close_break_window app)))) =
               entered_work_minutes app).
  { unfold entered_work_minutes. cbn. now rewrite V, X. }
  rewrite V.
  destruct (auto_skip_var (vars app)); eexists; (split; [reflexivity|]); cbn;
    rewrite ?Ew; repeat split; auto.
Qed.

Lemma phase_break_is_break (app : App) :
  phase app = ShortBreak \/ phase app = LongBreak -> is_break app = true.
Proof.
  unfold phase. destruct (is_break app); [reflexivity|]. intros [H|H]; discriminate.
Qed.

(** C4. In a short or a long break, one call of [skip_break] returns in the
    Working phase with [time_left = work_minutes * 60]; the timer is running
    when the "auto-restart work when skipping break" box is ticked and is not
    running when it is not.  The code reads the flag from the check box
    variable [auto_skip_var], which shows the [auto_restart_on_skip]
    option. *)
Theorem skip_break_during_break (app : App) :
  phase app = ShortBreak \/ phase app = LongBreak ->
  exists app',
    skip_break app = (Ok tt, app') /\
    phase app' = Working /\
    time_left app' = work_minutes (settings app') * 60 /\
    work_minutes (settings app') = entered_work_minutes app /\
    (auto_skip_var (vars app) = true -> is_running app' = true) /\
    (auto_skip_var (vars app) = false -> is_running app' = false).
Proof.
  intros _.
  destruct (skip_break_ok app) as (app' & E & Hb & _ & Hr & Hw & Ht & _).
  exists app'. unfold phase. rewrite Hb, Hr. repeat split; auto.
Qed.

Lemma skip_break_during_break_witness :
  (phase in_short_break = ShortBreak \/ phase in_short_break = LongBreak) /\
  auto_skip_var (vars in_short_break) = true /\
  exists app',
    skip_break in_short_break = (Ok tt, app') /\
    phase app' = Working /\
    time_left app' = work_minutes (settings app') * 60 /\
    work_minutes (settings app') = entered_work_minutes in_short_break /\
    (auto_skip_var (vars in_short_break) = true -> is_running app' = true) /\
    (auto_skip_var (vars in_short_break) = false -> is_running app' = false).
Proof.
  split; [left; reflexivity|]. split; [reflexivity|].
  apply (skip_break_during_break in_short_break). left; reflexivity.
Defined.

Example skip_break_scenario_c :
  exists app',
    skip_break in_short_break = (Ok tt, app') /\
    phase app' = Working /\ is_running app' = true /\ time_left app' = 1500.
Proof. eexists. split; [reflexivity|]. repeat split. Qed.

Lemma standalone_reread_work_minutes_ok (app : Standalone.App) :
  Standalone.reread_work_minutes app =
  (Ok tt, Standalone.set_work_minutes (standalone_entered_work_minutes app) app).
Proof.
  unfold Standalone.reread_work_minutes, standalone_entered_work_minutes. py_unfold.
  destruct (PyInt.int_if_nonempty _ _) as [v|e] eqn:E; [reflexivity|].
  apply int_if_nonempty_raises_value_error in E. subst e. simpl.
  destruct app; reflexivity.
Qed.

(** What the standalone [skip_break] does from any state. *)
Lemma standalone_skip_break_ok (app : Standalone.App) :
  exists app',
    Standalone.skip_break app = (Ok tt, app') /\
    Standalone.is_break app' = false /\
    Standalone.is_running app' = true /\
    Standalone.work_minutes app' = standalone_entered_work_minutes app /\
    Standalone.time_left app' = Standalone.work_minutes app' * 60 /\
    Standalone.break_window app' = None.
Proof.
  unfold Standalone.skip_break.
  unfold Py.bind at 1 2. unfold Py.modify at 1 2.
  unfold Py.bind at 1. rewrite standalone_reread_work_minutes_ok.
  py_unfold. cbn.
  eexists. split; [reflexivity|]. cbn.
  assert (W : Standalone.break_window (Standalone.close_break_window app) = None).
  { unfold Standalone.close_break_window.
    destruct (Standalone.break_window app) eqn:E; auto. }
  assert (Ew : standalone_entered_work_minutes
                 (Standalone.set_is_break false (Standalone.close_break_window app)) =
               standalone_entered_work_minutes app).
  { unfold standalone_entered_work_minutes, Standalone.close_break_window.
    destruct (Standalone.break_window app); reflexivity. }
  rewrite Ew. repeat split; auto.
Qed.

(** C10. Called during work, [skip_break] raises nothing and is not a
    no-op: it sets [time_left] to [work_minutes * 60] whatever was left of
    the session, clears [is_paused], and leaves the timer running exactly
    when the auto-restart box [auto_skip_var] is ticked.  The standalone
    [skip_break] always leaves the timer running. *)
Theorem skip_break_during_work (app : App) (sapp : Standalone.App) :
  phase app = Working ->
  Standalone.phase sapp = Working ->
  (exists app',
     skip_break app = (Ok tt, app') /\
     phase app' = Working /\
     time_left app' = entered_work_minutes app * 60 /\
     is_paused app' = false /\
     (auto_skip_var (vars app) = true -> is_running app' = true) /\
     (auto_skip_var (vars app) = false -> is_running app' = false) /\
     (time_left app <> entered_work_minutes app * 60 -> app' <> app)) /\
  (exists sapp',
     Standalone.skip_break sapp = (Ok tt, sapp') /\
     Standalone.phase sapp' = Working /\
     Standalone.time_left sapp' = standalone_entered_work_minutes sapp * 60 /\
     Standalone.is_running sapp' = true /\
     (Standalone.time_left sapp <> standalone_entered_work_minutes sapp * 60 ->
      sapp' <> sapp)).
Proof.
  intros _ _. split.
  - destruct (skip_break_ok app) as (app' & E & Hb & Hp & Hr & Hw & Ht & _).
    exists app'. unfold phase. rewrite Hb, Hr, Ht, Hw.
    repeat split; auto.
    intros Hne Heq. subst app'. rewrite Hw in Ht. contradiction.
  - destruct (standalone_skip_break_ok sapp) as (sapp' & E & Hb & Hr & Hw & Ht & _).
    exists sapp'. unfold Standalone.phase. rewrite Hb, Ht, Hw.
    repeat split; auto.
    intros Hne Heq. subst sapp'. rewrite Hw in Ht. contradiction.
Qed.

Lemma skip_break_during_work_witness :
  phase (set_time_left 1400 fresh_app) = Working /\
  Standalone.phase standalone_working = Working /\
  (exists app',
     skip_break (set_time_left 1400 fresh_app) = (Ok tt, app') /\
     time_left app' = 1500 /\ is_running app' = true /\
     app' <> set_time_left 1400 fresh_app) /\
  (exists sapp',
     Standalone.skip_break standalone_working = (Ok tt, sapp') /\
     Standalone.time_left sapp' = 1500 /\ Standalone.is_running sapp' = true /\
     sapp' <> standalone_working).
Proof.
  split; [reflexivity|]. split; [reflexivity|].
  destruct (skip_break_during_work (set_time_left 1400 fresh_app) standalone_working
              eq_refl eq_refl)
    as [(app' & E & _ & Ht & _ & Hr & _ & Hne) (sapp' & Es & _ & Hst & Hsr & Hsne)].
  split.
  - exists app'. repeat split; auto.
  - exists sapp'. repeat split; auto.
Defined.

(** ** [on_timer_complete] *)

Lemma break_minutes_from_ok (text : string) (fallback : Z) (app : App) :
  break_minutes_from text fallback app = (Ok (entered_minutes text fallback), app).
Proof.
  unfold break_minutes_from, entered_minutes. py_unfold.
  destruct (PyInt.int_if_nonempty _ _) as [v|e] eqn:E; [reflexivity|].
  apply int_if_nonempty_raises_value_error in E. now subst e.
Qed.

Lemma on_timer_complete_work (app : App) :
  is_break app = false ->
  on_timer_complete app = (Ok tt, after_work app).
Proof.
  intros Hb. unfold on_timer_complete, after_work.
  unfold Py.bind at 1. unfold Py.get at 1. rewrite Hb.
  unfold Py.bind at 1. unfold Py.modify at 1.
  unfold Py.bind at 1. unfold Py.get at 1. cbn [session_count set_session_count settings vars].
  destruct (sessions_until_long_break (settings app) <=? session_count app + 1)%Z.
  - unfold Py.bind at 1 2. rewrite break_minutes_from_ok.
    py_unfold. cbn. destruct app as [? ? ? ? ? ? ? ? ? v ? ? ?]; cbn.
    destruct (auto_break_var v); reflexivity.
  - unfold Py.bind at 1 2. rewrite break_minutes_from_ok.
    py_unfold. cbn. destruct app as [? ? ? ? ? ? ? ? ? v ? ? ?]; cbn.
    destruct (auto_break_var v); reflexivity.
Qed.

Lemma on_timer_complete_break (app : App) :
  is_break app = true ->
  on_timer_complete app = (Ok tt, after_break app).
Proof.
  intros Hb. unfold on_timer_complete, after_break.
  unfold Py.bind at 1. unfold Py.get at 1. rewrite Hb.
  unfold Py.bind at 1 2. unfold Py.modify at 1 2.
  unfold Py.bind at 1. rewrite reread_work_minutes_ok.
  py_unfold. unfold close_break_window, entered_work_minutes.
  destruct app as [? ? ? ? ? ? ? w ? v ? ? ?].
  destruct w; cbn; destruct (auto_work_var v); reflexivity.
Qed.

Lemma standalone_break_minutes_from_ok (text : string) (fallback : Z)
    (app : Standalone.App) :
  Standalone.break_minutes_from text fallback app =
  (Ok (entered_minutes text fallback), app).
Proof.
  unfold Standalone.break_minutes_from, entered_minutes. py_unfold.
  destruct (PyInt.int_if_nonempty _ _) as [v|e] eqn:E; [reflexivity|].
  apply int_if_nonempty_raises_value_error in E. now subst e.
Qed.

Lemma standalone_on_timer_complete_work (app : Standalone.App) :
  Standalone.is_break app = false ->
  Standalone.on_timer_complete app = (Ok tt, standalone_after_work app).
Proof.
  intros Hb. unfold Standalone.on_timer_complete, standalone_after_work.
  unfold Py.bind at 1. unfold Py.get at 1. rewrite Hb.
  unfold Py.bind at 1. unfold Py.modify at 1.
  unfold Py.bind at 1. unfold Py.get at 1.
  cbn [Standalone.session_count Standalone.set_session_count
       Standalone.sessions_until_long_break Standalone.long_break_var
       Standalone.long_break_minutes Standalone.break_var Standalone.break_minutes].
  destruct (Standalone.sessions_until_long_break app <=? Standalone.session_count app + 1)%Z.
  - unfold Py.bind at 1 2. rewrite standalone_break_minutes_from_ok.
    py_unfold. cbn. destruct app as [? ? ? ? ? ? ? ? ? ? ? ? ab ?]; cbn.
    destruct ab; reflexivity.
  - unfold Py.bind at 1 2. rewrite standalone_break_minutes_from_ok.
    py_unfold. cbn. destruct app as [? ? ? ? ? ? ? ? ? ? ? ? ab ?]; cbn.
    destruct ab; reflexivity.
Qed.

Lemma standalone_on_timer_complete_break (app : Standalone.App) :
  Standalone.is_break app = true ->
  Standalone.on_timer_complete app = (Ok tt, standalone_after_break app).
Proof.
  intros Hb. unfold Standalone.on_timer_complete, standalone_after_break.
  unfold Py.bind at 1. unfold Py.get at 1. rewrite Hb.
  unfold Py.bind at 1 2. unfold Py.modify at 1 2.
  unfold Py.bind at 1. rewrite standalone_reread_work_minutes_ok.
  py_unfold. unfold Standalone.close_break_window, standalone_entered_work_minutes.
  destruct app as [? ? ? ? ? ? ? ? w ? ? ? ? aw].
  destruct w; cbn; destruct aw; reflexivity.
Qed.

(** ** Counting sessions *)

(** The counter after one more finished session, when it was [n mod K]. *)
Lemma next_count (K n : Z) :
  1 <= K -> 0 <= n ->
  (if K <=? n mod K + 1 then 0 else n mod K + 1) = (n + 1) mod K /\
  ((K <=? n mod K + 1) = true <-> (n + 1) mod K = 0).
Proof.
  intros HK Hn.
  assert (K0 : K <> 0) by lia.
  pose proof (Z.mod_pos_bound n K ltac:(lia)) as B.
  assert (E : (n + 1) mod K = (n mod K + 1) mod K)
    by (now rewrite Z.add_mod_idemp_l).
  rewrite E. generalize dependent (n mod K). intros r B _.
  destruct (K <=? r + 1) eqn:L.
  - apply Z.leb_le in L. replace (r + 1) with K by lia.
    rewrite Z.mod_same by assumption. tauto.
  - apply Z.leb_gt in L. rewrite Z.mod_small by lia.
    split; [reflexivity|]. split; [discriminate|lia].
Qed.

Lemma cycles_count (K : Z) (app : App) (n : nat) :
  1 <= K ->
  sessions_until_long_break (settings app) = K ->
  is_break app = false ->
  session_count app = 0 ->
  let before := Nat.iter n work_and_break app in
  is_break before = false /\
  sessions_until_long_break (settings before) = K /\
  session_count before = Z.of_nat n mod K.
Proof.
  intros HK HS Hb Hc. induction n as [|n IH]; cbn zeta.
  - cbn. rewrite Z.mod_0_l by lia. auto.
  - cbn zeta in IH. destruct IH as (Ib & Is & Ic).
    rewrite Nat.iter_succ. set (before := Nat.iter n work_and_break app) in *.
    unfold work_and_break.
    rewrite (on_timer_complete_work before Ib). cbn [snd].
    rewrite on_timer_complete_break by reflexivity. cbn [snd].
    unfold after_break, after_work. cbn. rewrite Is, Ic.
    repeat split; auto.
    rewrite Nat2Z.inj_succ. unfold Z.succ.
    destruct (next_count K (Z.of_nat n) HK (Nat2Z.is_nonneg n)) as [E _].
    rewrite <- E. destruct (K <=? _); reflexivity.
Qed.

Lemma standalone_cycles_count (K : Z) (app : Standalone.App) (n : nat) :
  1 <= K ->
  Standalone.sessions_until_long_break app = K ->
  Standalone.is_break app = false ->
  Standalone.session_count app = 0 ->
  let before := Nat.iter n standalone_work_and_break app in
  Standalone.is_break before = false /\
  Standalone.sessions_until_long_break before = K /\
  Standalone.session_count before = Z.of_nat n mod K.
Proof.
  intros HK HS Hb Hc. induction n as [|n IH]; cbn zeta.
  - cbn. rewrite Z.mod_0_l by lia. auto.
  - cbn zeta in IH. destruct IH as (Ib & Is & Ic).
    rewrite Nat.iter_succ. set (before := Nat.iter n standalone_work_and_break app) in *.
    unfold standalone_work_and_break.
    rewrite (standalone_on_timer_complete_work before Ib). cbn [snd].
    rewrite standalone_on_timer_complete_break by reflexivity. cbn [snd].
    unfold standalone_after_break, standalone_after_work. cbn. rewrite Is, Ic.
    repeat split; auto.
    rewrite Nat2Z.inj_succ. unfold Z.succ.
    destruct (next_count K (Z.of_nat n) HK (Nat2Z.is_nonneg n)) as [E _].
    rewrite <- E. destruct (K <=? _); reflexivity.
Qed.

Lemma after_work_count (K : Z) (app : App) (n : Z) :
  1 <= K -> 0 <= n ->
  sessions_until_long_break (settings app) = K ->
  session_count app = n mod K ->
  let after := after_work app in
  (session_count app + 1 >= K -> phase after = LongBreak /\ session_count after = 0) /\
  (session_count app + 1 < K ->
   phase after = ShortBreak /\ session_count after = session_count app + 1) /\
  0 <= session_count app < K /\
  0 <= session_count after < K /\
  session_count after = (n + 1) mod K /\
  (phase after = LongBreak <-> (n + 1) mod K = 0) /\
  (phase after = ShortBreak <-> (n + 1) mod K <> 0).
Proof.
  intros HK Hn HS Hc after.
  destruct (next_count K n HK Hn) as [E1 E2].
  pose proof (Z.mod_pos_bound n K ltac:(lia)) as B.
  pose proof (Z.mod_pos_bound (n + 1) K ltac:(lia)) as B'.
  assert (Hcount : session_count after = (n + 1) mod K).
  { subst after. unfold after_work. cbn. rewrite HS, Hc, <- E1.
    destruct (K <=? _); reflexivity. }
  assert (Hphase : phase after = if K <=? n mod K + 1 then LongBreak else ShortBreak).
  { subst after. unfold after_work, phase. cbn. rewrite HS, Hc.
    destruct (K <=? _); reflexivity. }
  rewrite Hcount, Hphase, Hc. clear Hcount Hphase.
  generalize dependent (n mod K). intros r Hc E1 E2 B.
  generalize dependent ((n + 1) mod K). intros r' E1 E2 B'.
  destruct (K <=? r + 1) eqn:L;
    [apply Z.leb_le in L | apply Z.leb_gt in L];
    repeat split; intros; try lia; try congruence; try discriminate.
Qed.

Lemma standalone_after_work_count (K : Z) (app : Standalone.App) (n : Z) :
  1 <= K -> 0 <= n ->
  Standalone.sessions_until_long_break app = K ->
  Standalone.session_count app = n mod K ->
  let after := standalone_after_work app in
  (Standalone.session_count app + 1 >= K ->
   Standalone.phase after = LongBreak /\ Standalone.session_count after = 0) /\
  (Standalone.session_count app + 1 < K ->
   Standalone.phase after = ShortBreak /\
   Standalone.session_count after = Standalone.session_count app + 1) /\
  0 <= Standalone.session_count app < K /\
  0 <= Standalone.session_count after < K /\
  Standalone.session_count after = (n + 1) mod K /\
  (Standalone.phase after = LongBreak <-> (n + 1) mod K = 0) /\
  (Standalone.phase after = ShortBreak <-> (n + 1) mod K <> 0).
Proof.
  intros HK Hn HS Hc after.
  destruct (next_count K n HK Hn) as [E1 E2].
  pose proof (Z.mod_pos_bound n K ltac:(lia)) as B.
  pose proof (Z.mod_pos_bound (n + 1) K ltac:(lia)) as B'.
  assert (Hcount : Standalone.session_count after = (n + 1) mod K).
  { subst after. unfold standalone_after_work. cbn. rewrite HS, Hc, <- E1.
    destruct (K <=? _); reflexivity. }
  assert (Hphase : Standalone.phase after =
                   if K <=? n mod K + 1 then LongBreak else ShortBreak).
  { subst after. unfold standalone_after_work, Standalone.phase. cbn. rewrite HS, Hc.
    destruct (K <=? _); reflexivity. }
  rewrite Hcount, Hphase, Hc. clear Hcount Hphase.
  generalize dependent (n mod K). intros r Hc E1 E2 B.
  generalize dependent ((n + 1) mod K). intros r' E1 E2 B'.
  destruct (K <=? r + 1) eqn:L;
    [apply Z.leb_le in L | apply Z.leb_gt in L];
    repeat split; intros; try lia; try congruence; try discriminate.
Qed.

(** C2. Start with [session_count = 0] and [sessions_until_long_break = K],
    [K >= 2], and let work sessions and their breaks run to completion one
    after the other.  At the completion of the [(n+1)]-th work session
    [on_timer_complete] returns normally; it adds one to [session_count]; when
    the new count reaches [K] the break is a long one and the count is reset
    to zero, otherwise the break is a short one and the count stays
    incremented.  So the count is [(n+1) mod K] afterwards, always within
    [0, K), and the break is long exactly when [n+1] is a multiple of [K].
    The same holds for the standalone variant. *)
Theorem long_break_every_kth_session (K : Z) (n : nat)
    (app : App) (sapp : Standalone.App) :
  2 <= K ->
  sessions_until_long_break (settings app) = K ->
  phase app = Working ->
  session_count app = 0 ->
  Standalone.sessions_until_long_break sapp = K ->
  Standalone.phase sapp = Working ->
  Standalone.session_count sapp = 0 ->
  (let before := Nat.iter n work_and_break app in
   let after := (on_timer_complete before).2 in
   (on_timer_complete before).1 = Ok tt /\
   phase before = Working /\
   (session_count before + 1 >= K ->
    phase after = LongBreak /\ session_count after = 0) /\
   (session_count before + 1 < K ->
    phase after = ShortBreak /\ session_count after = session_count before + 1) /\
   0 <= session_count before < K /\
   0 <= session_count after < K /\
   session_count after = (Z.of_nat n + 1) mod K /\
   (phase after = LongBreak <-> (Z.of_nat n + 1) mod K = 0) /\
   (phase after = ShortBreak <-> (Z.of_nat n + 1) mod K <> 0)) /\
  (let before := Nat.iter n standalone_work_and_break sapp in
   let after := (Standalone.on_timer_complete before).2 in
   (Standalone.on_timer_complete before).1 = Ok tt /\
   Standalone.phase before = Working /\
   (Standalone.session_count before + 1 >= K ->
    Standalone.phase after = LongBreak /\ Standalone.session_count after = 0) /\
   (Standalone.session_count before + 1 < K ->
    Standalone.phase after = ShortBreak /\
    Standalone.session_count after = Standalone.session_count before + 1) /\
   0 <= Standalone.session_count before < K /\
   0 <= Standalone.session_count after < K /\
   Standalone.session_count after = (Z.of_nat n + 1) mod K /\
   (Standalone.phase after = LongBreak <-> (Z.of_nat n + 1) mod K = 0) /\
   (Standalone.phase after = ShortBreak <-> (Z.of_nat n + 1) mod K <> 0)).
Proof.
  intros HK HS Hp Hc HS' Hp' Hc'.
  assert (Hb : is_break app = false).
  { unfold phase in Hp. destruct (is_break app); [|reflexivity].
    destruct (break_window app) as [[? []]|]; discriminate. }
  assert (Hb' : Standalone.is_break sapp = false).
  { unfold Standalone.phase in Hp'. destruct (Standalone.is_break sapp); [|reflexivity].
    destruct (Standalone.break_window sapp) as [[? []]|]; discriminate. }
  split.
  - destruct (cycles_count K app n ltac:(lia) HS Hb Hc) as (Ib & Is & Ic).
    cbn zeta. set (before := Nat.iter n work_and_break app) in *.
    rewrite (on_timer_complete_work before Ib). cbn [fst snd].
    split; [reflexivity|]. split; [unfold phase; now rewrite Ib|].
    apply (after_work_count K before (Z.of_nat n)); auto; lia.
  - destruct (standalone_cycles_count K sapp n ltac:(lia) HS' Hb' Hc') as (Ib & Is & Ic).
    cbn zeta. set (before := Nat.iter n standalone_work_and_break sapp) in *.
    rewrite (standalone_on_timer_complete_work before Ib). cbn [fst snd].
    split; [reflexivity|]. split; [unfold Standalone.phase; now rewrite Ib|].
    apply (standalone_after_work_count K before (Z.of_nat n)); auto; lia.
Qed.

Lemma long_break_every_kth_session_witness :
  2 <= 4 /\
  sessions_until_long_break (settings fresh_app) = 4 /\
  phase fresh_app = Working /\
  session_count fresh_app = 0 /\
  Standalone.sessions_until_long_break standalone_working = 4 /\
  Standalone.phase standalone_working = Working /\
  Standalone.session_count standalone_working = 0 /\
  (let after := (on_timer_complete (Nat.iter 3 work_and_break fresh_app)).2 in
   phase after = LongBreak /\ session_count after = 0) /\
  (let after :=
     (Standalone.on_timer_complete
        (Nat.iter 3 standalone_work_and_break standalone_working)).2 in
   Standalone.phase after = LongBreak /\ Standalone.session_count after = 0).
Proof.
  split; [lia|]. do 6 (split; [reflexivity|]).
  destruct (long_break_every_kth_session 4 3 fresh_app standalone_working
              ltac:(lia) eq_refl eq_refl eq_refl eq_refl eq_refl eq_refl)
    as [(_ & _ & _ & _ & _ & _ & Hc & Hl & _) (_ & _ & _ & _ & _ & _ & Hc' & Hl' & _)].
  split; (split; [|assumption]).
  - apply Hl. reflexivity.
  - apply Hl'. reflexivity.
Defined.

(** Scenario A: 25 minutes of work, 5 of break, a long break every 4
    sessions.  The first three completions open a short break, the fourth a
    long one of 15 minutes, and the count is back at zero. *)
Example scenario_a :
  map (fun n => let after := (on_timer_complete (Nat.iter n work_and_break fresh_app)).2 in
                (phase after, session_count after, time_left after))
      [0%nat; 1%nat; 2%nat; 3%nat; 4%nat] =
  [ (ShortBreak, 1, 300); (ShortBreak, 2, 300); (ShortBreak, 3, 300);
    (LongBreak, 0, 900); (ShortBreak, 1, 300) ].
Proof. vm_compute. reflexivity. Qed.

(** ** The activity monitor *)

(** C9. The monitor's signals are edge-triggered.  An input event makes
    [is_active] true and records the time; it emits [resumed] only if
    [is_active] was false, and does emit it then (a callback being
    installed).  The periodic check emits [paused] only if [is_active] was
    true and the time since the last activity exceeds the timeout, and does
    emit it then; it makes [is_active] false in that case only.  Neither
    emits anything when [is_active] is left as it was. *)
Theorem monitor_signals_edge_triggered (now : Z) (m : ActivityMonitor.t) :
  (let r := ActivityMonitor.on_activity now m in
   ActivityMonitor.is_active r.1 = true /\
   ActivityMonitor.last_activity r.1 = now /\
   (r.2 = Some ActivityMonitor.resumed -> ActivityMonitor.is_active m = false) /\
   (ActivityMonitor.is_active m = false -> ActivityMonitor.callback m = true ->
    r.2 = Some ActivityMonitor.resumed) /\
   r.2 <> Some ActivityMonitor.paused /\
   (ActivityMonitor.is_active r.1 = ActivityMonitor.is_active m -> r.2 = None)) /\
  (let r := ActivityMonitor.monitor_activity_check now m in
   (r.2 = Some ActivityMonitor.paused ->
    ActivityMonitor.is_active m = true /\
    ActivityMonitor.timeout m < now - ActivityMonitor.last_activity m /\
    ActivityMonitor.is_active r.1 = false) /\
   (ActivityMonitor.is_active m = true ->
    ActivityMonitor.timeout m < now - ActivityMonitor.last_activity m ->
    ActivityMonitor.callback m = true ->
    r.2 = Some ActivityMonitor.paused) /\
   (ActivityMonitor.is_active m = true -> ActivityMonitor.is_active r.1 = false ->
    ActivityMonitor.timeout m < now - ActivityMonitor.last_activity m) /\
   r.2 <> Some ActivityMonitor.resumed /\
   ActivityMonitor.last_activity r.1 = ActivityMonitor.last_activity m /\
   (ActivityMonitor.is_active r.1 = ActivityMonitor.is_active m -> r.2 = None)).
Proof.
  unfold ActivityMonitor.on_activity, ActivityMonitor.monitor_activity_check.
  destruct m as [cb tmo last act run]; cbn.
  destruct (Z.ltb_spec tmo (now - last)) as [L|L]; destruct act, cb; cbn;
    repeat split; intros; try congruence; try lia.
Qed.

(** The callback of the application copies the signal into [is_paused]. *)
Lemma on_activity_change_paused (app : App) :
  is_paused (on_activity_change ActivityMonitor.paused app) = true /\
  pause_reason (on_activity_change ActivityMonitor.paused app) = "Away from computer".
Proof. split; reflexivity. Qed.

Lemma on_activity_change_resumed (app : App) :
  is_paused (on_activity_change ActivityMonitor.resumed app) = false.
Proof.
  unfold on_activity_change. destruct (is_paused app) eqn:E; [reflexivity|exact E].
Qed.

(** ** The timer loop *)

(** The settings of the examples lie within the ranges the entry fields
    declare. *)
Example example_settings_in_range :
  within_declared_ranges default_settings = true /\
  within_declared_ranges one_minute_settings = true.
Proof. split; reflexivity. Qed.

(** While the timer is already paused, a pass of the loop in which
    [should_pause] holds and the monitor is silent changes nothing. *)
Lemma paused_iteration_holds (app : App) :
  should_pause app = true ->
  is_paused app = true ->
  run_timer_iteration [] app = app.
Proof.
  intros Hs Hp. unfold run_timer_iteration. rewrite Hs, Hp. reflexivity.
Qed.

(** So any number of such passes leaves [time_left] and [is_paused] as they
    are. *)
Lemma paused_loop_holds (T : nat) (app : App) :
  should_pause app = true ->
  is_paused app = true ->
  is_running app = true ->
  0 < time_left app ->
  run_timer (repeat [] T) app = (app, StillRunning).
Proof.
  intros Hs Hp Hr Ht. induction T as [|T IH]; cbn.
  - rewrite Hr. cbn. destruct (Z.ltb_spec 0 (time_left app)); [reflexivity|lia].
  - rewrite Hr. cbn. destruct (Z.ltb_spec 0 (time_left app)); [|lia].
    rewrite paused_iteration_holds by assumption. exact IH.
Qed.

(** A pass of the loop that starts with [is_paused] false counts down,
    whatever [should_pause] is, unless the monitor pauses the timer during
    the sleep. *)
Lemma unpaused_iteration_counts_down (app : App) :
  is_paused app = false ->
  run_timer_iteration [] app = set_time_left (time_left app - 1) app.
Proof.
  intros Hp. unfold run_timer_iteration. rewrite Hp.
  rewrite orb_true_r. cbn. rewrite Hp. reflexivity.
Qed.

(** C1 (the code departs from it). [away_at_work] is reached from a launch
    by the timer and the monitor alone.  In it the timer is running in the
    Working phase, [should_pause] is true and [is_paused] is false.  The pass
    of the loop then takes a second off [time_left] and leaves [is_paused]
    false, and the whole work session counts down to its end with nobody at
    the computer: the branch of [run_timer] that sets [is_paused] is only
    entered when [is_paused] is already true. *)
Theorem tick_counts_down_while_should_pause :
  is_running away_at_work = true /\
  phase away_at_work = Working /\
  time_left away_at_work = 60 /\
  activity_detection_enabled (settings away_at_work) = true /\
  ActivityMonitor.is_active (activity_monitor away_at_work) = false /\
  should_pause away_at_work = true /\
  is_paused away_at_work = false /\
  time_left (run_timer_iteration [] away_at_work) = 59 /\
  is_paused (run_timer_iteration [] away_at_work) = false /\
  (let r := run_timer (repeat [] 60) away_at_work in
   time_left r.1 = 0 /\ is_paused r.1 = false /\ r.2 = TimerComplete).
Proof. vm_compute. repeat split; reflexivity. Qed.

(** ** The settings file: [load_config] *)

Lemma assign_all_other (value_for : string -> pyval -> pyval)
    (items : list (string * pyval)) (self : gmap string pyval) (key : string) :
  key ∉ items.*1 -> assign_all value_for items self !! key = self !! key.
Proof.
  revert self. induction items as [|[k v] items IH]; intros self Hk; [reflexivity|].
  cbn in *. apply not_elem_of_cons in Hk as [Hne Hk].
  unfold assign_all in *. cbn. rewrite IH by assumption.
  now rewrite lookup_insert_ne.
Qed.

Lemma assign_all_lookup (value_for : string -> pyval -> pyval)
    (items : list (string * pyval)) (self : gmap string pyval)
    (key : string) (v : pyval) :
  NoDup items.*1 -> (key, v) ∈ items ->
  assign_all value_for items self !! key = Some (value_for key v).
Proof.
  revert self. induction items as [|[k w] items IH]; intros self Hnd Hin.
  - inversion Hin.
  - cbn in Hnd. apply NoDup_cons in Hnd as [Hk Hnd].
    apply elem_of_cons in Hin as [Heq|Hin].
    + inversion Heq; subst. unfold assign_all. cbn.
      fold (assign_all value_for items (<[k := value_for k w]> self)).
      rewrite assign_all_other by assumption. apply lookup_insert_eq.
    + unfold assign_all in *. cbn. now apply IH.
Qed.

Lemma default_config_keys_distinct : NoDup SettingsStore.default_config.*1.
Proof. apply (bool_decide_unpack _). vm_compute. reflexivity. Qed.

Lemma set_defaults_run (self : gmap string pyval) :
  SettingsStore.set_defaults self =
  (Ok tt, assign_all (fun _ v => v) SettingsStore.default_config self).
Proof.
  unfold SettingsStore.set_defaults.
  generalize SettingsStore.default_config. intros items. revert self.
  induction items as [|[k v] items IH]; intros self; [reflexivity|].
  cbn. unfold Py.bind, SettingsStore.setattr, Py.modify. cbn.
  now rewrite IH.
Qed.

Lemma read_items_run (config : gmap string pyval) (self : gmap string pyval) :
  Py.for_each SettingsStore.default_config
    (fun kv =>
       v <- Py.lift (SettingsStore.config_get (PDict config) kv.1 kv.2) ;;
       SettingsStore.setattr kv.1 v) self =
  (Ok tt,
   assign_all (fun k v => default v (config !! k)) SettingsStore.default_config self).
Proof.
  generalize SettingsStore.default_config. intros items. revert self.
  induction items as [|[k v] items IH]; intros self; [reflexivity|].
  cbn. unfold Py.bind, SettingsStore.setattr, Py.modify, Py.lift in *. cbn.
  now rewrite IH.
Qed.

(** A dictionary that holds every documented default holds the default
    settings. *)
Lemma defaults_are_default_settings (self : gmap string pyval) :
  (forall key v, (key, v) ∈ SettingsStore.default_config -> self !! key = Some v) ->
  settings_of_attrs self = Some default_settings.
Proof.
  intros H. unfold settings_of_attrs, int_attr, bool_attr.
  rewrite (H "work_minutes" (PInt 25)) by in_list.
  rewrite (H "break_minutes" (PInt 5)) by in_list.
  rewrite (H "long_break_minutes" (PInt 15)) by in_list.
  rewrite (H "sessions_until_long_break" (PInt 4)) by in_list.
  rewrite (H "sound_enabled" (PBool true)) by in_list.
  rewrite (H "minimize_to_tray" (PBool true)) by in_list.
  rewrite (H "auto_start_break" (PBool true)) by in_list.
  rewrite (H "auto_start_work" (PBool false)) by in_list.
  rewrite (H "auto_start_on_launch" (PBool true)) by in_list.
  rewrite (H "auto_restart_on_skip" (PBool true)) by in_list.
  rewrite (H "activity_detection_enabled" (PBool true)) by in_list.
  rewrite (H "inactivity_timeout" (PInt 60)) by in_list.
  rewrite (H "pause_during_breaks" (PBool false)) by in_list.
  reflexivity.
Qed.

Lemma session_count_not_a_setting (key : string) (v : pyval) :
  (key, v) ∈ SettingsStore.default_config -> "session_count" <> key.
Proof.
  intros Hin Heq. subst key. apply list_elem_of_In in Hin. cbn in Hin.
  repeat (destruct Hin as [Hin|Hin]; [discriminate Hin|]). exact Hin.
Qed.

(** [load_config] returns normally and sets every configuration attribute
    to what the file gives for its key. *)
Lemma load_config_run (d : disk) (self : gmap string pyval) :
  exists self',
    SettingsStore.load_config d self = (Ok tt, self') /\
    forall key documented,
      (key, documented) ∈ SettingsStore.default_config ->
      self' !! key = Some (persisted_or_default d key documented).
Proof.
  assert (D : forall self0 : gmap string pyval,
            exists self',
              ((SettingsStore.set_defaults ;;;
                SettingsStore.setattr "session_count" (PInt 0)) self0 = (Ok tt, self')) /\
              forall key documented,
                (key, documented) ∈ SettingsStore.default_config ->
                self' !! key = Some documented).
  { intros self0. unfold Py.bind at 1. rewrite set_defaults_run.
    eexists. split; [reflexivity|]. intros key v Hin.
    rewrite lookup_insert_ne by (eapply session_count_not_a_setting; eauto).
    apply (assign_all_lookup (fun _ v => v)); auto using default_config_keys_distinct. }
  unfold SettingsStore.load_config, persisted_or_default.
  destruct (config_file d) as [content|] eqn:F; [|apply D].
  unfold Py.bind at 1. unfold Py.try_except.
  unfold Py.bind at 1. unfold Py.lift at 1.
  unfold SettingsStore.open_and_json_load. rewrite F.
  destruct (readable d).
  - destruct content as [|v].
    + cbn [Py.any_exception]. destruct (D self) as (self' & E & H).
      unfold Py.bind at 1 in E. exact (ex_intro _ self' (conj E H)).
    + destruct v as [ | | | | | |config];
        try (destruct (D self) as (self' & E & H);
             unfold Py.bind at 1 in E; exact (ex_intro _ self' (conj E H))).
      rewrite read_items_run.
      eexists. split; [reflexivity|]. intros key v Hin.
      rewrite lookup_insert_ne by (eapply session_count_not_a_setting; eauto).
      apply (assign_all_lookup (fun k v => default v (config !! k)));
        auto using default_config_keys_distinct.
  - destruct content as [|v];
      (destruct (D self) as (self' & E & H);
       unfold Py.bind at 1 in E;
       destruct v as [ | | | | | |config] || idtac;
       exact (ex_intro _ self' (conj E H))).
Qed.

(** C5. [load_config] returns normally whatever is on disk.  Afterwards
    every configuration attribute is set: to the value the file records
    under its key, and to the documented default when the key is missing.
    When the file is missing, cannot be read or does not decode, the
    attributes are exactly the documented defaults. *)
Theorem load_config_never_fails (d : disk) (self : gmap string pyval) :
  exists self',
    SettingsStore.load_config d self = (Ok tt, self') /\
    (forall key documented,
       (key, documented) ∈ SettingsStore.default_config ->
       self' !! key = Some (persisted_or_default d key documented)) /\
    (read_error d -> settings_of_attrs self' = Some default_settings).
Proof.
  destruct (load_config_run d self) as (self' & E & H).
  exists self'. split; [exact E|]. split; [exact H|].
  intros Hr. apply defaults_are_default_settings. intros key v Hin.
  rewrite (H key v Hin). f_equal. unfold persisted_or_default.
  destruct Hr as [Hr|[Hr|Hr]]; rewrite Hr; try reflexivity.
  destruct (config_file d) as [[|[]]|]; reflexivity.
Qed.

(** Scenario D: with no settings file the attributes are the documented
    defaults, and the application starts from them. *)
Example scenario_d :
  settings_of_attrs (SettingsStore.load_config no_file ∅).2 = Some default_settings /\
  launch no_file true true false false 0 = Some fresh_app.
Proof. split; vm_compute; reflexivity. Qed.

(** A file that is a JSON array, or one that lacks keys or holds values of
    another type: the first gives the defaults, the second fills in the
    missing keys only and keeps the value it finds. *)
Example load_config_odd_files :
  let array := {| config_file := Some (Document (PList [PInt 1]));
                  readable := true; writable := true |} in
  let partial := {| config_file :=
                      Some (Document (PDict {[ "work_minutes" := PStr "soon" ]}));
                    readable := true; writable := true |} in
  settings_of_attrs (SettingsStore.load_config array ∅).2 = Some default_settings /\
  (SettingsStore.load_config partial ∅).2 !! "work_minutes" = Some (PStr "soon") /\
  (SettingsStore.load_config partial ∅).2 !! "break_minutes" = Some (PInt 5).
Proof. repeat split; vm_compute; reflexivity. Qed.

(** ** The settings file: [save_config] then [load_config] *)

Lemma settings_of_attrs_of_settings (s : Settings) :
  settings_of_attrs (attrs_of_settings s) = Some s.
Proof. destruct s. vm_compute. reflexivity. Qed.

(** Two attribute dictionaries that agree on the configuration keys hold
    the same settings. *)
Lemma settings_of_attrs_agree (self other : gmap string pyval) :
  (forall key v, (key, v) ∈ SettingsStore.default_config -> self !! key = other !! key) ->
  settings_of_attrs self = settings_of_attrs other.
Proof.
  intros H. unfold settings_of_attrs, int_attr, bool_attr.
  rewrite (H "work_minutes" (PInt 25)) by in_list.
  rewrite (H "break_minutes" (PInt 5)) by in_list.
  rewrite (H "long_break_minutes" (PInt 15)) by in_list.
  rewrite (H "sessions_until_long_break" (PInt 4)) by in_list.
  rewrite (H "sound_enabled" (PBool true)) by in_list.
  rewrite (H "minimize_to_tray" (PBool true)) by in_list.
  rewrite (H "auto_start_break" (PBool true)) by in_list.
  rewrite (H "auto_start_work" (PBool false)) by in_list.
  rewrite (H "auto_start_on_launch" (PBool true)) by in_list.
  rewrite (H "auto_restart_on_skip" (PBool true)) by in_list.
  rewrite (H "activity_detection_enabled" (PBool true)) by in_list.
  rewrite (H "inactivity_timeout" (PInt 60)) by in_list.
  rewrite (H "pause_during_breaks" (PBool false)) by in_list.
  reflexivity.
Qed.

(** The dictionary [save_config] builds is the attribute dictionary of the
    settings: every key is written, under its own name. *)
Lemma build_config_run (s : Settings) :
  SettingsStore.build_config SettingsStore.saved_keys ∅ (attrs_of_settings s) =
  (Ok (attrs_of_settings s), attrs_of_settings s).
Proof.
  destruct s.
  match goal with |- _ = ?r => vm_cast_no_check (@eq_refl _ r) end.
Qed.

Lemma save_config_run (app : App) :
  writable (storage app) = true ->
  save_config app =
  (Ok tt,
   set_storage {| config_file := Some (Document (PDict (attrs_of_settings (settings app))));
                  readable := readable (storage app);
                  writable := writable (storage app) |} app).
Proof.
  intros Hw. unfold save_config, SettingsStore.save_config.
  unfold Py.bind. rewrite build_config_run, Hw. reflexivity.
Qed.

(** When the file cannot be opened for writing, [save_config] raises and
    the disk is as before. *)
Lemma save_config_unwritable (app : App) :
  writable (storage app) = false ->
  save_config app = (Raise OSError, app).
Proof.
  intros Hw. unfold save_config, SettingsStore.save_config.
  unfold Py.bind. rewrite build_config_run, Hw. reflexivity.
Qed.

(** Every key that [load_config] reads is a key that [save_config] wrote. *)
Lemma saved_keys_cover_defaults (s : Settings) (key : string) (documented : pyval) :
  (key, documented) ∈ SettingsStore.default_config ->
  is_Some (attrs_of_settings s !! key).
Proof.
  intros Hin. apply list_elem_of_In in Hin. cbn in Hin. destruct s.
  repeat (destruct Hin as [Hin|Hin];
          [inversion Hin; subst; vm_compute; eexists; reflexivity|]).
  destruct Hin.
Qed.

(** C6. When the settings file can be written and read, [save_config]
    followed by [load_config], on any object, gives back the settings that
    were saved.  This holds for all settings, those within the ranges the
    entry fields declare included. *)
Theorem save_then_load (app : App) :
  writable (storage app) = true ->
  readable (storage app) = true ->
  exists app',
    save_config app = (Ok tt, app') /\
    settings app' = settings app /\
    forall self : gmap string pyval,
    exists self',
      SettingsStore.load_config (storage app') self = (Ok tt, self') /\
      settings_of_attrs self' = Some (settings app).
Proof.
  intros Hw Hr. rewrite (save_config_run app Hw).
  eexists. split; [reflexivity|]. split; [reflexivity|].
  intros self. cbn [storage set_storage].
  destruct (load_config_run
              {| config_file := Some (Document (PDict (attrs_of_settings (settings app))));
                 readable := readable (storage app);
                 writable := writable (storage app) |} self) as (self' & E & H).
  exists self'. split; [exact E|].
  rewrite <- (settings_of_attrs_of_settings (settings app)).
  apply settings_of_attrs_agree. intros key v Hin.
  rewrite (H key v Hin). unfold persisted_or_default. cbn. rewrite Hr.
  destruct (saved_keys_cover_defaults (settings app) key v Hin) as [w Hs].
  rewrite Hs. reflexivity.
Qed.

Lemma save_then_load_witness :
  within_declared_ranges (settings fresh_app) = true /\
  writable (storage fresh_app) = true /\
  readable (storage fresh_app) = true /\
  exists app',
    save_config fresh_app = (Ok tt, app') /\
    settings app' = settings fresh_app /\
    forall self : gmap string pyval,
    exists self',
      SettingsStore.load_config (storage app') self = (Ok tt, self') /\
      settings_of_attrs self' = Some (settings fresh_app).
Proof.
  split; [reflexivity|]. split; [reflexivity|]. split; [reflexivity|].
  apply (save_then_load fresh_app); reflexivity.
Defined.

(** ** [save_settings] *)

(** The monad, one step at a time. *)
Lemma bind_get_ret {S A B : Type} (f : S -> A) (k : A -> Py.M S B) (s : S) :
  Py.bind (Py.bind Py.get (fun a => Py.ret (f a))) k s = k (f s) s.
Proof. reflexivity. Qed.

Lemma bind_lift {S A B : Type} (r : res A) (k : A -> Py.M S B) (s : S) :
  Py.bind (Py.lift r) k s =
  match r with
  | Ok a => k a s
  | Raise e => (Raise e, s)
  end.
Proof. destruct r; reflexivity. Qed.

Lemma bind_modify {S B : Type} (f : S -> S) (k : unit -> Py.M S B) (s : S) :
  Py.bind (Py.modify f) k s = k tt (f s).
Proof. reflexivity. Qed.

Lemma bind_assign {B : Type} (f : App -> Settings -> Settings)
    (k : unit -> Py.M App B) (app : App) :
  Py.bind (assign_setting f) k app = k tt (set_settings (f app (settings app)) app).
Proof. reflexivity. Qed.

Lemma non_numeric_raises (text : string) (fallback : Z) :
  non_numeric text = true ->
  PyInt.int_if_nonempty text fallback = Raise ValueError.
Proof.
  unfold non_numeric. destruct text as [|c text]; cbn; [discriminate|].
  destruct (PyInt.int (String c text)) as [v|e] eqn:E; [discriminate|].
  apply int_raises_value_error in E. now subst e.
Qed.

Lemma numeric_reads (text : string) (fallback : Z) :
  non_numeric text = false ->
  exists v, PyInt.int_if_nonempty text fallback = Ok v.
Proof.
  unfold non_numeric. destruct text as [|c text]; cbn; [eauto|].
  destruct (PyInt.int (String c text)) as [v|e]; [eauto|discriminate].
Qed.

Example non_numeric_examples :
  map non_numeric ["abc"; "2.5"; "12a"; " "; ""; "30"; " 7 "] =
  [true; true; true; true; false; false; false].
Proof. reflexivity. Qed.

(** C8 (as the code has it). When the text of a numeric field is
    non-numeric, [save_settings] catches the [ValueError] and returns after
    the error box: no exception leaves it.  The timer state, the monitor and
    the file are untouched.  The field with the first non-numeric text and
    the fields read after it keep their values, and so do all the boolean
    options; the fields read before it hold the numbers just entered. *)
Theorem failed_save_keeps_later_fields (now : Z) (app : App) (f : numeric_field) :
  non_numeric (field_text f (vars app)) = true ->
  (forall g, (field_rank g < field_rank f)%nat ->
             non_numeric (field_text g (vars app)) = false) ->
  exists app',
    save_settings now app = (Ok InvalidNumbers, app') /\
    timer_state app' = timer_state app /\
    storage app' = storage app /\
    activity_monitor app' = activity_monitor app /\
    vars app' = vars app /\
    flags (settings app') = flags (settings app) /\
    (forall g, (field_rank f <= field_rank g)%nat ->
               field_value g (settings app') = field_value g (settings app)) /\
    (forall g, (field_rank g < field_rank f)%nat ->
               PyInt.int_if_nonempty (field_text g (vars app)) (field_if_empty g) =
               Ok (field_value g (settings app'))).
Proof.
  intros Hbad Hgood.
  assert (G : forall g, (field_rank g < field_rank f)%nat ->
              exists v, PyInt.int_if_nonempty (field_text g (vars app)) (field_if_empty g) = Ok v).
  { intros g Hg. apply numeric_reads. auto. }
  pose proof (non_numeric_raises _ (field_if_empty f) Hbad) as B.
  unfold save_settings, Py.try_except.
  rewrite bind_get_ret. cbv beta.
  destruct f; cbn [field_text field_if_empty field_rank] in *.
  - rewrite bind_lift, B. cbv beta iota delta [is_value_error Py.ret].
    eexists. split; [reflexivity|].
    repeat split; auto; intros g Hg; destruct g; cbn in *; try lia; reflexivity.
  - destruct (G FWork ltac:(cbn; lia)) as [v0 E0]. cbn in E0.
    rewrite bind_lift, E0, bind_assign. cbv beta.
    rewrite bind_lift, B. cbv beta iota delta [is_value_error Py.ret].
    eexists. split; [reflexivity|].
    repeat split; auto; intros g Hg; destruct g; cbn in *; try lia; auto.
  - destruct (G FWork ltac:(cbn; lia)) as [v0 E0]. cbn in E0.
    destruct (G FBreak ltac:(cbn; lia)) as [v1 E1]. cbn in E1.
    rewrite bind_lift, E0, bind_assign. cbv beta.
    rewrite bind_lift, E1, bind_assign. cbv beta.
    rewrite bind_lift, B. cbv beta iota delta [is_value_error Py.ret].
    eexists. split; [reflexivity|].
    repeat split; auto; intros g Hg; destruct g; cbn in *; try lia; auto.
  - destruct (G FWork ltac:(cbn; lia)) as [v0 E0]. cbn in E0.
    destruct (G FBreak ltac:(cbn; lia)) as [v1 E1]. cbn in E1.
    destruct (G FLongBreak ltac:(cbn; lia)) as [v2 E2]. cbn in E2.
    rewrite bind_lift, E0, bind_assign. cbv beta.
    rewrite bind_lift, E1, bind_assign. cbv beta.
    rewrite bind_lift, E2, bind_assign. cbv beta.
    rewrite bind_lift, B. cbv beta iota delta [is_value_error Py.ret].
    eexists. split; [reflexivity|].
    repeat split; auto; intros g Hg; destruct g; cbn in *; try lia; auto.
  - destruct (G FWork ltac:(cbn; lia)) as [v0 E0]. cbn in E0.
    destruct (G FBreak ltac:(cbn; lia)) as [v1 E1]. cbn in E1.
    destruct (G FLongBreak ltac:(cbn; lia)) as [v2 E2]. cbn in E2.
    destruct (G FSessions ltac:(cbn; lia)) as [v3 E3]. cbn in E3.
    rewrite bind_lift, E0, bind_assign. cbv beta.
    rewrite bind_lift, E1, bind_assign. cbv beta.
    rewrite bind_lift, E2, bind_assign. cbv beta.
    rewrite bind_lift, E3, bind_assign. cbv beta.
    rewrite bind_lift, B. cbv beta iota delta [is_value_error Py.ret].
    eexists. split; [reflexivity|].
    repeat split; auto; intros g Hg; destruct g; cbn in *; try lia; auto.
Qed.

Lemma failed_save_keeps_later_fields_witness :
  non_numeric (field_text FBreak (vars typo_app)) = true /\
  (forall g, (field_rank g < field_rank FBreak)%nat ->
             non_numeric (field_text g (vars typo_app)) = false) /\
  exists app',
    save_settings 0 typo_app = (Ok InvalidNumbers, app') /\
    timer_state app' = timer_state typo_app /\
    storage app' = storage typo_app /\
    break_minutes (settings app') = 5 /\
    work_minutes (settings app') = 30.
Proof.
  assert (G : forall g, (field_rank g < field_rank FBreak)%nat ->
              non_numeric (field_text g (vars typo_app)) = false).
  { intros g Hg. destruct g; cbn in Hg; try lia. reflexivity. }
  split; [reflexivity|]. split; [exact G|].
  destruct (failed_save_keeps_later_fields 0 typo_app FBreak eq_refl G)
    as (app' & E & Ht & Hs & _ & _ & _ & Hlater & Hearlier).
  exists app'. split; [exact E|]. split; [exact Ht|]. split; [exact Hs|]. split.
  - apply (Hlater FBreak). cbn. lia.
  - specialize (Hearlier FWork ltac:(cbn; lia)).
    assert (X : Ok 30 = Ok (work_minutes (settings app'))) by exact Hearlier.
    congruence.
Defined.

(** C8 as stated fails: 30 in the work field and letters in the break
    field.  The save ends with the error box, and [work_minutes], 25 before,
    is 30 after: the failed save has changed the settings. *)
Lemma failed_save_changes_settings :
  non_numeric (break_var (vars typo_app)) = true /\
  work_minutes (settings typo_app) = 25 /\
  exists app',
    save_settings 0 typo_app = (Ok InvalidNumbers, app') /\
    work_minutes (settings app') = 30 /\
    settings app' <> settings typo_app.
Proof.
  split; [reflexivity|]. split; [reflexivity|].
  eexists. split; [vm_compute; reflexivity|]. split; [reflexivity|].
  intros H. apply (f_equal work_minutes) in H. vm_compute in H. discriminate.
Qed.

(** A save with numbers in every field ends with the information box. *)
Example save_settings_succeeds :
  (save_settings 0 shorter_work_app).1 = Ok SettingsSaved /\
  work_minutes (settings (save_settings 0 shorter_work_app).2) = 10 /\
  settings_of_attrs
    (SettingsStore.load_config (storage (save_settings 0 shorter_work_app).2) ∅).2 =
    Some (set_work_minutes 10 default_settings).
Proof. repeat split; vm_compute; reflexivity. Qed.

(** The one exception [save_settings] lets through: the file cannot be
    written.  It is not a [ValueError]. *)
Example save_settings_unwritable :
  (save_settings 0 (set_storage {| config_file := None; readable := true;
                                   writable := false |} fresh_app)).1 = Raise OSError.
Proof. vm_compute. reflexivity. Qed.

(** ** The bound on [time_left] *)

Lemma reset_timer_run (app : App) : reset_timer app = (Ok tt, after_reset app).
Proof.
  unfold reset_timer, after_reset.
  unfold Py.bind at 1 2 3 4. unfold Py.modify at 1 2 3 4.
  unfold Py.bind at 1. rewrite reread_work_minutes_ok.
  py_unfold. unfold entered_work_minutes.
  destruct app as [? ? ? ? ? ? ? w ? ? ? ? ?]. destruct w; reflexivity.
Qed.

Lemma skip_break_run (app : App) : skip_break app = (Ok tt, after_skip app).
Proof.
  unfold skip_break, after_skip.
  unfold Py.bind at 1 2 3 4. unfold Py.modify at 1 2 3 4.
  unfold Py.bind at 1. rewrite reread_work_minutes_ok.
  py_unfold. unfold entered_work_minutes, close_break_window.
  destruct app as [? ? ? ? ? ? ? w ? v ? ? ?].
  destruct w; cbn; destruct (auto_skip_var v); reflexivity.
Qed.

Lemma same_phase_data_refl (app : App) : same_phase_data app app.
Proof. repeat split. Qed.

Lemma same_phase_data_trans (a b c : App) :
  same_phase_data a b -> same_phase_data b c -> same_phase_data a c.
Proof.
  unfold same_phase_data. intros (? & ? & ? & ?) (? & ? & ? & ?).
  repeat split; congruence.
Qed.

(** The monitor and its callback touch [is_paused], [pause_reason] and the
    monitor only. *)
Lemma deliver_frame (ev : monitor_event) (app : App) :
  same_phase_data app (deliver ev app) /\
  time_left (deliver ev app) = time_left app /\
  is_running (deliver ev app) = is_running app /\
  session_count (deliver ev app) = session_count app.
Proof.
  unfold deliver. destruct (ActivityMonitor.running (activity_monitor app));
    [|repeat split].
  destruct ev as [now|now]; cbn.
  - unfold ActivityMonitor.on_activity. cbn.
    destruct (negb _ && _); cbn; [destruct (is_paused app)|]; repeat split.
  - unfold ActivityMonitor.monitor_activity_check.
    destruct (_ && _); cbn; [destruct (ActivityMonitor.callback _)|]; repeat split.
Qed.

Lemma sleep_frame (during : list monitor_event) (app : App) :
  same_phase_data app (sleep during app) /\
  time_left (sleep during app) = time_left app /\
  is_running (sleep during app) = is_running app /\
  session_count (sleep during app) = session_count app.
Proof.
  unfold sleep. revert app. induction during as [|ev during IH]; intros app; cbn.
  - repeat split.
  - destruct (deliver_frame ev app) as (D & Dt & Dr & Dc).
    destruct (IH (deliver ev app)) as (S & St & Sr & Sc).
    split; [eapply same_phase_data_trans; eauto|]. repeat split; congruence.
Qed.

(** A pass of the timer loop never adds to [time_left]: it takes one second
    off or none. *)
Lemma run_timer_iteration_frame (during : list monitor_event) (app : App) :
  same_phase_data app (run_timer_iteration during app) /\
  (time_left (run_timer_iteration during app) = time_left app \/
   time_left (run_timer_iteration during app) = time_left app - 1) /\
  is_running (run_timer_iteration during app) = is_running app /\
  session_count (run_timer_iteration during app) = session_count app.
Proof.
  unfold run_timer_iteration.
  destruct (negb (should_pause app) || negb (is_paused app)).
  - match goal with |- context [sleep during ?a] => set (app1 := a) end.
    assert (F1 : same_phase_data app app1 /\ time_left app1 = time_left app /\
                 is_running app1 = is_running app /\
                 session_count app1 = session_count app).
    { subst app1. destruct (is_paused app && negb (should_pause app)); repeat split. }
    destruct F1 as (F1 & T1 & R1 & C1).
    destruct (sleep_frame during app1) as (F2 & T2 & R2 & C2).
    destruct (is_paused (sleep during app1)); cbn.
    + split; [eapply same_phase_data_trans; eauto|].
      split; [left|split]; congruence.
    + destruct F2 as (? & ? & ? & ?), F1 as (? & ? & ? & ?).
      split; [repeat split; cbn; congruence|].
      split; [right|split]; cbn; congruence.
  - match goal with |- context [sleep during ?a] => set (app1 := a) end.
    assert (F1 : same_phase_data app app1 /\ time_left app1 = time_left app /\
                 is_running app1 = is_running app /\
                 session_count app1 = session_count app).
    { subst app1. destruct (negb (is_paused app)); repeat split. }
    destruct F1 as (F1 & T1 & R1 & C1).
    destruct (sleep_frame during app1) as (F2 & T2 & R2 & C2).
    split; [eapply same_phase_data_trans; eauto|].
    split; [left|split]; congruence.
Qed.

Lemma timer_invariant_frame (app app' : App) :
  same_phase_data app app' ->
  time_left app' <= time_left app ->
  timer_invariant app -> timer_invariant app'.
Proof.
  unfold timer_invariant, break_fields_agree, window_open_in_break,
    within_phase_duration, phase_seconds, phase.
  intros (Hs & Hb & Hw & Hv) Ht. rewrite Hs, Hb, Hw, Hv.
  intros (A & W & B). split; [exact A|]. split; [exact W|]. lia.
Qed.

Lemma timer_invariant_after_work (app : App) :
  timer_invariant app -> is_break app = false -> timer_invariant (after_work app).
Proof.
  unfold timer_invariant, break_fields_agree, window_open_in_break,
    within_phase_duration, phase_seconds, phase, after_work.
  intros ((A1 & A2) & W & B) Hb. cbn.
  split; [split; assumption|]. split; [eauto|].
  destruct (_ <=? _); cbn; rewrite ?A1, ?A2; lia.
Qed.

Lemma timer_invariant_fresh_work (app app' : App) :
  timer_invariant app ->
  vars app' = vars app ->
  break_minutes (settings app') = break_minutes (settings app) ->
  long_break_minutes (settings app') = long_break_minutes (settings app) ->
  is_break app' = false ->
  time_left app' = work_minutes (settings app') * 60 ->
  timer_invariant app'.
Proof.
  unfold timer_invariant, break_fields_agree, window_open_in_break,
    within_phase_duration, phase_seconds, phase.
  intros ((A1 & A2) & W & B) Hv Hbm Hlm Hb Ht.
  rewrite Hv, Hbm, Hlm, Hb, Ht.
  split; [split; assumption|]. split; [discriminate|lia].
Qed.

Lemma step_preserves_invariant (c : command) (app : App) :
  timer_invariant app -> timer_invariant (step c app).
Proof.
  intros I. destruct c; cbn [step].
  - apply (timer_invariant_frame app); [repeat split|reflexivity|exact I].
  - apply (timer_invariant_frame app); [repeat split|reflexivity|exact I].
  - unfold toggle_timer. destruct (is_running app);
      (apply (timer_invariant_frame app); [repeat split|reflexivity|exact I]).
  - rewrite reset_timer_run. cbn [snd].
    apply (timer_invariant_fresh_work app); auto.
  - rewrite skip_break_run. cbn [snd].
    apply (timer_invariant_fresh_work app); auto.
  - revert I.
    unfold timer_invariant, break_fields_agree, window_open_in_break,
      within_phase_duration, phase_seconds, phase. cbn. tauto.
  - destruct (is_running app && (0 <? time_left app)); [|exact I].
    destruct (run_timer_iteration_frame during app) as (F & T & _).
    apply (timer_invariant_frame app); [exact F|lia|exact I].
  - destruct (is_running app && (time_left app =? 0)); [|exact I].
    destruct (is_break app) eqn:Hb.
    + rewrite on_timer_complete_break by exact Hb. cbn [snd].
      apply (timer_invariant_fresh_work app); auto.
    + rewrite on_timer_complete_work by exact Hb. cbn [snd].
      now apply timer_invariant_after_work.
  - destruct (deliver_frame ev app) as (F & T & _).
    apply (timer_invariant_frame app); [exact F|lia|exact I].
Qed.

Lemma steps_preserve_invariant (cs : list command) (app : App) :
  timer_invariant app -> timer_invariant (steps cs app).
Proof.
  unfold steps. revert app. induction cs as [|c cs IH]; intros app I; cbn.
  - exact I.
  - apply IH. now apply step_preserves_invariant.
Qed.

(** A launched application satisfies the invariant, whatever the settings
    it was launched with: the entry fields show the settings and the first
    work session has its full length. *)
Lemma init_invariant (s : Settings) (d : disk)
    (tray activity start_minimized startup_enabled : bool) (now : Z) :
  timer_invariant (init s d tray activity start_minimized startup_enabled now).
Proof.
  unfold timer_invariant, break_fields_agree, window_open_in_break,
    within_phase_duration, phase_seconds, phase, init.
  destruct (activity_detection_enabled s && activity),
    (auto_start_on_launch s && negb start_minimized); cbn;
    rewrite !entered_minutes_str; (split; [split; reflexivity|]);
    (split; [discriminate|lia]).
Qed.

(** [save_settings] never touches the timer state. *)
Lemma keeps_ret {A : Type} (a : A) : keeps_timer_state (Py.ret a).
Proof. intros app. reflexivity. Qed.

Lemma keeps_lift {A : Type} (r : res A) : keeps_timer_state (Py.lift r).
Proof. intros app. reflexivity. Qed.

Lemma keeps_get : keeps_timer_state Py.get.
Proof. intros app. reflexivity. Qed.

Lemma keeps_bind {A B : Type} (m : Py.M App A) (k : A -> Py.M App B) :
  keeps_timer_state m -> (forall a, keeps_timer_state (k a)) ->
  keeps_timer_state (Py.bind m k).
Proof.
  intros Hm Hk app. unfold Py.bind. specialize (Hm app).
  destruct (m app) as [[a|e] app1]; cbn in *; [|exact Hm].
  now rewrite Hk.
Qed.

Lemma keeps_try_except {A : Type} (body handler : Py.M App A) (catches : exn -> bool) :
  keeps_timer_state body -> keeps_timer_state handler ->
  keeps_timer_state (Py.try_except body catches handler).
Proof.
  intros Hb Hh app. unfold Py.try_except. specialize (Hb app).
  destruct (body app) as [[a|e] app1]; cbn in *; [exact Hb|].
  destruct (catches e); [now rewrite Hh|exact Hb].
Qed.

Lemma keeps_assign_setting (f : App -> Settings -> Settings) :
  keeps_timer_state (assign_setting f).
Proof. intros app. reflexivity. Qed.

Lemma keeps_modify (f : App -> App) :
  (forall app, timer_state (f app) = timer_state app) ->
  keeps_timer_state (Py.modify f).
Proof. intros H app. apply H. Qed.

Lemma keeps_save_config : keeps_timer_state save_config.
Proof.
  intros app. unfold save_config.
  destruct (SettingsStore.save_config _ _) as [[d|e] self]; reflexivity.
Qed.

Lemma save_settings_keeps_timer_state (now : Z) : keeps_timer_state (save_settings now).
Proof.
  unfold save_settings.
  apply keeps_try_except; [|apply keeps_ret].
  repeat first
    [ apply keeps_ret | apply keeps_lift | apply keeps_get
    | apply keeps_assign_setting | apply keeps_save_config
    | apply keeps_bind; [|intros ?] | apply keeps_modify ].
  all: intros app;
    repeat match goal with
           | |- context [if ?b then _ else _] => destruct b
           end;
    reflexivity.
Qed.

(** C7 (as the code has it). Launch the application with any settings and
    let it run: buttons, typing into the work field, passes of the timer
    loop with whatever the monitor does meanwhile, completions.  As long as
    nobody saves settings or edits the break fields, [time_left] is at most
    the duration the settings give the current phase.  [save_settings] does
    not adjust [time_left]: it leaves the timer state as it is, whatever it
    makes of the settings. *)
Theorem time_left_bounded_between_saves
    (s : Settings) (d : disk)
    (tray activity start_minimized startup_enabled : bool) (now : Z)
    (cs : list command) :
  let app := steps cs (init s d tray activity start_minimized startup_enabled now) in
  within_phase_duration app /\
  (forall c, within_phase_duration (step c app)) /\
  (forall t, timer_state (save_settings t app).2 = timer_state app) /\
  (forall t, time_left (save_settings t app).2 = time_left app).
Proof.
  intros app.
  assert (I : timer_invariant app).
  { apply steps_preserve_invariant, init_invariant. }
  split; [apply I|]. split.
  - intros c. apply (step_preserves_invariant c app I).
  - assert (K : forall t, timer_state (save_settings t app).2 = timer_state app).
    { intros t. apply save_settings_keeps_timer_state. }
    split; [exact K|]. intros t. specialize (K t).
    unfold timer_state in K. congruence.
Qed.

(** C7 as stated fails.  In a freshly launched application the first work
    session has 1500 seconds left and 25 minutes of work are set.  The user
    types 10 into the work field and saves: the settings now give the phase
    600 seconds and [time_left] is still 1500. *)
Lemma saving_shorter_work_breaks_bound :
  within_phase_duration shorter_work_app /\
  (save_settings 0 shorter_work_app).1 = Ok SettingsSaved /\
  phase (save_settings 0 shorter_work_app).2 = Working /\
  time_left (save_settings 0 shorter_work_app).2 = 1500 /\
  phase_seconds (save_settings 0 shorter_work_app).2 = 600 /\
  ~ within_phase_duration (save_settings 0 shorter_work_app).2.
Proof.
  split; [vm_compute; discriminate|].
  repeat split; try (vm_compute; reflexivity).
  unfold within_phase_duration.
  assert (T : time_left (save_settings 0 shorter_work_app).2 = 1500)
    by (vm_compute; reflexivity).
  assert (P : phase_seconds (save_settings 0 shorter_work_app).2 = 600)
    by (vm_compute; reflexivity).
  rewrite T, P. lia.
Qed.

(** The break fields matter too: with 10 typed into the break field and
    nothing saved, the next short break starts with 600 seconds while the
    settings give it 300. *)
Example unsaved_break_field :
  let app := set_vars (set_break_var "10" (vars fresh_app)) fresh_app in
  let after := (on_timer_complete app).2 in
  phase after = ShortBreak /\ time_left after = 600 /\ phase_seconds after = 300.
Proof. vm_compute. repeat split; reflexivity. Qed.

(** Scenario B: activity detection on, a timeout of 60 seconds, nobody at
    the computer after the launch.  The timer counts down for 60 seconds;
    the check at second 61 pauses it and [time_left] stays where it is; one
    input event and it counts down again. *)
Example scenario_b :
  let one_second t := [Tick []; Monitor (InactivityCheck t)] in
  let minute := flat_map one_second (map Z.of_nat (seq 1 61)) in
  let away := steps minute fresh_app in
  let still_away := steps [Tick []; Tick []; Tick []] away in
  let back := steps [Monitor (InputEvent 65); Tick []] still_away in
  (time_left away, is_paused away) = (1439, true) /\
  (time_left still_away, is_paused still_away) = (1439, true) /\
  (time_left back, is_paused back) = (1438, false).
Proof. vm_compute. repeat split; reflexivity. Qed.

(** * Further properties of the code *)

(** ** The timer loop as a whole *)

Lemma set_time_left_same (v : Z) (app : App) :
  time_left app = v -> set_time_left v app = app.
Proof. intros <-. destruct app; reflexivity. Qed.

(** X1. A running, unpaused timer with [n] seconds left and a silent monitor
    counts down one second per pass: after [k < n] passes [n - k] seconds
    are left and the loop is still running; after [n] passes or more the
    loop has ended with [time_left = 0] and the completion callback
    scheduled.  Nothing else changes. *)
Theorem countdown_takes_time_left_passes (n k : nat) (app : App) :
  is_running app = true ->
  is_paused app = false ->
  time_left app = Z.of_nat n ->
  run_timer (repeat [] k) app =
  if (k <? n)%nat
  then (set_time_left (Z.of_nat (n - k)) app, StillRunning)
  else (set_time_left 0 app, TimerComplete).
Proof.
  revert n app. induction k as [|k IH]; intros n app Hr Hp Ht.
  - cbn [repeat run_timer]. rewrite Hr, Ht. cbn [andb].
    destruct n as [|n].
    + cbn. now rewrite set_time_left_same.
    + replace (0 <? Z.of_nat (S n)) with true by (symmetry; apply Z.ltb_lt; lia).
      replace (0 <? S n)%nat with true by (symmetry; apply Nat.ltb_lt; lia).
      rewrite Nat.sub_0_r. now rewrite set_time_left_same.
  - cbn [repeat run_timer]. rewrite Hr, Ht. cbn [andb].
    destruct n as [|n].
    + cbn. now rewrite set_time_left_same.
    + replace (0 <? Z.of_nat (S n)) with true by (symmetry; apply Z.ltb_lt; lia).
      rewrite (unpaused_iteration_counts_down app Hp).
      rewrite (IH n (set_time_left (time_left app - 1) app)); cbn; try assumption; [|lia].
      change (S k <? S n)%nat with (k <? n)%nat.
      destruct (k <? n)%nat; reflexivity.
Qed.

Lemma countdown_takes_time_left_passes_witness :
  is_running fresh_app = true /\
  is_paused fresh_app = false /\
  time_left fresh_app = Z.of_nat 1500 /\
  time_left (run_timer (repeat [] 1499) fresh_app).1 = 1 /\
  (run_timer (repeat [] 1499) fresh_app).2 = StillRunning /\
  time_left (run_timer (repeat [] 1500) fresh_app).1 = 0 /\
  (run_timer (repeat [] 1500) fresh_app).2 = TimerComplete.
Proof.
  split; [reflexivity|]. split; [reflexivity|]. split; [reflexivity|].
  rewrite (countdown_takes_time_left_passes 1500 1499 fresh_app eq_refl eq_refl eq_refl).
  rewrite (countdown_takes_time_left_passes 1500 1500 fresh_app eq_refl eq_refl eq_refl).
  repeat split.
Defined.

(** X2. Whatever the monitor does meanwhile and however long the loop runs,
    [run_timer] never adds to [time_left] and never takes it below zero; it
    changes neither the phase, the settings, the entry fields, the session
    count nor [is_running]. *)
Theorem run_timer_stays_within_bounds (schedule : list (list monitor_event)) (app : App) :
  0 <= time_left app ->
  let after := (run_timer schedule app).1 in
  0 <= time_left after <= time_left app /\
  same_phase_data app after /\
  is_running after = is_running app /\
  session_count after = session_count app.
Proof.
  revert app. induction schedule as [|during schedule IH]; intros app H0; cbn zeta.
  - cbn [run_timer]. destruct (is_running app && (0 <? time_left app)); cbn [fst];
      (split; [lia|]); repeat split.
  - cbn [run_timer]. destruct (is_running app && (0 <? time_left app)) eqn:G.
    + apply andb_true_iff in G as [_ G]. apply Z.ltb_lt in G.
      destruct (run_timer_iteration_frame during app) as (F & T & R & C).
      destruct (IH (run_timer_iteration during app) ltac:(lia)) as (B & F' & R' & C').
      split; [lia|]. split; [eapply same_phase_data_trans; eauto|].
      split; congruence.
    + cbn [fst]. split; [lia|]. repeat split.
Qed.

Lemma run_timer_stays_within_bounds_witness :
  0 <= time_left fresh_app /\
  let after :=
    (run_timer [[InactivityCheck 61]; []; [InputEvent 62]; []] fresh_app).1 in
  0 <= time_left after <= time_left fresh_app.
Proof.
  split; [vm_compute; discriminate|].
  apply (run_timer_stays_within_bounds _ fresh_app). vm_compute. discriminate.
Defined.

(** X3. There is no check on the number in the work field.  With a negative
    number there, [reset_timer] leaves a negative [time_left], and a timer
    started from that state neither counts nor completes: [run_timer]
    leaves its loop at once, whatever the schedule.  With zero there, the
    loop also ends at once, with the completion callback scheduled. *)
Theorem reset_to_nonpositive_work_minutes (schedule : list (list monitor_event)) (app : App) :
  entered_work_minutes app <= 0 ->
  let ready := start_timer (reset_timer app).2 in
  time_left ready = entered_work_minutes app * 60 /\
  run_timer schedule ready =
  (ready, if entered_work_minutes app =? 0 then TimerComplete else Stopped).
Proof.
  intros H. cbn zeta. rewrite reset_timer_run. cbn [snd].
  split; [reflexivity|].
  assert (G : (0 <? time_left (start_timer (after_reset app))) = false).
  { apply Z.ltb_ge. cbn. lia. }
  destruct schedule; cbn [run_timer]; rewrite G, andb_false_r;
    f_equal; cbn;
    destruct (Z.eqb_spec (entered_work_minutes app) 0) as [E|E];
    destruct (Z.eqb_spec (entered_work_minutes app * 60) 0); try reflexivity; lia.
Qed.

Lemma reset_to_nonpositive_work_minutes_witness :
  let app := step (TypeWorkMinutes "-5") fresh_app in
  entered_work_minutes app <= 0 /\
  time_left (start_timer (reset_timer app).2) = -300 /\
  (run_timer [[]; []; []] (start_timer (reset_timer app).2)).2 = Stopped.
Proof.
  cbn zeta.
  assert (H : entered_work_minutes (step (TypeWorkMinutes "-5") fresh_app) <= 0)
    by (vm_compute; discriminate).
  split; [exact H|].
  destruct (reset_to_nonpositive_work_minutes [[]; []; []] _ H) as [T R].
  split; [exact T|]. rewrite R. reflexivity.
Defined.

(** X4. One input event is enough to get a running timer going again: after
    it, the next pass of the loop (monitor silent) takes a second off
    [time_left] and leaves [is_paused] false, whatever the state was. *)
Theorem input_event_resumes_countdown (now : Z) (app : App) :
  ActivityMonitor.running (activity_monitor app) = true ->
  let app' := run_timer_iteration [] (deliver (InputEvent now) app) in
  time_left app' = time_left app - 1 /\
  is_paused app' = false /\
  ActivityMonitor.is_active (activity_monitor app') = true.
Proof.
  intros Hrun. cbn zeta.
  assert (A : ActivityMonitor.is_active
                (activity_monitor (deliver (InputEvent now) app)) = true).
  { unfold deliver. rewrite Hrun. unfold ActivityMonitor.on_activity. cbn.
    destruct (negb _ && _); cbn; [destruct (is_paused app)|]; reflexivity. }
  assert (T : time_left (deliver (InputEvent now) app) = time_left app)
    by apply deliver_frame.
  set (app1 := deliver (InputEvent now) app) in *.
  assert (S : should_pause app1 = false).
  { unfold should_pause. rewrite A. cbn. now rewrite andb_false_r. }
  unfold run_timer_iteration. rewrite S. cbn.
  destruct (is_paused app1) eqn:P; cbn; rewrite ?P; cbn; rewrite ?A, T; auto.
Qed.

Lemma input_event_resumes_countdown_witness :
  let away := steps (flat_map (fun t => [Tick []; Monitor (InactivityCheck t)])
                       (map Z.of_nat (seq 1 61))) fresh_app in
  ActivityMonitor.running (activity_monitor away) = true /\
  is_paused away = true /\
  time_left (run_timer_iteration [] (deliver (InputEvent 65) away)) = time_left away - 1 /\
  is_paused (run_timer_iteration [] (deliver (InputEvent 65) away)) = false.
Proof.
  cbn zeta. split; [vm_compute; reflexivity|]. split; [vm_compute; reflexivity|].
  match goal with |- context [deliver (InputEvent 65) ?a] => set (away := a) end.
  assert (R : ActivityMonitor.running (activity_monitor away) = true)
    by (vm_compute; reflexivity).
  destruct (input_event_resumes_countdown 65 away R) as (T & P & _).
  split; assumption.
Defined.

(** ** The monitor over a run of events *)

(** X5. Over any run of input events and inactivity checks, the statuses
    the monitor hands to its callback alternate: never two [paused] or two
    [resumed] in a row, the first one being [paused] when the monitor
    starts active and [resumed] when it starts inactive.  With a callback
    installed every change of [is_active] is reported, so the monitor ends
    active exactly when the number of statuses is even or it started
    inactive and the number is odd. *)
Theorem monitor_statuses_alternate (events : list monitor_event) (m : ActivityMonitor.t) :
  let r := monitor_run events m in
  alternating (next_signal m) r.2 = true /\
  (ActivityMonitor.callback m = true ->
   ActivityMonitor.is_active r.1 =
   if Nat.even (length r.2) then ActivityMonitor.is_active m
   else negb (ActivityMonitor.is_active m)).
Proof.
  revert m. induction events as [|ev events IH]; intros m; cbn zeta.
  - cbn. split; [reflexivity|]. intros _. reflexivity.
  - cbn [monitor_run]. cbn zeta.
    set (r := monitor_handle ev m).
    destruct (IH r.1) as [A P]. cbn zeta in A, P.
    assert (Cb : ActivityMonitor.callback r.1 = ActivityMonitor.callback m).
    { subst r. destruct ev as [now|now]; cbn;
        unfold ActivityMonitor.on_activity, ActivityMonitor.monitor_activity_check;
        cbn; [reflexivity|]. destruct (_ && _); reflexivity. }
    assert (Cases :
      (r.2 = None /\ ActivityMonitor.is_active r.1 = ActivityMonitor.is_active m) \/
      (r.2 = None /\ ActivityMonitor.callback m = false) \/
      (r.2 = Some (next_signal m) /\
       ActivityMonitor.is_active r.1 = negb (ActivityMonitor.is_active m))).
    { subst r. unfold next_signal. clear.
      destruct m as [cb tmo last act run], ev as [now|now];
        unfold monitor_handle, ActivityMonitor.on_activity,
          ActivityMonitor.monitor_activity_check; cbn;
        try destruct (tmo <? now - last); destruct act, cb; cbn;
        first [ left; split; reflexivity
              | right; left; split; reflexivity
              | right; right; split; reflexivity ]. }
    cbn [fst snd].
    destruct Cases as [[N E]|[[N E]|[N E]]]; rewrite N.
    + unfold next_signal in *. rewrite E in A, P. split; [exact A|].
      intros C. apply P. congruence.
    + split.
      * assert (Z : (monitor_run events r.1).2 = []).
        { clear - Cb E. generalize dependent (r.1). clear r.
          induction events as [|e es IHes]; intros m' Cb'; [reflexivity|].
          cbn [monitor_run]. cbn zeta.
          assert (X : (monitor_handle e m').2 = None /\
                      ActivityMonitor.callback (monitor_handle e m').1 =
                      ActivityMonitor.callback m).
          { rewrite <- Cb'. destruct e as [now|now]; cbn;
              unfold ActivityMonitor.on_activity, ActivityMonitor.monitor_activity_check;
              cbn; rewrite ?Cb', ?E, ?andb_false_r; auto.
            destruct (_ && _); cbn; rewrite ?Cb', ?E; auto. }
          destruct X as [X1 X2]. rewrite X1. cbn [snd]. now apply IHes. }
        now rewrite Z.
      * intros C. congruence.
    + split.
      * cbn [alternating]. 
        assert (S : signal_eqb (next_signal m) (next_signal m) = true)
          by (destruct (next_signal m); reflexivity).
        rewrite S. cbn [andb].
        replace (other_signal (next_signal m)) with (next_signal r.1); [exact A|].
        unfold next_signal. rewrite E.
        destruct (ActivityMonitor.is_active m); reflexivity.
      * intros C. rewrite P by congruence. rewrite E.
        cbn [length]. rewrite Nat.even_succ, <- Nat.negb_even.
        destruct (Nat.even _), (ActivityMonitor.is_active m); reflexivity.
Qed.

(** ** [save_settings] when every field is a number *)

Lemma bind_try_tail (m : Py.M App save_dialog) (app : App) :
  match m app with
  | (Ok a, s') => (Ok a, s')
  | (Raise e, s') => if is_value_error e then Py.ret InvalidNumbers s' else (Raise e, s')
  end =
  Py.try_except m is_value_error (Py.ret InvalidNumbers) app.
Proof. reflexivity. Qed.

Lemma bind_assign_over (f : App -> Settings -> Settings) {B : Type}
    (k : unit -> Py.M App B) (s : Settings) (app : App) :
  Py.bind (assign_setting f) k (set_settings s app) =
  k tt (set_settings (f (set_settings s app) s) app).
Proof. reflexivity. Qed.

(** With numbers (or nothing) in all five fields, [save_settings] takes the
    whole form over and then calls [save_config]. *)
Lemma save_settings_applies_form (now : Z) (app : App) :
  (forall f, non_numeric (field_text f (vars app)) = false) ->
  exists app1,
    form_applied app app1 /\
    storage app1 = storage app /\
    save_settings now app =
    Py.try_except (save_config ;;; Py.ret SettingsSaved)
      is_value_error (Py.ret InvalidNumbers) app1.
Proof.
  intros Hnum.
  destruct (numeric_reads _ (field_if_empty FWork) (Hnum FWork)) as [v0 E0].
  destruct (numeric_reads _ (field_if_empty FBreak) (Hnum FBreak)) as [v1 E1].
  destruct (numeric_reads _ (field_if_empty FLongBreak) (Hnum FLongBreak)) as [v2 E2].
  destruct (numeric_reads _ (field_if_empty FSessions) (Hnum FSessions)) as [v3 E3].
  destruct (numeric_reads _ (field_if_empty FTimeout) (Hnum FTimeout)) as [v4 E4].
  cbn [field_text field_if_empty] in *.
  eexists. split; [|split]; cycle 2.
  - unfold save_settings at 1. unfold Py.try_except at 1.
    rewrite bind_get_ret. cbv beta.
    rewrite bind_lift, E0, bind_assign. cbv beta.
    rewrite bind_lift, E1, bind_assign_over. cbv beta.
    rewrite bind_lift, E2, bind_assign_over. cbv beta.
    rewrite bind_lift, E3, bind_assign_over. cbv beta.
    rewrite bind_lift, E4, bind_assign_over. cbv beta.
    do 8 (rewrite bind_assign_over; cbv beta).
    cbn [TRAY_AVAILABLE set_settings].
    do 2 (rewrite bind_modify; cbv beta).
    cbn [settings activity_monitor set_settings set_activity_monitor
         ACTIVITY_DETECTION_AVAILABLE].
    rewrite bind_try_tail. reflexivity.
  - unfold form_applied. split; [|split; [|split; [|split]]].
    + intros f. destruct f; cbn [field_text field_if_empty];
        rewrite ?E0, ?E1, ?E2, ?E3, ?E4; f_equal; cbn;
        form_cases app; reflexivity.
    + unfold flags, flags_of_form. cbn.
      form_cases app; reflexivity.
    + cbn.
      form_cases app; reflexivity.
    + cbn.
      form_cases app; reflexivity.
    + cbn.
      form_cases app;
        (split; [|split; [|split]]); try reflexivity;
        unfold timer_state; form_cases app; reflexivity.
  - cbn.
    form_cases app; reflexivity.
Qed.

(** A file that holds the attribute dictionary of some settings loads as
    these settings. *)
Lemma load_saved_settings (s : Settings) (w : bool) (self : gmap string pyval) :
  exists self',
    SettingsStore.load_config
      {| config_file := Some (Document (PDict (attrs_of_settings s)));
         readable := true; writable := w |} self = (Ok tt, self') /\
    settings_of_attrs self' = Some s.
Proof.
  destruct (load_config_run
              {| config_file := Some (Document (PDict (attrs_of_settings s)));
                 readable := true; writable := w |} self) as (self' & E & H).
  exists self'. split; [exact E|].
  rewrite <- (settings_of_attrs_of_settings s).
  apply settings_of_attrs_agree. intros key v Hin.
  rewrite (H key v Hin). unfold persisted_or_default. cbn.
  destruct (saved_keys_cover_defaults s key v Hin) as [x Hs].
  rewrite Hs. reflexivity.
Qed.

(** X6. A save with a number, or nothing, in each of the five fields and a
    writable file ends with the information box.  Each numeric setting is
    the number in its field, or the built-in constant (25, 5, 15, 4, 60) if
    the field is empty; no range is enforced.  The boolean options are the
    check boxes.  The monitor has the new timeout and runs exactly when
    detection is enabled and available.  The timer state is untouched, and
    the file now loads as exactly these settings. *)
Theorem successful_save (now : Z) (app : App) :
  (forall f, non_numeric (field_text f (vars app)) = false) ->
  writable (storage app) = true ->
  readable (storage app) = true ->
  exists app',
    save_settings now app = (Ok SettingsSaved, app') /\
    form_applied app app' /\
    forall self : gmap string pyval,
    exists self',
      SettingsStore.load_config (storage app') self = (Ok tt, self') /\
      settings_of_attrs self' = Some (settings app').
Proof.
  intros Hnum Hw Hr.
  destruct (save_settings_applies_form now app Hnum) as (app1 & F & S & E).
  rewrite E. unfold Py.try_except, Py.bind.
  rewrite save_config_run by congruence. cbn [Py.ret].
  eexists. split; [reflexivity|]. split.
  - destruct F as (F1 & F2 & F3 & F4 & F5 & F6 & F7 & F8).
    unfold form_applied. cbn. repeat split; assumption.
  - intros self. cbn [storage set_storage settings]. rewrite S, Hr.
    apply load_saved_settings.
Qed.

Lemma successful_save_witness :
  (forall f, non_numeric (field_text f (vars shorter_work_app)) = false) /\
  writable (storage shorter_work_app) = true /\
  readable (storage shorter_work_app) = true /\
  exists app',
    save_settings 0 shorter_work_app = (Ok SettingsSaved, app') /\
    work_minutes (settings app') = 10 /\
    break_minutes (settings app') = 5.
Proof.
  assert (N : forall f, non_numeric (field_text f (vars shorter_work_app)) = false).
  { intros f. destruct f; vm_compute; reflexivity. }
  split; [exact N|]. split; [reflexivity|]. split; [reflexivity|].
  destruct (successful_save 0 shorter_work_app N eq_refl eq_refl)
    as (app' & E & (F & _) & _).
  exists app'. split; [exact E|].
  pose proof (F FWork) as Fw. pose proof (F FBreak) as Fb.
  assert (Xw : Ok 10 = Ok (work_minutes (settings app'))) by exact Fw.
  assert (Xb : Ok 5 = Ok (break_minutes (settings app'))) by exact Fb.
  split; congruence.
Defined.

(** X7. [save_settings] catches [ValueError] only.  When the fields are
    fine and the file cannot be opened for writing, the [OSError] of
    [save_config] leaves [save_settings]; by then the settings in memory and
    the monitor have already taken the form over, and the disk is as it
    was. *)
Theorem save_settings_write_failure (now : Z) (app : App) :
  (forall f, non_numeric (field_text f (vars app)) = false) ->
  writable (storage app) = false ->
  exists app',
    save_settings now app = (Raise OSError, app') /\
    form_applied app app' /\
    storage app' = storage app.
Proof.
  intros Hnum Hw.
  destruct (save_settings_applies_form now app Hnum) as (app1 & F & S & E).
  rewrite E. unfold Py.try_except, Py.bind.
  rewrite save_config_unwritable by congruence. cbn [is_value_error].
  exists app1. auto.
Qed.

Lemma save_settings_write_failure_witness :
  let app := set_storage {| config_file := None; readable := true;
                            writable := false |} shorter_work_app in
  (forall f, non_numeric (field_text f (vars app)) = false) /\
  writable (storage app) = false /\
  exists app',
    save_settings 0 app = (Raise OSError, app') /\
    work_minutes (settings app') = 10 /\
    config_file (storage app') = None.
Proof.
  cbn zeta.
  set (app := set_storage _ shorter_work_app).
  assert (N : forall f, non_numeric (field_text f (vars app)) = false).
  { intros f. destruct f; vm_compute; reflexivity. }
  split; [exact N|]. split; [reflexivity|].
  destruct (save_settings_write_failure 0 app N eq_refl) as (app' & E & (F & _) & S).
  exists app'. split; [exact E|].
  pose proof (F FWork) as Fw.
  assert (Xw : Ok 10 = Ok (work_minutes (settings app'))) by exact Fw.
  split; [congruence|]. rewrite S. reflexivity.
Defined.

Lemma settings_ext (a b : Settings) :
  (forall f, field_value f a = field_value f b) -> flags a = flags b -> a = b.
Proof.
  intros Hv Hf.
  pose proof (Hv FWork). pose proof (Hv FBreak). pose proof (Hv FLongBreak).
  pose proof (Hv FSessions). pose proof (Hv FTimeout).
  destruct a, b. cbn in *. unfold flags in Hf. cbn in Hf.
  injection Hf. intros. subst. reflexivity.
Qed.

Lemma str_is_numeric (z : Z) : non_numeric (str z) = false.
Proof.
  unfold non_numeric, PyInt.int_if_nonempty.
  pose proof (int_str z) as E. destruct (str z); [reflexivity|]. now rewrite E.
Qed.

Lemma int_if_nonempty_str (z fallback : Z) :
  PyInt.int_if_nonempty (str z) fallback = Ok z.
Proof.
  unfold PyInt.int_if_nonempty.
  pose proof (int_str z) as E. destruct (str z); [discriminate E|]. exact E.
Qed.

(** X8. The window shows the settings it was built from: a save right after
    a launch, with nothing edited, ends with the information box and leaves
    every setting as it was, whatever the settings are.  ([int] reads back
    what [str] printed into the entry fields.) *)
Theorem save_after_launch_keeps_settings (s : Settings) (d : disk)
    (tray activity start_minimized startup_enabled : bool) (now t : Z) :
  writable d = true ->
  exists app',
    save_settings t (init s d tray activity start_minimized startup_enabled now) =
    (Ok SettingsSaved, app') /\
    settings app' = s /\
    config_file (storage app') = Some (Document (PDict (attrs_of_settings s))).
Proof.
  intros Hw.
  set (app := init s d tray activity start_minimized startup_enabled now).
  assert (V : vars app =
              {| work_var := str (work_minutes s);
                 break_var := str (break_minutes s);
                 long_break_var := str (long_break_minutes s);
                 sessions_var := str (sessions_until_long_break s);
                 timeout_var := str (inactivity_timeout s);
                 sound_var := sound_enabled s;
                 auto_break_var := auto_start_break s;
                 auto_work_var := auto_start_work s;
                 auto_launch_var := auto_start_on_launch s;
                 auto_skip_var := auto_restart_on_skip s;
                 activity_var := activity_detection_enabled s;
                 pause_breaks_var := pause_during_breaks s;
                 autostart_var := startup_enabled;
                 tray_var := minimize_to_tray s |} /\
              settings app = s /\ storage app = d /\ TRAY_AVAILABLE app = tray).
  { subst app. unfold init.
    destruct (activity_detection_enabled s && activity),
      (auto_start_on_launch s && negb start_minimized); repeat split. }
  destruct V as (V & Hs & Hd & Ht).
  assert (N : forall f, non_numeric (field_text f (vars app)) = false).
  { intros f. rewrite V. destruct f; apply str_is_numeric. }
  destruct (save_settings_applies_form t app N) as (app1 & F & S & E).
  rewrite E. unfold Py.try_except, Py.bind.
  rewrite save_config_run by congruence. cbn [Py.ret].
  eexists. split; [reflexivity|].
  assert (Eq : settings app1 = s).
  { destruct F as (F1 & F2 & _). apply settings_ext.
    - intros f. specialize (F1 f). rewrite V in F1.
      destruct f;
        cbn [field_text work_var break_var long_break_var sessions_var
             timeout_var field_value] in F1 |- *;
        rewrite int_if_nonempty_str in F1; congruence.
    - rewrite F2. unfold flags_of_form, flags. rewrite V, Hs, Ht. cbn.
      destruct tray; reflexivity. }
  cbn [settings set_storage storage config_file]. now rewrite Eq.
Qed.

Lemma save_after_launch_keeps_settings_witness :
  writable no_file = true /\
  exists app',
    save_settings 3 (init one_minute_settings no_file true true false false 0) =
    (Ok SettingsSaved, app') /\
    settings app' = one_minute_settings.
Proof.
  split; [reflexivity|].
  destruct (save_after_launch_keeps_settings one_minute_settings no_file
              true true false false 0 3 eq_refl) as (app' & E & S & _).
  exists app'. split; assumption.
Defined.

(** ** [on_timer_complete] on its own *)

(** X9. [on_timer_complete] returns normally whatever the entry fields
    hold, and always switches between work and break.  After a work session
    the break window is open and the timer runs exactly when "auto-start
    breaks" is ticked; after a break the window is closed, the session
    count is as before, [time_left] is the work duration and the timer runs
    exactly when "auto-start work" is ticked.  [is_paused] is left alone. *)
Theorem on_timer_complete_switches_phase (app : App) :
  exists app',
    on_timer_complete app = (Ok tt, app') /\
    is_break app' = negb (is_break app) /\
    is_paused app' = is_paused app /\
    (is_break app = false ->
     is_running app' = auto_break_var (vars app) /\
     is_Some (break_window app') /\
     settings app' = settings app) /\
    (is_break app = true ->
     is_running app' = auto_work_var (vars app) /\
     break_window app' = None /\
     session_count app' = session_count app /\
     time_left app' = work_minutes (settings app') * 60 /\
     work_minutes (settings app') = entered_work_minutes app).
Proof.
  destruct (is_break app) eqn:Hb.
  - rewrite on_timer_complete_break by exact Hb. eexists. split; [reflexivity|].
    unfold after_break. cbn. repeat split; intros; try discriminate; auto.
  - rewrite on_timer_complete_work by exact Hb. eexists. split; [reflexivity|].
    unfold after_work. cbn.
    repeat split; intros; try discriminate; eauto.
Qed.

(** X10. With [sessions_until_long_break] at one or below (the file and the
    entry field accept it), every completed work session is followed by a
    long break and [session_count] goes back to zero each time. *)
Theorem every_break_long_when_threshold_at_most_one (app : App) :
  sessions_until_long_break (settings app) <= 1 ->
  0 <= session_count app ->
  is_break app = false ->
  let after := (on_timer_complete app).2 in
  phase after = LongBreak /\
  session_count after = 0 /\
  time_left after =
    entered_minutes (long_break_var (vars app)) (long_break_minutes (settings app)) * 60.
Proof.
  intros HK Hc Hb. cbn zeta. rewrite on_timer_complete_work by exact Hb.
  cbn [snd]. unfold after_work, phase.
  replace (sessions_until_long_break (settings app) <=? session_count app + 1)
    with true by (symmetry; apply Z.leb_le; lia).
  cbn. repeat split.
Qed.

Lemma every_break_long_when_threshold_at_most_one_witness :
  let app := set_settings (set_sessions_until_long_break 1 default_settings) fresh_app in
  sessions_until_long_break (settings app) <= 1 /\
  0 <= session_count app /\
  is_break app = false /\
  phase (on_timer_complete app).2 = LongBreak /\
  session_count (on_timer_complete app).2 = 0.
Proof.
  cbn zeta.
  set (app := set_settings (set_sessions_until_long_break 1 default_settings) fresh_app).
  assert (H1 : sessions_until_long_break (settings app) <= 1) by (vm_compute; discriminate).
  assert (H2 : 0 <= session_count app) by (vm_compute; discriminate).
  split; [exact H1|]. split; [exact H2|]. split; [reflexivity|].
  destruct (every_break_long_when_threshold_at_most_one app H1 H2 eq_refl)
    as (P & C & _).
  split; assumption.
Defined.

(** ** What the timer operations leave alone *)

Lemma deliver_storage (ev : monitor_event) (app : App) :
  storage (deliver ev app) = storage app.
Proof.
  unfold deliver. destruct (ActivityMonitor.running _); [|reflexivity].
  destruct ev as [now|now]; cbn.
  - unfold ActivityMonitor.on_activity. cbn.
    destruct (negb _ && _); cbn; [destruct (is_paused app)|]; reflexivity.
  - unfold ActivityMonitor.monitor_activity_check.
    destruct (_ && _); cbn; [destruct (ActivityMonitor.callback _)|]; reflexivity.
Qed.

Lemma sleep_storage (during : list monitor_event) (app : App) :
  storage (sleep during app) = storage app.
Proof.
  unfold sleep. revert app. induction during as [|ev during IH]; intros app; cbn.
  - reflexivity.
  - rewrite IH. apply deliver_storage.
Qed.

Lemma run_timer_iteration_storage (during : list monitor_event) (app : App) :
  storage (run_timer_iteration during app) = storage app.
Proof.
  unfold run_timer_iteration.
  destruct (negb (should_pause app) || negb (is_paused app)).
  - destruct (is_paused app && negb (should_pause app));
      destruct (negb (is_paused (sleep during _))); cbn;
      rewrite sleep_storage; reflexivity.
  - destruct (negb (is_paused app)); rewrite sleep_storage; reflexivity.
Qed.

(** One command: the settings change in [work_minutes] at most, the file and
    the availability flags not at all, and the session count stays, goes to
    zero, or goes up by one below the threshold. *)
Lemma step_frame (c : command) (app : App) :
  same_but_work_minutes (settings app) (settings (step c app)) /\
  same_but_work_var (vars app) (vars (step c app)) /\
  storage (step c app) = storage app /\
  (session_count (step c app) = session_count app \/
   session_count (step c app) = 0 \/
   (session_count (step c app) = session_count app + 1 /\
    session_count app + 1 < sessions_until_long_break (settings app))).
Proof.
  unfold same_but_work_minutes, same_but_work_var.
  destruct c; cbn [step].
  - repeat split; auto.
  - repeat split; auto.
  - unfold toggle_timer. destruct (is_running app); repeat split; auto.
  - rewrite reset_timer_run. cbn. repeat split; auto.
  - rewrite skip_break_run. cbn. repeat split; auto.
  - cbn. repeat split; auto.
  - destruct (is_running app && (0 <? time_left app)); [|repeat split; auto].
    destruct (run_timer_iteration_frame during app) as ((S & _ & _ & V) & _ & _ & C).
    rewrite S, V, C, run_timer_iteration_storage. repeat split; auto.
  - destruct (is_running app && (time_left app =? 0)); [|repeat split; auto].
    destruct (is_break app) eqn:Hb.
    + rewrite on_timer_complete_break by exact Hb. cbn. repeat split; auto.
    + rewrite on_timer_complete_work by exact Hb. unfold after_work. cbn.
      split; [reflexivity|]. split; [reflexivity|]. split; [reflexivity|].
      destruct (Z.leb_spec (sessions_until_long_break (settings app))
                  (session_count app + 1)); [auto|].
      right. right. split; [reflexivity|lia].
  - destruct (deliver_frame ev app) as ((S & _ & _ & V) & _ & _ & C).
    rewrite S, V, C, deliver_storage. repeat split; auto.
Qed.

Lemma same_but_work_minutes_threshold (a b : Settings) :
  same_but_work_minutes a b ->
  sessions_until_long_break b = sessions_until_long_break a.
Proof.
  unfold same_but_work_minutes. intros H.
  apply (f_equal sessions_until_long_break) in H. cbn in H. congruence.
Qed.

(** X11. From a launch and under any sequence of commands (buttons, typing
    into the work field, loop passes, completions, monitor events), the
    session count is never negative and, unless it is zero, stays below
    [sessions_until_long_break]; this needs no assumption on the
    settings. *)
Theorem session_count_stays_in_range
    (s : Settings) (d : disk)
    (tray activity start_minimized startup_enabled : bool) (now : Z)
    (cs : list command) :
  session_count_in_range
    (steps cs (init s d tray activity start_minimized startup_enabled now)).
Proof.
  assert (I : session_count_in_range
                (init s d tray activity start_minimized startup_enabled now)).
  { unfold session_count_in_range, init.
    destruct (_ && _), (_ && _); cbn; split; auto; lia. }
  revert I. generalize (init s d tray activity start_minimized startup_enabled now).
  unfold steps. induction cs as [|c cs IH]; intros app I; cbn; [exact I|].
  apply IH. destruct (step_frame c app) as (S & _ & _ & C).
  apply same_but_work_minutes_threshold in S.
  unfold session_count_in_range in *. rewrite S. lia.
Qed.

(** X12. The timer operations never write the settings file and never
    change a setting other than [work_minutes], nor an entry field other
    than the work field: after any sequence of commands from a launch, the
    disk is the one the application was launched with and the settings are
    the launch settings up to [work_minutes]. *)
Theorem timer_operations_leave_settings_and_file
    (s : Settings) (d : disk)
    (tray activity start_minimized startup_enabled : bool) (now : Z)
    (cs : list command) :
  let launched := init s d tray activity start_minimized startup_enabled now in
  let app := steps cs launched in
  storage app = d /\
  same_but_work_minutes s (settings app) /\
  flags (settings app) = flags s /\
  same_but_work_var (vars launched) (vars app).
Proof.
  cbn zeta.
  assert (I : storage (init s d tray activity start_minimized startup_enabled now) = d /\
              settings (init s d tray activity start_minimized startup_enabled now) = s).
  { unfold init. destruct (_ && _), (_ && _); split; reflexivity. }
  destruct I as [Id Is].
  assert (G : forall app,
            storage (steps cs app) = storage app /\
            same_but_work_minutes (settings app) (settings (steps cs app)) /\
            same_but_work_var (vars app) (vars (steps cs app))).
  { unfold steps. induction cs as [|c cs IH]; intros app; cbn.
    - repeat split.
    - destruct (IH (step c app)) as (A & B & C).
      destruct (step_frame c app) as (S & V & D & _).
      unfold same_but_work_minutes, same_but_work_var in *.
      repeat split; congruence. }
  destruct (G (init s d tray activity start_minimized startup_enabled now))
    as (A & B & C).
  rewrite Is in B. split; [congruence|]. split; [exact B|]. split; [|exact C].
  unfold same_but_work_minutes in B. unfold flags.
  apply (f_equal flags) in B. unfold flags in B. cbn in B. symmetry. exact B.
Qed.

(** ** More on the settings file *)

Lemma assign_all_ext (f g : string -> pyval -> pyval)
    (items : list (string * pyval)) (self : gmap string pyval) :
  (forall k v, (k, v) ∈ items -> f k v = g k v) ->
  assign_all f items self = assign_all g items self.
Proof.
  unfold assign_all. revert self.
  induction items as [|[k v] items IH]; intros self H; [reflexivity|].
  cbn [foldl fst snd]. rewrite (H k v) by left.
  apply IH. intros k' v' Hin. apply H. now right.
Qed.

(** [load_config] in closed form: one assignment per documented key, then
    the session count. *)
Lemma load_config_closed_form (d : disk) (self : gmap string pyval) :
  SettingsStore.load_config d self =
  (Ok tt,
   <["session_count" := PInt 0]>
     (assign_all (persisted_or_default d) SettingsStore.default_config self)).
Proof.
  assert (D : (forall k v, persisted_or_default d k v = v) ->
            (SettingsStore.set_defaults ;;;
             SettingsStore.setattr "session_count" (PInt 0)) self =
            (Ok tt,
             <["session_count" := PInt 0]>
               (assign_all (persisted_or_default d)
                  SettingsStore.default_config self))).
  { intros Hv. unfold Py.bind at 1. rewrite set_defaults_run.
    rewrite (assign_all_ext (persisted_or_default d) (fun _ v => v))
      by (intros; apply Hv).
    reflexivity. }
  unfold SettingsStore.load_config.
  destruct (config_file d) as [content|] eqn:F.
  2:{ apply D. intros k v. unfold persisted_or_default. now rewrite F. }
  unfold Py.bind at 1. unfold Py.try_except.
  unfold Py.bind at 1. unfold Py.lift at 1.
  unfold SettingsStore.open_and_json_load. rewrite F.
  destruct (readable d) eqn:R.
  - destruct content as [|v].
    + cbn [Py.any_exception]. unfold Py.bind at 1 in D.
      apply D. intros k v. unfold persisted_or_default. now rewrite F.
    + destruct v as [ | | | | | |config];
        try (unfold Py.bind at 1 in D;
             apply D; intros k v; unfold persisted_or_default; now rewrite F).
      rewrite read_items_run.
      rewrite (assign_all_ext (persisted_or_default d)
                 (fun k v => default v (config !! k))).
      * reflexivity.
      * intros k v _. unfold persisted_or_default. now rewrite F, R.
  - unfold Py.bind at 1 in D.
    assert (P : forall k v, persisted_or_default d k v = v).
    { intros k v. unfold persisted_or_default. rewrite F, R.
      destruct content as [|[]]; reflexivity. }
    destruct content as [|v]; apply D; intros; apply P.
Qed.

(** X13. [load_config] sets the thirteen configuration attributes and
    [session_count] and nothing else: any other attribute of the object is
    as before, so a key of the file that is not a documented setting never
    reaches the object, and [session_count] is zero afterwards whatever the
    file says. *)
Theorem load_config_sets_known_attributes_only (d : disk)
    (self : gmap string pyval) (key : string) :
  key ∉ SettingsStore.default_config.*1 ->
  let self' := (SettingsStore.load_config d self).2 in
  self' !! "session_count" = Some (PInt 0) /\
  (key <> "session_count" -> self' !! key = self !! key).
Proof.
  intros Hk. cbn zeta. rewrite load_config_closed_form. cbn [snd].
  split; [apply lookup_insert_eq|]. intros Hne.
  rewrite lookup_insert_ne by congruence.
  now apply assign_all_other.
Qed.

Lemma load_config_sets_known_attributes_only_witness :
  let d := {| config_file :=
                Some (Document (PDict {[ "session_count" := PInt 7;
                                         "is_running" := PBool true;
                                         "work_minutes" := PInt 50 ]}));
              readable := true; writable := true |} in
  let self : gmap string pyval := {[ "is_running" := PBool false ]} in
  ("is_running" ∉ SettingsStore.default_config.*1) /\
  (SettingsStore.load_config d self).2 !! "session_count" = Some (PInt 0) /\
  (SettingsStore.load_config d self).2 !! "is_running" = Some (PBool false) /\
  (SettingsStore.load_config d self).2 !! "work_minutes" = Some (PInt 50).
Proof.
  cbn zeta.
  assert (N : "is_running" ∉ SettingsStore.default_config.*1).
  { apply (bool_decide_unpack _). vm_compute. reflexivity. }
  split; [exact N|].
  match goal with
  | |- context [SettingsStore.load_config ?d ?self] =>
      destruct (load_config_sets_known_attributes_only d self "is_running" N)
        as [S K]
  end.
  split; [exact S|]. split.
  - rewrite K by discriminate. vm_compute. reflexivity.
  - vm_compute. reflexivity.
Defined.

(** [save_config] on an object that has every attribute it reads. *)
Lemma build_config_ok (keys : list string) (acc self : gmap string pyval) :
  (forall k, k ∈ keys -> is_Some (self !! k)) ->
  exists config,
    SettingsStore.build_config keys acc self = (Ok config, self) /\
    (forall k, k ∈ keys -> config !! k = self !! k) /\
    (forall k, k ∉ keys -> config !! k = acc !! k).
Proof.
  revert acc. induction keys as [|key keys IH]; intros acc Hall.
  - exists acc. cbn. split; [reflexivity|]. split; [|reflexivity].
    intros k Hk. inversion Hk.
  - cbn [SettingsStore.build_config]. unfold Py.bind, SettingsStore.getattr.
    destruct (Hall key ltac:(left)) as [v Hv]. rewrite Hv.
    destruct (IH (<[key := v]> acc)) as (config & E & Hin & Hout).
    { intros k Hk. apply Hall. now right. }
    exists config. split; [exact E|]. split.
    + intros k Hk. destruct (decide (k ∈ keys)) as [Hk'|Hk']; [now apply Hin|].
      apply elem_of_cons in Hk as [->|Hk]; [|contradiction].
      rewrite Hout by assumption. rewrite lookup_insert_eq. congruence.
    + intros k Hk. apply not_elem_of_cons in Hk as [Hne Hk].
      rewrite Hout by assumption. now rewrite lookup_insert_ne.
Qed.

Lemma saved_keys_are_default_keys :
  SettingsStore.saved_keys = SettingsStore.default_config.*1.
Proof. reflexivity. Qed.

(** X14. Whatever [load_config] has read, [save_config] can write: after a
    load from any disk, a save to a writable file raises nothing (no
    attribute is missing), the file it writes holds the thirteen documented
    keys and no other, each with the value the load gave the attribute, and
    loading that file again gives every configuration attribute the same
    value. *)
Theorem save_after_load_writes_what_was_loaded
    (d target : disk) (self other : gmap string pyval) :
  writable target = true ->
  readable target = true ->
  let loaded := (SettingsStore.load_config d self).2 in
  exists config target',
    SettingsStore.save_config target loaded = (Ok target', loaded) /\
    config_file target' = Some (Document (PDict config)) /\
    (forall key, key ∈ SettingsStore.saved_keys -> config !! key = loaded !! key) /\
    (forall key, key ∉ SettingsStore.saved_keys -> config !! key = None) /\
    (forall key, key ∈ SettingsStore.saved_keys ->
       (SettingsStore.load_config target' other).2 !! key = loaded !! key).
Proof.
  intros Hw Hr. cbn zeta.
  set (loaded := (SettingsStore.load_config d self).2).
  assert (L : forall key documented,
            (key, documented) ∈ SettingsStore.default_config ->
            loaded !! key = Some (persisted_or_default d key documented)).
  { destruct (load_config_run d self) as (self' & E & H).
    subst loaded. rewrite E. exact H. }
  assert (Hall : forall k, k ∈ SettingsStore.saved_keys -> is_Some (loaded !! k)).
  { intros k Hk. rewrite saved_keys_are_default_keys in Hk.
    apply list_elem_of_fmap in Hk as [[k' v] [-> Hin]]. cbn.
    rewrite (L k' v Hin). eauto. }
  destruct (build_config_ok SettingsStore.saved_keys ∅ loaded Hall)
    as (config & E & Hin & Hout).
  exists config. eexists.
  unfold SettingsStore.save_config, Py.bind. rewrite E, Hw. cbn [Py.ret].
  split; [reflexivity|]. split; [reflexivity|]. split; [exact Hin|]. split.
  - intros key Hk. rewrite Hout by assumption. apply lookup_empty.
  - intros key Hk.
    pose proof Hk as Hk'. rewrite saved_keys_are_default_keys in Hk'.
    apply list_elem_of_fmap in Hk' as [[k' v] [-> Hin']]. cbn in *.
    match goal with
    | |- context [SettingsStore.load_config ?t other] =>
        destruct (load_config_run t other) as (self2 & E2 & H2); rewrite E2
    end.
    cbn [snd]. rewrite (H2 k' v Hin'). unfold persisted_or_default. cbn.
    rewrite Hr, (Hin k' Hk).
    destruct (Hall k' Hk) as [x Hx]. rewrite Hx. reflexivity.
Qed.

Lemma save_after_load_writes_what_was_loaded_witness :
  let d := {| config_file :=
                Some (Document (PDict {[ "work_minutes" := PStr "soon";
                                         "volume" := PInt 3 ]}));
              readable := true; writable := true |} in
  writable no_file = true /\
  readable no_file = true /\
  exists config target',
    SettingsStore.save_config no_file (SettingsStore.load_config d ∅).2 =
      (Ok target', (SettingsStore.load_config d ∅).2) /\
    config_file target' = Some (Document (PDict config)) /\
    config !! "work_minutes" = Some (PStr "soon") /\
    config !! "break_minutes" = Some (PInt 5) /\
    config !! "volume" = None.
Proof.
  cbn zeta. split; [reflexivity|]. split; [reflexivity|].
  match goal with
  | |- context [SettingsStore.load_config ?d ∅] =>
      destruct (save_after_load_writes_what_was_loaded d no_file ∅ ∅ eq_refl eq_refl)
        as (config & target' & E & F & Hin & Hout & _)
  end.
  exists config, target'. split; [exact E|]. split; [exact F|].
  split; [|split].
  - rewrite Hin by in_list. vm_compute. reflexivity.
  - rewrite Hin by in_list. vm_compute. reflexivity.
  - apply Hout. apply (bool_decide_unpack _). vm_compute. reflexivity.
Defined.

(** ** The display *)

Lemma string_length_append (a b : string) :
  String.length (a ++ b) = (String.length a + String.length b)%nat.
Proof.
  induction a as [|c a IH]; [reflexivity|].
  change (S (String.length (a ++ b)) = S (String.length a + String.length b)).
  now rewrite IH.
Qed.

Lemma format_02d_reads_back (n : Z) : PyInt.int (format_02d n) = Ok n.
Proof.
  unfold format_02d.
  destruct ((0 <=? n) && (n <? 10)) eqn:E; [|apply int_str].
  apply andb_true_iff in E as [L U]. apply Z.leb_le in L. apply Z.ltb_lt in U.
  destruct n as [|p|p]; [reflexivity| |lia].
  do 4 (try destruct p as [p|p|]); try reflexivity; lia.
Qed.

Lemma format_02d_two_characters (n : Z) :
  0 <= n < 100 -> String.length (format_02d n) = 2%nat.
Proof.
  intros H.
  assert (A : forallb (fun k => Nat.eqb (String.length (format_02d (Z.of_nat k))) 2)
                (seq 0 100) = true) by (vm_compute; reflexivity).
  rewrite forallb_forall in A.
  specialize (A (Z.to_nat n)). rewrite Z2Nat.id in A by lia.
  apply Nat.eqb_eq, A, in_seq. lia.
Qed.

(** X15. The time on the label reads back as [time_left]: the text is
    minutes, a colon, seconds; [int] of the minutes text is
    [time_left // 60], [int] of the seconds text is [time_left % 60], the
    seconds are always two digits between 00 and 59, and sixty times the
    minutes plus the seconds is [time_left], for a negative [time_left]
    too.  Up to 99:59 the text is five characters long, and the label
    carries the pause mark exactly when [is_paused] holds. *)
Theorem time_on_label_reads_back (app : App) :
  let t := time_left app in
  let mm := format_02d (t / 60) in
  let ss := format_02d (t mod 60) in
  time_str t = mm ++ ":" ++ ss /\
  PyInt.int mm = Ok (t / 60) /\
  PyInt.int ss = Ok (t mod 60) /\
  0 <= t mod 60 < 60 /\
  String.length ss = 2%nat /\
  60 * (t / 60) + t mod 60 = t /\
  (0 <= t < 6000 -> String.length (time_str t) = 5%nat) /\
  (is_paused app = false -> timer_label app = time_str t) /\
  (is_paused app = true -> timer_label app <> time_str t).
Proof.
  cbn zeta. set (t := time_left app).
  pose proof (Z.mod_pos_bound t 60 ltac:(lia)) as B.
  split; [reflexivity|].
  split; [apply format_02d_reads_back|].
  split; [apply format_02d_reads_back|].
  split; [exact B|].
  split; [apply format_02d_two_characters; lia|].
  split; [symmetry; apply Z.div_mod; lia|].
  split; [|split].
  - intros H. unfold time_str. cbn zeta.
    rewrite !string_length_append.
    rewrite !format_02d_two_characters; [reflexivity|lia|].
    split; [apply Z.div_pos; lia|]. apply Z.div_lt_upper_bound; lia.
  - intros P. unfold timer_label. now rewrite P.
  - intros P. unfold timer_label. rewrite P. intros E.
    apply (f_equal String.length) in E. rewrite string_length_append in E.
    subst t. set (n := String.length (time_str (time_left app))) in E.
    cbn in E. lia.
Qed.

Example time_str_examples :
  map time_str [1500; 61; 59; 0; 6000; -1] =
  ["25:00"; "01:01"; "00:59"; "00:00"; "100:00"; "-1:59"].
Proof. vm_compute. reflexivity. Qed.

(** ** Start with Windows *)

(** X16. On a [Run] key that can be read and written: after
    [enable_startup] the application is registered, with the command that
    starts it minimized, and [is_startup_enabled] says so; after
    [disable_startup] it is not registered, whether it was before or not
    (a missing value is reported as success); both leave the values of
    other applications alone.  On a key that cannot be written both return
    [False] and change nothing. *)
Theorem autostart_registration (app_name exe_path : string)
    (r : WindowsAutoStart.registry) :
  WindowsAutoStart.key_readable r = true ->
  let enabled := WindowsAutoStart.enable_startup app_name exe_path r in
  let disabled := WindowsAutoStart.disable_startup app_name r in
  (WindowsAutoStart.key_writable r = true ->
   enabled.1.1 = true /\
   WindowsAutoStart.is_startup_enabled app_name enabled.2 = true /\
   WindowsAutoStart.run_values enabled.2 !! app_name =
     Some (WindowsAutoStart.startup_command exe_path) /\
   disabled.1.1 = true /\
   WindowsAutoStart.is_startup_enabled app_name disabled.2 = false /\
   (WindowsAutoStart.is_startup_enabled app_name r = false ->
    disabled = ((true, WindowsAutoStart.was_not_enabled), r)) /\
   (forall other, other <> app_name ->
      WindowsAutoStart.run_values enabled.2 !! other =
        WindowsAutoStart.run_values r !! other /\
      WindowsAutoStart.run_values disabled.2 !! other =
        WindowsAutoStart.run_values r !! other)) /\
  (WindowsAutoStart.key_writable r = false ->
   enabled = ((false, WindowsAutoStart.failed_to_enable), r) /\
   disabled = ((false, WindowsAutoStart.failed_to_disable), r)).
Proof.
  intros Hr. cbn zeta.
  unfold WindowsAutoStart.enable_startup, WindowsAutoStart.disable_startup,
    WindowsAutoStart.is_startup_enabled.
  split; intros Hw; rewrite Hw; [|split; reflexivity].
  cbn. rewrite Hr, lookup_insert_eq.
  split; [reflexivity|]. split; [reflexivity|]. split; [reflexivity|].
  destruct (WindowsAutoStart.run_values r !! app_name) eqn:E; cbn;
    rewrite ?Hr, ?lookup_delete_eq, ?E;
    (split; [reflexivity|]); (split; [reflexivity|]);
    (split; [intros; try discriminate; reflexivity|]);
    intros other Hne; rewrite lookup_insert_ne by congruence;
    rewrite ?lookup_delete_ne by congruence; split; reflexivity.
Qed.

Lemma autostart_registration_witness :
  let r := {| WindowsAutoStart.run_values := {[ "Updater" := "u.exe" ]};
              WindowsAutoStart.key_readable := true;
              WindowsAutoStart.key_writable := true |} in
  WindowsAutoStart.key_readable r = true /\
  WindowsAutoStart.key_writable r = true /\
  WindowsAutoStart.is_startup_enabled "BreakReminder"
    (WindowsAutoStart.enable_startup "BreakReminder" "app.exe" r).2 = true /\
  WindowsAutoStart.run_values
    (WindowsAutoStart.enable_startup "BreakReminder" "app.exe" r).2 !! "Updater" =
    Some "u.exe".
Proof.
  cbn zeta.
  match goal with
  | |- WindowsAutoStart.key_readable ?r = true /\ _ =>
      destruct (autostart_registration "BreakReminder" "app.exe" r eq_refl)
        as [W _]; destruct (W eq_refl) as (_ & E & _ & _ & _ & _ & O)
  end.
  split; [reflexivity|]. split; [reflexivity|]. split; [exact E|].
  destruct (O "Updater" ltac:(discriminate)) as [O1 _]. rewrite O1. reflexivity.
Defined.

(** X17. The "Start with Windows" box ends up showing the registry.  If the
    [Run] key can be read and the box agreed with the registry before the
    click, then after [toggle_autostart] the box again equals
    [is_startup_enabled]: a registration that fails puts the box back, and
    the dialog is an error box exactly in that case. *)
Theorem autostart_box_shows_registry (app_name exe_path : string)
    (clicked : bool) (r : WindowsAutoStart.registry) :
  WindowsAutoStart.key_readable r = true ->
  WindowsAutoStart.is_startup_enabled app_name r = negb clicked ->
  let result := toggle_autostart app_name exe_path clicked r in
  result.1.1 = WindowsAutoStart.is_startup_enabled app_name result.1.2 /\
  (WindowsAutoStart.key_writable r = true ->
   result.1.1 = clicked /\ exists m, result.2 = AutostartInfo m) /\
  (WindowsAutoStart.key_writable r = false ->
   result.1.1 = negb clicked /\ result.1.2 = r /\
   exists m, result.2 = AutostartError m).
Proof.
  intros Hr Hsync. cbn zeta.
  unfold toggle_autostart, WindowsAutoStart.enable_startup,
    WindowsAutoStart.disable_startup, WindowsAutoStart.is_startup_enabled in *.
  rewrite Hr in Hsync.
  destruct clicked, (WindowsAutoStart.key_writable r) eqn:Hw; cbn in *.
  - rewrite Hr, lookup_insert_eq. repeat split; try discriminate; eauto.
  - rewrite Hr. destruct (WindowsAutoStart.run_values r !! app_name);
      try discriminate. repeat split; try discriminate; eauto.
  - destruct (WindowsAutoStart.run_values r !! app_name) eqn:E;
      try discriminate; cbn; rewrite Hr, lookup_delete_eq.
    repeat split; try discriminate; eauto.
  - rewrite Hr. destruct (WindowsAutoStart.run_values r !! app_name);
      try discriminate. repeat split; try discriminate; eauto.
Qed.

Lemma autostart_box_shows_registry_witness :
  let r := {| WindowsAutoStart.run_values := ∅;
              WindowsAutoStart.key_readable := true;
              WindowsAutoStart.key_writable := false |} in
  WindowsAutoStart.key_readable r = true /\
  WindowsAutoStart.is_startup_enabled "BreakReminder" r = negb true /\
  (toggle_autostart "BreakReminder" "app.exe" true r).1.1 = false /\
  (toggle_autostart "BreakReminder" "app.exe" true r).1.2 = r.
Proof.
  cbn zeta.
  match goal with
  | |- WindowsAutoStart.key_readable ?r = true /\ _ =>
      destruct (autostart_box_shows_registry "BreakReminder" "app.exe" true r
                  eq_refl eq_refl) as (_ & _ & F);
      destruct (F eq_refl) as (B & R & _)
  end.
  split; [reflexivity|]. split; [reflexivity|]. split; [exact B|exact R].
Defined.

(** ** The launch *)

(** X18. The state right after [__init__]: the phase is Working with a full
    work session on the clock, nothing paused, no session counted, the
    entry fields showing the settings.  The timer is running exactly when
    [auto_start_on_launch] is set and the program was not started with
    [--minimized] among at least two arguments; so the command that
    [enable_startup] registers, which passes [--minimized], never starts
    the timer by itself.  The monitor is listening exactly when detection
    is enabled and available. *)
Theorem state_after_launch (s : Settings) (d : disk)
    (tray activity startup_enabled : bool) (now : Z) (argv : list string) :
  let app := init s d tray activity (handle_startup_args argv) startup_enabled now in
  (handle_startup_args argv = true <-> (2 <= length argv)%nat /\ "--minimized" ∈ argv) /\
  is_running app = auto_start_on_launch s && negb (handle_startup_args argv) /\
  phase app = Working /\
  time_left app = work_minutes s * 60 /\
  is_paused app = false /\
  session_count app = 0 /\
  settings app = s /\
  entered_work_minutes app = work_minutes s /\
  ActivityMonitor.running (activity_monitor app) =
    activity_detection_enabled s && activity /\
  ActivityMonitor.is_active (activity_monitor app) = true /\
  ActivityMonitor.timeout (activity_monitor app) = inactivity_timeout s.
Proof.
  cbn zeta. split.
  - unfold handle_startup_args. rewrite andb_true_iff, Nat.ltb_lt, bool_decide_eq_true.
    split; intros [A B]; split; auto; lia.
  - unfold init, entered_work_minutes.
    destruct (activity_detection_enabled s), activity,
      (auto_start_on_launch s), (handle_startup_args argv); cbn;
      rewrite int_if_nonempty_str; repeat split.
Qed.

Example launched_by_windows :
  handle_startup_args ["C:\app.exe"; "--minimized"] = true /\
  handle_startup_args ["--minimized"] = false /\
  is_running (init default_settings no_file true true
                (handle_startup_args ["C:\app.exe"; "--minimized"]) true 0) = false.
Proof. repeat split. Qed.

(** ** The timer loop of the standalone variant *)

Lemma standalone_set_time_left_same (v : Z) (app : Standalone.App) :
  Standalone.time_left app = v -> Standalone.set_time_left v app = app.
Proof. intros <-. destruct app; reflexivity. Qed.

(** X19. The standalone timer asks for the idle time at every pass.  While
    the idle time is beyond the threshold and "pause when idle" is on, the
    loop changes nothing, for as many passes as that lasts.  While it is
    not, or with the option off, each pass takes one second off: a running
    timer with [n] seconds left has [n - k] left after [k < n] passes and
    has completed after [n]. *)
Theorem standalone_idle_pause (pause_on_idle : bool) (idle_threshold : Z)
    (readings : list idle_reading) (n : nat) (app : Standalone.App) :
  Standalone.is_running app = true ->
  Standalone.time_left app = Z.of_nat n ->
  (pause_on_idle = true ->
   Forall (fun r => idle_beyond idle_threshold r = true) readings ->
   (standalone_run_timer pause_on_idle idle_threshold readings app).1 = app) /\
  (pause_on_idle = false \/
   Forall (fun r => idle_beyond idle_threshold r = false) readings ->
   standalone_run_timer pause_on_idle idle_threshold readings app =
   if (length readings <? n)%nat
   then (Standalone.set_time_left (Z.of_nat (n - length readings)) app, StillRunning)
   else (Standalone.set_time_left 0 app, TimerComplete)).
Proof.
  intros Hr Ht. split.
  - intros -> Hall. induction Hall as [|r rs Hidle _ IH]; cbn.
    + destruct (_ && _); reflexivity.
    + destruct (_ && _); [|reflexivity].
      unfold standalone_run_timer_iteration. rewrite Hidle. exact IH.
  - intros Hnot.
    assert (Hstep : forall r, In r readings ->
              pause_on_idle && idle_beyond idle_threshold r = false).
    { intros r Hin. destruct Hnot as [->|Hall]; [reflexivity|].
      rewrite Forall_forall in Hall. rewrite (Hall r).
      - apply andb_false_r.
      - now apply list_elem_of_In. }
    clear Hnot. revert n app Hr Ht Hstep.
    induction readings as [|r rs IH]; intros n app Hr Ht Hstep.
    + cbn [standalone_run_timer length]. rewrite Hr, Ht. cbn [andb].
      destruct n as [|n].
      * cbn. now rewrite standalone_set_time_left_same.
      * replace (0 <? Z.of_nat (S n)) with true by (symmetry; apply Z.ltb_lt; lia).
        replace (0 <? S n)%nat with true by (symmetry; apply Nat.ltb_lt; lia).
        rewrite Nat.sub_0_r. now rewrite standalone_set_time_left_same.
    + cbn [standalone_run_timer length]. rewrite Hr, Ht. cbn [andb].
      destruct n as [|n].
      * cbn. now rewrite standalone_set_time_left_same.
      * replace (0 <? Z.of_nat (S n)) with true by (symmetry; apply Z.ltb_lt; lia).
        unfold standalone_run_timer_iteration.
        rewrite (Hstep r) by (left; reflexivity).
        rewrite (IH n); cbn; try assumption; try lia.
        -- change (S (length rs) <? S n)%nat with (length rs <? n)%nat.
           destruct (length rs <? n)%nat; reflexivity.
        -- intros r' Hin. apply Hstep. now right.
Qed.

Lemma standalone_idle_pause_witness :
  let app := standalone_working in
  let idle := {| tick_count := 1000000; last_input := 500000 |} in
  let busy := {| tick_count := 1000000; last_input := 999000 |} in
  Standalone.is_running app = true /\
  Standalone.time_left app = Z.of_nat 1400 /\
  Forall (fun r => idle_beyond 300 r = true) [idle; idle; idle] /\
  Forall (fun r => idle_beyond 300 r = false) [busy; busy] /\
  (standalone_run_timer true 300 [idle; idle; idle] app).1 = app /\
  Standalone.time_left (standalone_run_timer true 300 [busy; busy] app).1 = 1398.
Proof.
  cbn zeta.
  assert (I : Forall (fun r => idle_beyond 300 r = true)
                (repeat {| tick_count := 1000000; last_input := 500000 |} 3))
    by (repeat constructor).
  assert (B : Forall (fun r => idle_beyond 300 r = false)
                (repeat {| tick_count := 1000000; last_input := 999000 |} 2))
    by (repeat constructor).
  split; [reflexivity|]. split; [reflexivity|]. split; [exact I|]. split; [exact B|].
  split.
  - apply (standalone_idle_pause true 300 _ 1400 standalone_working eq_refl eq_refl);
      [reflexivity|exact I].
  - destruct (standalone_idle_pause true 300
                (repeat {| tick_count := 1000000; last_input := 999000 |} 2)
                1400 standalone_working eq_refl eq_refl) as [_ C].
    cbn [repeat] in C. rewrite (C (or_intror B)). reflexivity.
Defined.

(** X20. [get_idle_time] is right while the system has been up for less
    than [2^31] milliseconds (about 24.9 days): the tick count minus the
    time of the last input.  From then until the tick count wraps at
    [2^32], the tick count reads as a negative number, the idle time is
    negative, no threshold of zero or more is ever exceeded, and every pass
    counts down however long the machine has been idle. *)
Theorem idle_time_and_tick_count (r : idle_reading) :
  0 <= last_input r ->
  (0 <= tick_count r < 2 ^ 31 ->
   idle_millis r = tick_count r - last_input r) /\
  (2 ^ 31 <= tick_count r < 2 ^ 32 ->
   idle_millis r = tick_count r - 2 ^ 32 - last_input r /\
   idle_millis r < 0 /\
   forall idle_threshold pause_on_idle app,
     0 <= idle_threshold ->
     idle_beyond idle_threshold r = false /\
     standalone_run_timer_iteration pause_on_idle idle_threshold r app =
     Standalone.set_time_left (Standalone.time_left app - 1) app).
Proof.
  intros Hl. unfold idle_millis, as_c_int. split; intros Ht.
  - rewrite Z.mod_small by lia. lia.
  - assert (E : (tick_count r + 2 ^ 31) mod 2 ^ 32 = tick_count r - 2 ^ 31).
    { replace (tick_count r + 2 ^ 31)
        with (tick_count r - 2 ^ 31 + 1 * 2 ^ 32) by lia.
      rewrite Z.mod_add by lia. apply Z.mod_small. lia. }
    split; [rewrite E; lia|]. split; [rewrite E; lia|].
    intros T p app HT.
    assert (B : idle_beyond T r = false).
    { unfold idle_beyond, idle_millis, as_c_int. rewrite E.
      apply Z.ltb_ge. lia. }
    split; [exact B|].
    unfold standalone_run_timer_iteration. now rewrite B, andb_false_r.
Qed.

Lemma idle_time_and_tick_count_witness :
  let early := {| tick_count := 3600000; last_input := 3000000 |} in
  let late := {| tick_count := 2 ^ 31 + 3600000; last_input := 5 |} in
  0 <= last_input early /\ 0 <= tick_count early < 2 ^ 31 /\
  0 <= last_input late /\ 2 ^ 31 <= tick_count late < 2 ^ 32 /\
  idle_millis early = 600000 /\
  idle_millis late < 0 /\
  idle_beyond 300 late = false.
Proof.
  cbn zeta.
  set (early := {| tick_count := 3600000; last_input := 3000000 |}).
  set (late := {| tick_count := 2 ^ 31 + 3600000; last_input := 5 |}).
  assert (L1 : 0 <= last_input early) by (cbn; lia).
  assert (T1 : 0 <= tick_count early < 2 ^ 31) by (cbn; lia).
  assert (L2 : 0 <= last_input late) by (cbn; lia).
  assert (T2 : 2 ^ 31 <= tick_count late < 2 ^ 32) by (cbn; lia).
  split; [exact L1|]. split; [exact T1|]. split; [exact L2|]. split; [exact T2|].
  destruct (idle_time_and_tick_count early L1) as [E _].
  destruct (idle_time_and_tick_count late L2) as [_ L].
  destruct (L T2) as (_ & N & F).
  split; [rewrite (E T1); reflexivity|]. split; [exact N|].
  apply (F 300 true standalone_working). lia.
Defined.

(** ** The settings file of the standalone variant *)

Lemma for_each_setattr_run (items : list (string * pyval)) (self : gmap string pyval) :
  Py.for_each items (fun kv => SettingsStore.setattr kv.1 kv.2) self =
  (Ok tt, assign_all (fun _ v => v) items self).
Proof.
  revert self. induction items as [|[k v] items IH]; intros self; [reflexivity|].
  cbn [Py.for_each]. unfold Py.bind, SettingsStore.setattr, Py.modify.
  rewrite IH. reflexivity.
Qed.

Lemma for_each_read_run (items : list (string * pyval))
    (config self : gmap string pyval) :
  Py.for_each items
    (fun kv =>
       v <- Py.lift (SettingsStore.config_get (PDict config) kv.1 kv.2) ;;
       SettingsStore.setattr kv.1 v) self =
  (Ok tt, assign_all (fun k v => default v (config !! k)) items self).
Proof.
  revert self. induction items as [|[k v] items IH]; intros self; [reflexivity|].
  cbn [Py.for_each]. unfold Py.bind, SettingsStore.setattr, Py.modify, Py.lift in *.
  cbn [SettingsStore.config_get fst snd]. rewrite IH. reflexivity.
Qed.

Lemma standalone_default_keys_distinct : NoDup StandaloneStore.default_config.*1.
Proof. apply (bool_decide_unpack _). vm_compute. reflexivity. Qed.

(** The standalone [load_config] in closed form. *)
Lemma standalone_load_config_closed_form (d : disk) (self : gmap string pyval) :
  StandaloneStore.load_config d self =
  (Ok tt,
   <["session_count" := PInt 0]>
     (assign_all (persisted_or_default d) StandaloneStore.default_config self)).
Proof.
  assert (D : (forall k v, persisted_or_default d k v = v) ->
            (StandaloneStore.set_defaults ;;;
             SettingsStore.setattr "session_count" (PInt 0)) self =
            (Ok tt,
             <["session_count" := PInt 0]>
               (assign_all (persisted_or_default d)
                  StandaloneStore.default_config self))).
  { intros Hv. unfold Py.bind at 1. unfold StandaloneStore.set_defaults.
    rewrite for_each_setattr_run.
    rewrite (assign_all_ext (persisted_or_default d) (fun _ v => v))
      by (intros; apply Hv).
    reflexivity. }
  unfold StandaloneStore.load_config.
  destruct (config_file d) as [content|] eqn:F.
  2:{ apply D. intros k v. unfold persisted_or_default. now rewrite F. }
  unfold Py.bind at 1. unfold Py.try_except.
  unfold Py.bind at 1. unfold Py.lift at 1.
  unfold SettingsStore.open_and_json_load. rewrite F.
  destruct (readable d) eqn:R.
  - destruct content as [|v].
    + cbn [Py.any_exception]. unfold Py.bind at 1 in D.
      apply D. intros k v. unfold persisted_or_default. now rewrite F.
    + destruct v as [ | | | | | |config];
        try (unfold Py.bind at 1 in D;
             apply D; intros k v; unfold persisted_or_default; now rewrite F).
      rewrite for_each_read_run.
      rewrite (assign_all_ext (persisted_or_default d)
                 (fun k v => default v (config !! k))).
      * reflexivity.
      * intros k v _. unfold persisted_or_default. now rewrite F, R.
  - unfold Py.bind at 1 in D.
    assert (P : forall k v, persisted_or_default d k v = v).
    { intros k v. unfold persisted_or_default. rewrite F, R.
      destruct content as [|[]]; reflexivity. }
    destruct content as [|v]; apply D; intros; apply P.
Qed.

(** What the standalone [save_config] writes depends on the values of its
    twelve attributes only. *)
Lemma standalone_save_config_run (d : disk) (self : gmap string pyval) :
  writable d = true ->
  (forall k, k ∈ StandaloneStore.saved_keys -> is_Some (self !! k)) ->
  exists config,
    StandaloneStore.save_config d self =
      (Ok {| config_file := Some (Document (PDict config));
             readable := readable d; writable := writable d |}, self) /\
    forall k, config !! k =
              if bool_decide (k ∈ StandaloneStore.saved_keys) then self !! k else None.
Proof.
  intros Hw Hall.
  destruct (build_config_ok StandaloneStore.saved_keys ∅ self Hall)
    as (config & E & Hin & Hout).
  exists config. unfold StandaloneStore.save_config, Py.bind. rewrite E, Hw.
  split; [reflexivity|]. intros k. case_bool_decide.
  - now apply Hin.
  - rewrite Hout by assumption. apply lookup_empty.
Qed.

(** X21. Both programs keep their settings in [break_reminder_config.json].
    When the integrated application has saved settings [s], the standalone
    one loads the nine settings they share from the file and takes its own
    three from its defaults; when it saves, it writes its twelve keys only;
    and the integrated application then loads the nine shared settings as
    they were and its own four options ([auto_restart_on_skip],
    [activity_detection_enabled], [inactivity_timeout],
    [pause_during_breaks]) at their defaults, whatever they were in [s]. *)
Theorem settings_through_standalone (s : Settings) (first second : gmap string pyval) :
  exists self',
    through_standalone s first second = (Ok tt, self') /\
    settings_of_attrs self' = Some (integrated_options_reset s) /\
    let standalone :=
      (StandaloneStore.load_config
         {| config_file := Some (Document (PDict (attrs_of_settings s)));
            readable := true; writable := true |} first).2 in
    standalone !! "work_minutes" = Some (PInt (work_minutes s)) /\
    standalone !! "pause_on_idle" = Some (PBool true) /\
    standalone !! "idle_threshold" = Some (PInt 300) /\
    standalone !! "custom_sound_path" = Some (PStr "").
Proof.
  set (written := {| config_file := Some (Document (PDict (attrs_of_settings s)));
                     readable := true; writable := true |}).
  assert (L : forall self k v,
            (k, v) ∈ StandaloneStore.default_config ->
            (StandaloneStore.load_config written self).2 !! k =
            Some (default v (attrs_of_settings s !! k))).
  { intros self k v Hin. rewrite standalone_load_config_closed_form. cbn [snd].
    rewrite lookup_insert_ne.
    - rewrite (assign_all_lookup (persisted_or_default written) _ _ k v);
        auto using standalone_default_keys_distinct.
    - intros <-. apply list_elem_of_In in Hin. cbn in Hin.
      repeat (destruct Hin as [Hin|Hin]; [discriminate Hin|]). exact Hin. }
  assert (Hall : forall self k, k ∈ StandaloneStore.saved_keys ->
            is_Some ((StandaloneStore.load_config written self).2 !! k)).
  { intros self k Hk.
    change StandaloneStore.saved_keys with (StandaloneStore.default_config.*1) in Hk.
    apply list_elem_of_fmap in Hk as [[k' v] [-> Hin]]. cbn [fst].
    rewrite (L self k' v Hin). eauto. }
  (* the file the standalone program writes does not depend on its object *)
  assert (Same : forall self,
            exists config,
              StandaloneStore.save_config written
                (StandaloneStore.load_config written self).2 =
              (Ok {| config_file := Some (Document (PDict config));
                     readable := true; writable := true |},
               (StandaloneStore.load_config written self).2) /\
              forall k v, (k, v) ∈ SettingsStore.default_config ->
                default v (config !! k) =
                default v
                  ((if bool_decide (k ∈ StandaloneStore.saved_keys)
                    then attrs_of_settings s !! k else None))).
  { intros self.
    destruct (standalone_save_config_run written _ eq_refl (Hall self))
      as (config & E & C).
    exists config. split; [exact E|]. intros k v Hin. rewrite C.
    case_bool_decide as Hk; [|reflexivity].
    change StandaloneStore.saved_keys with (StandaloneStore.default_config.*1) in Hk.
    apply list_elem_of_fmap in Hk as [[k' v'] [-> Hin']]. cbn [fst] in *.
    rewrite (L self k' v' Hin').
    destruct (saved_keys_cover_defaults s k' v Hin) as [x Hx]. rewrite Hx.
    reflexivity. }
  destruct (Same first) as (config & E & C).
  unfold through_standalone. fold written. rewrite E.
  match goal with
  | |- context [SettingsStore.load_config ?t second] =>
      destruct (load_config_run t second) as (self' & E' & H')
  end.
  exists self'. split; [exact E'|]. split.
  - rewrite <- (settings_of_attrs_of_settings (integrated_options_reset s)).
    apply settings_of_attrs_agree. intros k v Hin.
    rewrite (H' k v Hin). unfold persisted_or_default. cbn.
    rewrite (C k v Hin). clear - Hin.
    apply list_elem_of_In in Hin. cbn in Hin. destruct s.
    repeat (destruct Hin as [Hin|Hin];
            [inversion Hin; subst; vm_compute; reflexivity|]).
    destruct Hin.
  - cbn zeta.
    rewrite (L first "work_minutes" (PInt 25)) by in_list.
    rewrite (L first "pause_on_idle" (PBool true)) by in_list.
    rewrite (L first "idle_threshold" (PInt 300)) by in_list.
    rewrite (L first "custom_sound_path" (PStr "")) by in_list.
    destruct s. repeat split; vm_compute; reflexivity.
Qed.

Example through_standalone_example :
  settings_of_attrs
    (through_standalone
       (set_pause_during_breaks true (set_inactivity_timeout 120 default_settings))
       ∅ ∅).2 =
  Some default_settings.
Proof. vm_compute. reflexivity. Qed.

(** ** Inactivity during work, and resetting twice *)

(** X22. The ordinary case of the inactivity pause.  The monitor is
    listening and active, detection is enabled and available, the phase is
    one in which the timer may pause, and more than the timeout has passed
    since the last input.  Then the next inactivity check pauses the timer,
    with the reason "Away from computer", and from there on the loop holds
    [time_left] for as many passes as the monitor stays silent. *)
Theorem inactivity_check_pauses_timer (now : Z) (T : nat) (app : App) :
  ActivityMonitor.running (activity_monitor app) = true ->
  ActivityMonitor.callback (activity_monitor app) = true ->
  ActivityMonitor.is_active (activity_monitor app) = true ->
  ActivityMonitor.timeout (activity_monitor app) <
    now - ActivityMonitor.last_activity (activity_monitor app) ->
  activity_detection_enabled (settings app) = true ->
  ACTIVITY_DETECTION_AVAILABLE app = true ->
  is_break app = false \/ pause_during_breaks (settings app) = true ->
  is_running app = true ->
  0 < time_left app ->
  let app' := deliver (InactivityCheck now) app in
  is_paused app' = true /\
  pause_reason app' = "Away from computer" /\
  time_left app' = time_left app /\
  run_timer (repeat [] T) app' = (app', StillRunning).
Proof.
  intros Hrun Hcb Hact Hlate Hen Hav Hph Hr Ht. cbn zeta.
  assert (E : deliver (InactivityCheck now) app =
              on_activity_change ActivityMonitor.paused
                (set_activity_monitor
                   {| ActivityMonitor.callback := true;
                      ActivityMonitor.timeout :=
                        ActivityMonitor.timeout (activity_monitor app);
                      ActivityMonitor.last_activity :=
                        ActivityMonitor.last_activity (activity_monitor app);
                      ActivityMonitor.is_active := false;
                      ActivityMonitor.running := true |} app)).
  { unfold deliver. rewrite Hrun. unfold ActivityMonitor.monitor_activity_check.
    rewrite Hact.
    replace (_ <? _) with true by (symmetry; apply Z.ltb_lt; exact Hlate).
    cbn. rewrite Hcb, Hrun. reflexivity. }
  rewrite E. cbn [on_activity_change].
  split; [reflexivity|]. split; [reflexivity|]. split; [reflexivity|].
  apply paused_loop_holds; cbn; auto.
  unfold should_pause. cbn. rewrite Hen, Hav.
  destruct Hph as [->| ->]; cbn; [reflexivity|apply orb_true_r].
Qed.

Lemma inactivity_check_pauses_timer_witness :
  ActivityMonitor.running (activity_monitor fresh_app) = true /\
  ActivityMonitor.timeout (activity_monitor fresh_app) <
    61 - ActivityMonitor.last_activity (activity_monitor fresh_app) /\
  is_running fresh_app = true /\
  0 < time_left fresh_app /\
  is_paused (deliver (InactivityCheck 61) fresh_app) = true /\
  (run_timer (repeat [] 10) (deliver (InactivityCheck 61) fresh_app)).1 =
    deliver (InactivityCheck 61) fresh_app.
Proof.
  assert (L : ActivityMonitor.timeout (activity_monitor fresh_app) <
              61 - ActivityMonitor.last_activity (activity_monitor fresh_app))
    by (vm_compute; reflexivity).
  assert (P : 0 < time_left fresh_app) by (vm_compute; reflexivity).
  split; [reflexivity|]. split; [exact L|]. split; [reflexivity|]. split; [exact P|].
  destruct (inactivity_check_pauses_timer 61 10 fresh_app
              eq_refl eq_refl eq_refl L eq_refl eq_refl (or_introl eq_refl) eq_refl P)
    as (A & _ & _ & R).
  split; [exact A|]. rewrite R. reflexivity.
Defined.

Lemma entered_work_minutes_after_reset (app : App) :
  entered_work_minutes (after_reset app) = entered_work_minutes app.
Proof.
  unfold entered_work_minutes at 1. cbn.
  unfold entered_work_minutes, PyInt.int_if_nonempty.
  destruct (work_var (vars app)) as [|c text]; [reflexivity|].
  destruct (PyInt.int (String c text)); reflexivity.
Qed.

(** X23. Resetting twice is resetting once: a second [reset_timer], with the
    work field untouched in between, returns normally and changes
    nothing.  The same holds for any state reached by a reset, whatever the
    work field holds, a text that is not a number included. *)
Theorem reset_timer_idempotent (app : App) :
  reset_timer (reset_timer app).2 = (Ok tt, (reset_timer app).2).
Proof.
  rewrite !reset_timer_run. cbn [snd]. f_equal.
  unfold after_reset at 1. rewrite entered_work_minutes_after_reset.
  unfold after_reset. destruct app. reflexivity.
Qed.
